(** * export-gerencial: aggregation and report rendering

    A shallow embedding of [src/export-gerencial.py]: the statistics
    aggregator [gerar_estatisticas], the values derived by the two report
    renderers [gerar_html] and [gerar_excel], and the structured-data writer
    [salvar_json].

    Records fetched from the monitoring API are Python dictionaries obtained
    from parsed JSON, so they are modelled dynamically: a value is a [pyval],
    a dictionary is an association list in insertion order, and every
    operation that can raise in Python returns a [res].  A string is the
    sequence of the bytes of its UTF-8 encoding, whose order is the order of
    code points; a lone surrogate, which a Python string can hold and a UTF-8
    file refuses, is the three bytes that encoding would give it.  Floats are
    not values of [pyval]: the monitoring API delivers every scalar as a
    string; the percentages the renderers compute with [/] are exact
    rationals here.  A renderer is modelled by the values it places in its
    document (rows, labels, widths), not by the markup around them, and by
    the exceptions of the conversions and writes it makes on the way: the
    conversion of a value to text, the encoding of the text for the file and
    the check of a value written to a cell.  Failures of the file system, of
    memory and of the recursion limit are left out, and so are saving the
    workbook and the messages [main] prints. *)

From Stdlib Require Import String Ascii ZArith NArith List Lia Lqa Bool Arith.
From Stdlib Require Import QArith Qround Permutation Sorted.
Import ListNotations.

Local Open Scope string_scope.
Set Warnings "-register-all".

(** ** Python values and exceptions *)

Inductive pyval : Type :=
| VNone
| VBool (b : bool)
| VInt (z : Z)
| VStr (s : string)
| VList (l : list pyval)
| VDict (d : list (string * pyval)).

Definition pydict := list (string * pyval).

Inductive pyexc : Type :=
| KeyError
| ValueError
| TypeError
| AttributeError
| ZeroDivisionError
| UnicodeEncodeError
| IllegalCharacterError.

Inductive res (A : Type) : Type :=
| Ok (a : A)
| Raise (e : pyexc).

Arguments Ok {A} a.
Arguments Raise {A} e.

Definition bind {A B : Type} (m : res A) (k : A -> res B) : res B :=
  match m with
  | Ok a => k a
  | Raise e => Raise e
  end.

Notation "x <- m ;; k" := (bind m (fun x => k))
  (at level 61, m at next level, right associativity).

Definition is_ok {A : Type} (m : res A) : bool :=
  match m with Ok _ => true | Raise _ => false end.

(** [[f(x) for x in l]], stopping at the first element that raises. *)
Fixpoint mapM {A B : Type} (f : A -> res B) (l : list A) : res (list B) :=
  match l with
  | [] => Ok []
  | x :: l' => y <- f x ;; ys <- mapM f l' ;; Ok (y :: ys)
  end.

(** [sum(1 for x in l if p(x))] where the test may raise. *)
Fixpoint countM {A : Type} (p : A -> res bool) (l : list A) : res nat :=
  match l with
  | [] => Ok 0%nat
  | x :: l' => b <- p x ;; n <- countM p l' ;; Ok (if b then S n else n)
  end.

(** ** Dictionary and attribute access *)

Fixpoint lookup (k : string) (d : pydict) : option pyval :=
  match d with
  | [] => None
  | (k', v) :: d' => if String.eqb k k' then Some v else lookup k d'
  end.

(** [d.get(k, default)] on a dictionary. *)
Definition dict_get (d : pydict) (k : string) (default : pyval) : pyval :=
  match lookup k d with
  | Some v => v
  | None => default
  end.

(** [v.get(k, default)]: only dictionaries have the attribute [get]. *)
Definition py_get (v : pyval) (k : string) (default : pyval) : res pyval :=
  match v with
  | VDict d => Ok (dict_get d k default)
  | _ => Raise AttributeError
  end.

(** [v[k]] with a string key. *)
Definition py_subscript (v : pyval) (k : string) : res pyval :=
  match v with
  | VDict d =>
      match lookup k d with
      | Some x => Ok x
      | None => Raise KeyError
      end
  | _ => Raise TypeError
  end.

(** [v.lower()], with the case mapping [lower] of the string type. *)
Definition py_lower (lower : string -> string) (v : pyval) : res string :=
  match v with
  | VStr s => Ok (lower s)
  | _ => Raise AttributeError
  end.

(** Truth value of [v], as tested by [if v], [v or w] and generator filters. *)
Definition py_truthy (v : pyval) : bool :=
  match v with
  | VNone => false
  | VBool b => b
  | VInt z => negb (Z.eqb z 0)
  | VStr s => negb (String.eqb s "")
  | VList l => match l with [] => false | _ => true end
  | VDict d => match d with [] => false | _ => true end
  end.

(** [v or w]. *)
Definition py_or (v w : pyval) : pyval := if py_truthy v then v else w.

(** [v == "s"] against a string literal. *)
Definition py_eq_str (v : pyval) (s : string) : bool :=
  match v with
  | VStr s' => String.eqb s' s
  | _ => false
  end.

(** Lists and dictionaries are unhashable. *)
Definition py_hashable (v : pyval) : bool :=
  match v with
  | VList _ | VDict _ => false
  | _ => true
  end.

(** Equality of hashable values as dictionary keys: [True == 1], [False == 0]. *)
Definition py_key_eqb (v w : pyval) : bool :=
  match v, w with
  | VNone, VNone => true
  | VBool a, VBool b => Bool.eqb a b
  | VBool a, VInt z => Z.eqb (if a then 1 else 0) z
  | VInt z, VBool a => Z.eqb z (if a then 1 else 0)
  | VInt a, VInt b => Z.eqb a b
  | VStr a, VStr b => String.eqb a b
  | _, _ => false
  end.

(** The one-character strings of [s] (one per byte in this model). *)
Fixpoint chars (s : string) : list pyval :=
  match s with
  | EmptyString => []
  | String c s' => VStr (String c EmptyString) :: chars s'
  end.

(** The elements produced by [for x in v]. *)
Definition py_iter (v : pyval) : res (list pyval) :=
  match v with
  | VList l => Ok l
  | VDict d => Ok (map (fun kv => VStr (fst kv)) d)
  | VStr s => Ok (chars s)
  | _ => Raise TypeError
  end.

(** [len(v)] *)
Definition py_len (v : pyval) : res nat :=
  match v with
  | VList l => Ok (length l)
  | VDict d => Ok (length d)
  | VStr s => Ok (String.length s)
  | _ => Raise TypeError
  end.

(** ** Runtime services

    The case mapping of strings, the two date formatters, the wall clock,
    the limit on the conversion between integers and decimal text, the
    conversion of a text with characters outside ASCII to an integer and the
    text of a list or dictionary belong to the Python runtime; they are
    parameters of the model.

    [now r i] is the reading of [int(datetime.now().timestamp())] that the
    renderer [r] takes while it renders the problem at position [i]: each
    renderer reads the clock on its own.  [int_max_str_digits] is
    [sys.get_int_max_str_digits()], 4300 unless configured otherwise and 0
    for no limit.  [int_unicode s] is [int(s)] for a string [s] that has a
    character outside ASCII, [None] when it raises ValueError.  [repr v] is
    the text of [str(v)] for a list or dictionary [v]. *)

Inductive renderer : Type := Document | Workbook.

Record runtime : Type := {
  lower : string -> string;
  fromisoformat : pyval -> res string;
  fromtimestamp : Z -> res string;
  now : renderer -> nat -> Z;
  int_max_str_digits : nat;
  int_unicode : string -> option Z;
  repr : pyval -> string
}.

(** ** [int(v)]

    [int] of an ASCII string skips the white space of the C locale (bytes 9
    to 13 and 32) at both ends, accepts a sign and decimal digits with single
    underscores between them, and refuses a text of more digits than the
    limit.  A string with a character outside ASCII is left to the
    runtime. *)

Definition is_space (c : ascii) : bool :=
  let n := nat_of_ascii c in
  (Nat.leb 9 n && Nat.leb n 13) || Nat.eqb n 32.

Definition is_digit (c : ascii) : bool :=
  let n := nat_of_ascii c in Nat.leb 48 n && Nat.leb n 57.

Definition digit_val (c : ascii) : Z := Z.of_nat (nat_of_ascii c) - 48.

Fixpoint drop_spaces (s : list ascii) : list ascii :=
  match s with
  | c :: s' => if is_space c then drop_spaces s' else s
  | [] => []
  end.

Definition strip (s : list ascii) : list ascii :=
  rev (drop_spaces (rev (drop_spaces s))).

(** Decimal digits, single underscores allowed between two digits. *)
Fixpoint parse_digits (s : list ascii) (acc : Z) (after_digit : bool) : option Z :=
  match s with
  | [] => if after_digit then Some acc else None
  | c :: s' =>
      if is_digit c then parse_digits s' (10 * acc + digit_val c)%Z true
      else if Ascii.eqb c "_"%char
           then (if after_digit then parse_digits s' acc false else None)
           else None
  end.

(** The integer an ASCII text denotes. *)
Definition int_of_string (s : string) : option Z :=
  match strip (list_ascii_of_string s) with
  | c :: s' =>
      if Ascii.eqb c "-"%char then option_map Z.opp (parse_digits s' 0%Z false)
      else if Ascii.eqb c "+"%char then parse_digits s' 0%Z false
      else parse_digits (c :: s') 0%Z false
  | [] => None
  end.

Definition is_ascii (c : ascii) : bool := Nat.ltb (nat_of_ascii c) 128.

(** A decimal text of [n] digits is refused when a limit is set, [n] is above
    it and above 640, the threshold below which the limit is not checked. *)
Definition exceeds_limit (rt : runtime) (n : nat) : bool :=
  Nat.ltb 0 (int_max_str_digits rt) && Nat.ltb 640 n
  && Nat.ltb (int_max_str_digits rt) n.

Definition count_digits (s : string) : nat :=
  length (filter is_digit (list_ascii_of_string s)).

Definition py_int (rt : runtime) (v : pyval) : res Z :=
  match v with
  | VInt z => Ok z
  | VBool b => Ok (if b then 1 else 0)%Z
  | VStr s =>
      match (if forallb is_ascii (list_ascii_of_string s)
             then (if exceeds_limit rt (count_digits s) then None
                   else int_of_string s)
             else int_unicode rt s) with
      | Some z => Ok z
      | None => Raise ValueError
      end
  | _ => Raise TypeError
  end.

(** [str(z)] for an integer: decimal digits, most significant first. *)
Definition digit_char (d : Z) : ascii := ascii_of_nat (48 + Z.to_nat d).

Fixpoint digits_of (fuel : nat) (n : Z) : list ascii :=
  match fuel with
  | O => [digit_char n]
  | S f =>
      if (n <? 10)%Z then [digit_char n]
      else (digits_of f (n / 10) ++ [digit_char (n mod 10)])%list
  end.

(** The digits of [n >= 0]; a number has no more decimal digits than bits. *)
Definition digits (n : Z) : list ascii := digits_of (Z.to_nat (Z.log2 n)) n.

Definition repr_int (z : Z) : list ascii :=
  if (z <? 0)%Z then "-"%char :: digits (- z) else digits z.

Definition str_of_Z (z : Z) : string := string_of_list_ascii (repr_int z).

(** ** [str(v)]: the text of a value placed in an f-string

    The conversion of an integer to decimal text is refused beyond the limit,
    also for an integer inside a list or dictionary; no other value of
    [pyval] makes [str] raise. *)

Definition int_text_ok (rt : runtime) (z : Z) : bool :=
  negb (exceeds_limit rt (length (digits (Z.abs z)))).

Fixpoint printable (rt : runtime) (v : pyval) {struct v} : bool :=
  match v with
  | VInt z => int_text_ok rt z
  | VList l => forallb (printable rt) l
  | VDict d => forallb (fun kv => printable rt (snd kv)) d
  | _ => true
  end.

Definition py_str (rt : runtime) (v : pyval) : string :=
  match v with
  | VNone => "None"
  | VBool b => if b then "True" else "False"
  | VInt z => str_of_Z z
  | VStr s => s
  | VList _ | VDict _ => repr rt v
  end.

(** A string holds a lone surrogate (a code point from U+D800 to U+DFFF,
    which the JSON decoder delivers for an unpaired [\u] escape): in the
    bytes of the model, the byte 237 followed by a byte from 160 on.  The
    UTF-8 codec of a file refuses to encode it. *)
Fixpoint has_surrogate (s : list ascii) : bool :=
  match s with
  | c :: s' =>
      match s' with
      | d :: _ =>
          (Nat.eqb (nat_of_ascii c) 237 && Nat.leb 160 (nat_of_ascii d))
          || has_surrogate s'
      | [] => false
      end
  | [] => false
  end.

(** The text of [v] can be written to a UTF-8 file. *)
Definition encodable (rt : runtime) (v : pyval) : bool :=
  negb (has_surrogate (list_ascii_of_string (py_str rt v))).

(** ** [sorted]: a stable sort on precomputed keys *)

Section Sorted.
Context {A : Type} (leb : A -> A -> bool).

Fixpoint insert (x : A) (l : list A) : list A :=
  match l with
  | [] => [x]
  | y :: l' => if leb x y then x :: l else y :: insert x l'
  end.

(** Equal elements keep their input order: an element is placed in front of
    the first element of the sorted tail that is not smaller. *)
Fixpoint stable_sort (l : list A) : list A :=
  match l with
  | [] => []
  | x :: l' => insert x (stable_sort l')
  end.
End Sorted.

(** [sorted(l, key=key)]: the keys are computed first, left to right. *)
Definition py_sorted {A K : Type} (key : A -> res K) (leb : K -> K -> bool)
    (l : list A) : res (list A) :=
  ks <- mapM (fun x => k <- key x ;; Ok (k, x)) l ;;
  Ok (map snd (stable_sort (fun a b => leb (fst a) (fst b)) ks)).

(** ** [collections.Counter] *)

Section Counter.
Context {K : Type} (eqb : K -> K -> bool).

Definition counter := list (K * nat).

Fixpoint counter_add (k : K) (c : counter) : counter :=
  match c with
  | [] => [(k, 1%nat)]
  | (k', n) :: c' =>
      if eqb k k' then (k', S n) :: c' else (k', n) :: counter_add k c'
  end.

(** [Counter(l)]: keys in order of first occurrence. *)
Definition Counter (l : list K) : counter :=
  fold_left (fun c k => counter_add k c) l [].

(** [c.get(k, 0)] *)
Fixpoint counter_get (k : K) (c : counter) : nat :=
  match c with
  | [] => 0%nat
  | (k', n) :: c' => if eqb k k' then n else counter_get k c'
  end.
End Counter.

(** [c.most_common()]: by count, largest first; equal counts keep the order
    of first occurrence. *)
Definition most_common_all {K : Type} (c : list (K * nat)) : list (K * nat) :=
  stable_sort (fun a b => Nat.leb (snd b) (snd a)) c.

(** [c.most_common(n)]. *)
Definition most_common {K : Type} (n : nat) (c : list (K * nat)) : list (K * nat) :=
  firstn n (most_common_all c).

(** ** Reference tables *)

Definition ITEM_TYPES : list (string * string) :=
  [ ("0", "Zabbix agent"); ("2", "Zabbix trapper"); ("3", "Simple check");
    ("5", "Zabbix internal"); ("7", "Zabbix agent (active)"); ("9", "Web item");
    ("10", "External check"); ("11", "Database monitor"); ("12", "IPMI agent");
    ("13", "SSH agent"); ("14", "Telnet agent"); ("15", "Calculated");
    ("16", "JMX agent"); ("17", "SNMP trap"); ("18", "Dependent item");
    ("19", "HTTP agent"); ("20", "SNMP agent"); ("21", "Script") ].

Definition VALUE_TYPES : list (string * string) :=
  [ ("0", "Numérico (float)"); ("1", "Caractere"); ("2", "Log");
    ("3", "Numérico (inteiro)"); ("4", "Texto") ].

Definition TRIGGER_PRIORITIES : list (string * (string * string)) :=
  [ ("0", ("Não classificada", "#97AAB3")); ("1", ("Informação", "#7499FF"));
    ("2", ("Aviso", "#FFC859")); ("3", ("Média", "#FFA059"));
    ("4", ("Alta", "#E97659")); ("5", ("Desastre", "#E45959")) ].

Definition STATUS_MAP : list (string * (string * string)) :=
  [ ("0", ("Ativo", "#4CAF50")); ("1", ("Desabilitado", "#F44336")) ].

Fixpoint assoc {V : Type} (k : string) (t : list (string * V)) : option V :=
  match t with
  | [] => None
  | (k', v) :: t' => if String.eqb k k' then Some v else assoc k t'
  end.

(** [TABLE.get(v, default)] on a table with string keys: hashing [v] raises
    for lists and dictionaries; a non-string key is never found. *)
Definition table_get {V : Type} (t : list (string * V)) (v : pyval) (default : V)
    : res V :=
  match v with
  | VList _ | VDict _ => Raise TypeError
  | VStr s => Ok (match assoc s t with Some x => x | None => default end)
  | _ => Ok default
  end.

Definition Desconhecido : string := "Desconhecido".
Definition unknown_info : string * string := (Desconhecido, "#888").

(** ** Statistics aggregator *)

Record item_stats : Type := {
  total : nat;
  ativos : nat;
  desabilitados : nat;
  por_tipo : list (string * nat);
  por_valor : list (string * nat);
  com_preprocessing : nat;
  com_tags : nat
}.

Record trigger_stats : Type := {
  t_total : nat;
  ativas : nat;
  desabilitadas : nat;
  por_prioridade : list (pyval * nat);
  com_dependencias : nat;
  t_com_tags : nat
}.

Record stats : Type := {
  st_itens : item_stats;
  st_triggers : trigger_stats
}.

(** [sum(1 for i in l if i.get(k) == s)] *)
Definition count_eq (k s : string) (l : list pyval) : res nat :=
  countM (fun i => v <- py_get i k VNone ;; Ok (py_eq_str v s)) l.

(** [sum(1 for i in l if i.get(k))] *)
Definition count_truthy (k : string) (l : list pyval) : res nat :=
  countM (fun i => v <- py_get i k VNone ;; Ok (py_truthy v)) l.

(** [Counter(TABLE.get(i.get(k), "Desconhecido") for i in l)] *)
Definition count_labels (t : list (string * string)) (k : string)
    (l : list pyval) : res (list (string * nat)) :=
  labels <- mapM (fun i => v <- py_get i k VNone ;; table_get t v Desconhecido) l ;;
  Ok (Counter String.eqb labels).

(** [Counter(t.get("priority", "0") for t in l)]: the keys must be hashable. *)
Definition count_priorities (l : list pyval) : res (list (pyval * nat)) :=
  keys <- mapM (fun t => v <- py_get t "priority" (VStr "0") ;;
                         if py_hashable v then Ok v else Raise TypeError) l ;;
  Ok (Counter py_key_eqb keys).

Definition gerar_estatisticas (itens triggers : list pyval) : res stats :=
  i_at <- count_eq "status" "0" itens ;;
  i_de <- count_eq "status" "1" itens ;;
  i_tp <- count_labels ITEM_TYPES "type" itens ;;
  i_vl <- count_labels VALUE_TYPES "value_type" itens ;;
  i_pp <- count_truthy "preprocessing" itens ;;
  i_tg <- count_truthy "tags" itens ;;
  t_at <- count_eq "status" "0" triggers ;;
  t_de <- count_eq "status" "1" triggers ;;
  t_pr <- count_priorities triggers ;;
  t_dp <- count_truthy "dependencies" triggers ;;
  t_tg <- count_truthy "tags" triggers ;;
  Ok {| st_itens := {| total := length itens; ativos := i_at;
                       desabilitados := i_de; por_tipo := i_tp;
                       por_valor := i_vl; com_preprocessing := i_pp;
                       com_tags := i_tg |};
        st_triggers := {| t_total := length triggers; ativas := t_at;
                          desabilitadas := t_de; por_prioridade := t_pr;
                          com_dependencias := t_dp; t_com_tags := t_tg |} |}.

(** ** Derived values shared by both renderers *)

(** [count / denom * 100] *)
Definition py_percent (count denom : nat) : res Q :=
  match denom with
  | O => Raise ZeroDivisionError
  | _ => Ok ((inject_Z (Z.of_nat count) / inject_Z (Z.of_nat denom)) * 100)%Q
  end.

(** Nearest integer, exact halves to the even neighbour. *)
Definition round_half_even (q : Q) : Z :=
  let f := Qfloor q in
  match Qcompare (q - inject_Z f) (1 # 2) with
  | Lt => f
  | Gt => (f + 1)%Z
  | Eq => if Z.even f then f else (f + 1)%Z
  end.

(** [f"{q:.1f}"] for a non-negative [q], rounded from the exact quotient.
    The source rounds the binary floating-point quotient, which has no
    counterpart here; the two texts can differ where ten times the exact
    value falls on a half: 23 of 80 is 28.75 per cent, shown as 28.8 here
    and as 28.7 by the source, whose quotient lies just below. *)
Definition format_1f (q : Q) : string :=
  let t := round_half_even (q * 10) in
  str_of_Z (t / 10) ++ "." ++ str_of_Z (t mod 10).

(** The duration text of a problem that started at [clock], read at [t]. *)
Definition duracao (t clock : Z) : string :=
  let duracao_seg := (t - clock)%Z in
  let dias := (duracao_seg / 86400)%Z in
  let horas := ((duracao_seg mod 86400) / 3600)%Z in
  let minutos := ((duracao_seg mod 3600) / 60)%Z in
  if (0 <? dias)%Z then
    str_of_Z dias ++ "d " ++ str_of_Z horas ++ "h " ++ str_of_Z minutos ++ "m"
  else if (0 <? horas)%Z then
    str_of_Z horas ++ "h " ++ str_of_Z minutos ++ "m"
  else
    str_of_Z minutos ++ "m".

(** [int(problem.get("clock", 0))] *)
Definition problem_clock (rt : runtime) (problem : pyval) : res Z :=
  c <- py_get problem "clock" (VInt 0) ;;
  py_int rt c.

(** The start-time cell: a dash when [clock] is zero. *)
Definition inicio_cell (rt : runtime) (clock : Z) : res string :=
  if (clock =? 0)%Z then Ok "-" else fromtimestamp rt clock.

(** The duration cell, read at time [t]: a dash when [clock] is zero. *)
Definition duracao_cell (t clock : Z) : string :=
  if (clock =? 0)%Z then "-" else duracao t clock.

Definition ack_label (problem : pyval) : res string :=
  a <- py_get problem "acknowledged" VNone ;;
  Ok (if py_eq_str a "1" then "Sim" else "Não").

Fixpoint enumerate {A : Type} (start : nat) (l : list A) : list (nat * A) :=
  match l with
  | [] => []
  | x :: l' => (start, x) :: enumerate (S start) l'
  end.

(** [Counter(e.get("name", "") for e in events).most_common(20)] *)
Definition top_alerts (events : list pyval) : res (list (pyval * nat)) :=
  names <- mapM (fun e => v <- py_get e "name" (VStr "") ;;
                          if py_hashable v then Ok v else Raise TypeError) events ;;
  Ok (most_common 20 (Counter py_key_eqb names)).

(** [(count / total_events * 100) if total_events > 0 else 0] *)
Definition percentual (count total_events : nat) : res Q :=
  if Nat.ltb 0 total_events then py_percent count total_events else Ok 0%Q.


(** ** Styled-document renderer *)

Record bar : Type := {
  bar_label : string;
  bar_width : Q;
  bar_count : nat
}.

Definition chip : Type := pyval * option pyval.

Inductive tags_cell : Type :=
| Dash
| Chips (l : list chip).

Record item_row : Type := {
  ir_class : string;
  ir_status : string;
  ir_name : pyval;
  ir_key : pyval;
  ir_tipo : string;
  ir_valor_tipo : string;
  ir_delay : pyval;
  ir_history : pyval;
  ir_tags : tags_cell
}.

Record trigger_row : Type := {
  tr_class : string;
  tr_status : string;
  tr_priority : string * string;
  tr_description : pyval;
  tr_expression : pyval;
  tr_comments : pyval;
  tr_tags : tags_cell
}.

Record problem_row : Type := {
  pr_severity : string * string;
  pr_name : pyval;
  pr_inicio : string;
  pr_duracao : string;
  pr_ack : string
}.

Inductive alert_row : Type :=
| AlertRow (r : problem_row)
| NoAlertsRow.

Record freq_row : Type := {
  fr_pos : nat;
  fr_name : pyval;
  fr_count : nat;
  fr_width : Q;
  fr_percent : string
}.

Record html_doc : Type := {
  h_host : pyval * pyval * pyval;
  h_data_exportacao : string;
  h_stats : stats;
  h_prioridades : list (string * string * nat);
  h_tipos : list bar;
  h_valores : list bar;
  h_itens_count : nat;
  h_itens : list item_row;
  h_triggers_count : nat;
  h_triggers : list trigger_row;
  h_problems_count : nat;
  h_alertas : list alert_row;
  h_frequentes : option (list freq_row)
}.

(** The sort key of an item: [x.get("name", "").lower()]. *)
Definition item_key (rt : runtime) (x : pyval) : res string :=
  n <- py_get x "name" (VStr "") ;;
  py_lower (lower rt) n.

(** The sort key of a trigger:
    [(-int(x.get("priority", "0")), x.get("description", "").lower())]. *)
Definition trigger_key (rt : runtime) (x : pyval) : res (Z * string) :=
  p <- py_get x "priority" (VStr "0") ;;
  n <- py_int rt p ;;
  d <- py_get x "description" (VStr "") ;;
  s <- py_lower (lower rt) d ;;
  Ok ((- n)%Z, s).

(** Order of Python tuples [(int, str)]. *)
Definition trigger_key_leb (a b : Z * string) : bool :=
  (fst a <? fst b)%Z || ((fst a =? fst b)%Z && String.leb (snd a) (snd b)).

Definition sort_itens (rt : runtime) (itens : list pyval) : res (list pyval) :=
  py_sorted (item_key rt) String.leb itens.

Definition sort_triggers (rt : runtime) (triggers : list pyval) : res (list pyval) :=
  py_sorted (trigger_key rt) trigger_key_leb triggers.

(** One pass of the tag loop of a row. *)
Definition html_tag (tag : pyval) : res chip :=
  v <- py_get tag "value" VNone ;;
  tag_value <- (if py_truthy v
                then x <- py_subscript tag "value" ;; Ok (Some x)
                else Ok None) ;;
  t <- py_subscript tag "tag" ;;
  Ok (t, tag_value).

(** [tags_html or "-"] after the tag loop over [record.get("tags", [])]. *)
Definition html_tags (record : pyval) : res tags_cell :=
  tags <- py_get record "tags" (VList []) ;;
  l <- py_iter tags ;;
  cs <- mapM html_tag l ;;
  Ok (match cs with [] => Dash | _ => Chips cs end).

Definition status_class (record : pyval) : res string :=
  s <- py_get record "status" VNone ;;
  Ok (if py_eq_str s "0" then "status-active" else "status-disabled").

Definition html_status (record : pyval) : res string :=
  s <- py_get record "status" (VStr "0") ;;
  info <- table_get STATUS_MAP s unknown_info ;;
  Ok (fst info).

Definition html_item_row (item : pyval) : res item_row :=
  status <- html_status item ;;
  t <- py_get item "type" (VStr "") ;;
  tipo <- table_get ITEM_TYPES t Desconhecido ;;
  vt <- py_get item "value_type" (VStr "") ;;
  valor_tipo <- table_get VALUE_TYPES vt Desconhecido ;;
  tags <- html_tags item ;;
  cls <- status_class item ;;
  name <- py_get item "name" (VStr "") ;;
  key <- py_get item "key_" (VStr "") ;;
  delay <- py_get item "delay" (VStr "-") ;;
  history <- py_get item "history" (VStr "-") ;;
  Ok {| ir_class := cls; ir_status := status; ir_name := name; ir_key := key;
        ir_tipo := tipo; ir_valor_tipo := valor_tipo; ir_delay := delay;
        ir_history := history; ir_tags := tags |}.

Definition priority_info (record : pyval) (field : string) : res (string * string) :=
  p <- py_get record field (VStr "0") ;;
  table_get TRIGGER_PRIORITIES p unknown_info.

Definition html_trigger_row (trigger : pyval) : res trigger_row :=
  status <- html_status trigger ;;
  info <- priority_info trigger "priority" ;;
  tags <- html_tags trigger ;;
  cls <- status_class trigger ;;
  description <- py_get trigger "description" (VStr "") ;;
  expression <- py_get trigger "expression" (VStr "") ;;
  comments <- py_get trigger "comments" (VStr "") ;;
  Ok {| tr_class := cls; tr_status := status; tr_priority := info;
        tr_description := description; tr_expression := expression;
        tr_comments := py_or comments (VStr "-"); tr_tags := tags |}.

Definition html_problem_row (rt : runtime) (ip : nat * pyval) : res problem_row :=
  let (i, problem) := ip in
  info <- priority_info problem "severity" ;;
  clock <- problem_clock rt problem ;;
  inicio <- inicio_cell rt clock ;;
  ack <- ack_label problem ;;
  name <- py_get problem "name" (VStr "") ;;
  Ok {| pr_severity := info; pr_name := name; pr_inicio := inicio;
        pr_duracao := duracao_cell (now rt Document i) clock; pr_ack := ack |}.

(** Body of the active-alerts table. *)
Definition html_alertas (rt : runtime) (problems : pyval) : res (list alert_row) :=
  if py_truthy problems then
    l <- py_iter problems ;;
    rows <- mapM (html_problem_row rt) (enumerate 0 l) ;;
    Ok (map AlertRow rows)
  else Ok [NoAlertsRow].

Definition html_freq_row (total_events : nat) (e : nat * (pyval * nat))
    : res freq_row :=
  let '(pos, (alert_name, count)) := e in
  p <- percentual count total_events ;;
  Ok {| fr_pos := pos; fr_name := alert_name; fr_count := count;
        fr_width := p; fr_percent := format_1f p ++ "%" |}.

(** The frequency section, present only when [events] is true. *)
Definition html_frequentes (events : pyval) : res (option (list freq_row)) :=
  if py_truthy events then
    l <- py_iter events ;;
    top <- top_alerts l ;;
    total_events <- py_len events ;;
    rows <- mapM (html_freq_row total_events) (enumerate 1 top) ;;
    Ok (Some rows)
  else Ok None.

Definition max_count {K : Type} (c : list (K * nat)) : nat :=
  fold_right Nat.max 0%nat (map snd c).

Definition html_bar (denom : nat) (e : string * nat) : res bar :=
  w <- py_percent (snd e) denom ;;
  Ok {| bar_label := fst e; bar_width := w; bar_count := snd e |}.

(** The "Itens por Tipo de Coleta" chart. *)
Definition html_tipos (st : stats) : res (list bar) :=
  let top_tipos := most_common 8 (por_tipo (st_itens st)) in
  let max_tipo := match top_tipos with [] => 1%nat | _ => max_count top_tipos end in
  mapM (html_bar max_tipo) top_tipos.

(** The "Itens por Tipo de Valor" chart. *)
Definition html_valores (st : stats) : res (list bar) :=
  let por := por_valor (st_itens st) in
  let max_valor := match por with [] => 1%nat | _ => max_count por end in
  mapM (html_bar max_valor) (most_common_all por).

Definition html_prioridades (st : stats) : list (string * string * nat) :=
  map (fun priority =>
         let count := counter_get py_key_eqb (VStr priority)
                        (por_prioridade (st_triggers st)) in
         let info := match assoc priority TRIGGER_PRIORITIES with
                     | Some x => x | None => unknown_info end in
         (fst info, snd info, count))
      ["5"; "4"; "3"; "2"; "1"; "0"].

(** The values [gerar_html] places in its text, in the order the source
    evaluates them: the two sorts, the header, the charts, the three tables
    and the frequency section. *)
Definition montar_html (rt : runtime) (export_data : pydict) (st : stats)
    : res html_doc :=
  host <- py_subscript (VDict export_data) "host" ;;
  info <- py_subscript (VDict export_data) "export_info" ;;
  let itens := dict_get export_data "itens" (VList []) in
  let triggers := dict_get export_data "triggers" (VList []) in
  l_itens <- py_iter itens ;;
  itens_sorted <- sort_itens rt l_itens ;;
  l_triggers <- py_iter triggers ;;
  triggers_sorted <- sort_triggers rt l_triggers ;;
  name <- py_subscript host "name" ;;
  tech <- py_subscript host "host" ;;
  hostid <- py_subscript host "hostid" ;;
  d <- py_subscript info "data_exportacao" ;;
  data <- fromisoformat rt d ;;
  tipos <- html_tipos st ;;
  valores <- html_valores st ;;
  n_itens <- py_len itens ;;
  item_rows <- mapM html_item_row itens_sorted ;;
  n_triggers <- py_len triggers ;;
  trigger_rows <- mapM html_trigger_row triggers_sorted ;;
  let problems := dict_get export_data "problems" (VList []) in
  let events := dict_get export_data "events" (VList []) in
  n_problems <- py_len problems ;;
  alertas <- html_alertas rt problems ;;
  frequentes <- html_frequentes events ;;
  Ok {| h_host := (name, tech, hostid); h_data_exportacao := data;
        h_stats := st; h_prioridades := html_prioridades st;
        h_tipos := tipos; h_valores := valores;
        h_itens_count := n_itens; h_itens := item_rows;
        h_triggers_count := n_triggers; h_triggers := trigger_rows;
        h_problems_count := n_problems; h_alertas := alertas;
        h_frequentes := frequentes |}.

(** The field values and labels that the f-strings convert to text.  The
    labels of the reference tables, the counts and the texts returned by the
    date formatters are left out: they are texts of letters and digits. *)
Definition chip_values (c : chip) : list pyval :=
  fst c :: match snd c with Some v => [v] | None => [] end.

Definition tags_values (t : tags_cell) : list pyval :=
  match t with
  | Dash => []
  | Chips l => flat_map chip_values l
  end.

Definition item_values (r : item_row) : list pyval :=
  [ir_name r; ir_key r; ir_delay r; ir_history r] ++ tags_values (ir_tags r).

Definition trigger_values (r : trigger_row) : list pyval :=
  [tr_description r; tr_expression r; tr_comments r] ++ tags_values (tr_tags r).

Definition alert_values (a : alert_row) : list pyval :=
  match a with
  | AlertRow r => [pr_name r]
  | NoAlertsRow => []
  end.

Definition html_values (doc : html_doc) : list pyval :=
  [fst (fst (h_host doc)); snd (fst (h_host doc)); snd (h_host doc)]
  ++ map (fun b => VStr (bar_label b)) (h_tipos doc ++ h_valores doc)
  ++ flat_map item_values (h_itens doc)
  ++ flat_map trigger_values (h_triggers doc)
  ++ flat_map alert_values (h_alertas doc)
  ++ match h_frequentes doc with
     | Some rows => map fr_name rows
     | None => []
     end.

(** [gerar_html]: the text is built and then written to the output file,
    opened with the UTF-8 codec.  Building raises ValueError when a value
    cannot be converted to text (in the source at the place of the value,
    here after the values of all rows are computed); the write raises
    UnicodeEncodeError when the text holds a lone surrogate.  Failures of the
    file system are left out. *)
Definition gerar_html (rt : runtime) (export_data : pydict) (st : stats)
    : res html_doc :=
  doc <- montar_html rt export_data st ;;
  if forallb (printable rt) (html_values doc) then
    if forallb (encodable rt) (html_values doc) then Ok doc
    else Raise UnicodeEncodeError
  else Raise ValueError.

(** ** Spreadsheet renderer

    The model keeps the cell values each sheet receives (the [data] list of
    every row and the fill colour chosen for its first or second cell); the
    workbook object itself, its fonts, borders and column widths are left
    out.  A cell write goes through the value check of the workbook library,
    [cell_write]. *)

(** The check [openpyxl] applies to a value written to a cell: a list or a
    dictionary cannot be converted; a string is cut to its first 32767
    characters and refused when the part kept holds one of the control
    characters 0 to 8, 11, 12 and 14 to 31; None, booleans and integers are
    accepted.  A character is counted at its first byte. *)
Definition is_continuation (c : ascii) : bool :=
  let n := nat_of_ascii c in Nat.leb 128 n && Nat.ltb n 192.

Definition is_illegal (c : ascii) : bool :=
  let n := nat_of_ascii c in
  Nat.leb n 8 || Nat.eqb n 11 || Nat.eqb n 12 || (Nat.leb 14 n && Nat.leb n 31).

Fixpoint illegal_within (kept : N) (s : list ascii) : bool :=
  match s with
  | [] => false
  | c :: s' =>
      if is_continuation c then illegal_within kept s'
      else if (kept =? 0)%N then false
           else is_illegal c || illegal_within (N.pred kept) s'
  end.

Definition cell_write (v : pyval) : res unit :=
  match v with
  | VList _ | VDict _ => Raise ValueError
  | VStr s =>
      if illegal_within 32767 (list_ascii_of_string s)
      then Raise IllegalCharacterError else Ok tt
  | _ => Ok tt
  end.

(** The cell writes of one row, left to right. *)
Definition xl_write (vs : list pyval) : res unit :=
  _ <- mapM cell_write vs ;; Ok tt.

Inductive tag_part : Type :=
| TagOnly (t : pyval)
| TagValue (t v : pyval).

Inductive xl_tags_cell : Type :=
| XDash
| XJoined (parts : list tag_part).

Record xl_item_row : Type := {
  xi_status : string;
  xi_name : pyval;
  xi_key : pyval;
  xi_tipo : string;
  xi_valor_tipo : string;
  xi_delay : pyval;
  xi_history : pyval;
  xi_tags : xl_tags_cell;
  xi_fill : string
}.

Record xl_trigger_row : Type := {
  xt_status : string;
  xt_priority : string;
  xt_description : pyval;
  xt_expression : pyval;
  xt_comments : pyval;
  xt_tags : xl_tags_cell;
  xt_fill : option string
}.

Record xl_problem_row : Type := {
  xp_severity : string;
  xp_name : pyval;
  xp_inicio : string;
  xp_duracao : string;
  xp_ack : string;
  xp_fill : option string
}.

Inductive xl_alert_row : Type :=
| XAlertRow (r : xl_problem_row)
| XNoAlerts.

Record xl_top_row : Type := {
  xf_pos : nat;
  xf_name : pyval;
  xf_count : nat;
  xf_percent : string
}.

Record xl_doc : Type := {
  x_host : pyval * pyval * pyval;
  x_data_exportacao : string;
  x_stats : stats;
  x_alertas_ativos : nat;
  x_historico : nat;
  x_itens : list xl_item_row;
  x_triggers : list xl_trigger_row;
  x_alertas : list xl_alert_row;
  x_top : option (list xl_top_row)
}.

(** One element of the list comprehension that is joined into the tag cell. *)
Definition xl_tag (t : pyval) : res tag_part :=
  v <- py_get t "value" VNone ;;
  if py_truthy v then
    tag <- py_subscript t "tag" ;;
    value <- py_get t "value" (VStr "") ;;
    Ok (TagValue tag value)
  else
    tag <- py_subscript t "tag" ;;
    Ok (TagOnly tag).

(** [", ".join] accepts only strings: a lone tag must be one. *)
Definition joinable (p : tag_part) : bool :=
  match p with
  | TagOnly (VStr _) => true
  | TagOnly _ => false
  | TagValue _ _ => true
  end.

(** [tags or "-"]: the joined text is empty for no tag and for one empty tag. *)
Definition xl_tags (record : pyval) : res xl_tags_cell :=
  tags <- py_get record "tags" (VList []) ;;
  l <- py_iter tags ;;
  parts <- mapM xl_tag l ;;
  if forallb joinable parts then
    Ok (match parts with
        | [] => XDash
        | [TagOnly (VStr "")] => XDash
        | _ => XJoined parts
        end)
  else Raise TypeError.

Definition xl_status (record : pyval) : res string :=
  s <- py_get record "status" VNone ;;
  Ok (if py_eq_str s "0" then "Ativo" else "Desabilitado").

Definition xl_item_row_of (item : pyval) : res xl_item_row :=
  status <- xl_status item ;;
  t <- py_get item "type" (VStr "") ;;
  tipo <- table_get ITEM_TYPES t Desconhecido ;;
  vt <- py_get item "value_type" (VStr "") ;;
  valor_tipo <- table_get VALUE_TYPES vt Desconhecido ;;
  tags <- xl_tags item ;;
  name <- py_get item "name" (VStr "") ;;
  key <- py_get item "key_" (VStr "") ;;
  delay <- py_get item "delay" (VStr "-") ;;
  history <- py_get item "history" (VStr "-") ;;
  Ok {| xi_status := status; xi_name := name; xi_key := key; xi_tipo := tipo;
        xi_valor_tipo := valor_tipo; xi_delay := delay; xi_history := history;
        xi_tags := tags;
        xi_fill := if String.eqb status "Ativo" then "C8E6C9" else "FFCDD2" |}.

Definition xl_trigger_fill (priority : pyval) : option string :=
  if py_eq_str priority "5" then Some "FFCDD2"
  else if py_eq_str priority "4" then Some "FFCCBC"
  else if py_eq_str priority "3" then Some "FFE0B2"
  else if py_eq_str priority "2" then Some "FFF9C4"
  else if py_eq_str priority "1" then Some "BBDEFB"
  else None.

Definition xl_trigger_row_of (trigger : pyval) : res xl_trigger_row :=
  status <- xl_status trigger ;;
  priority <- py_get trigger "priority" (VStr "0") ;;
  info <- table_get TRIGGER_PRIORITIES priority unknown_info ;;
  tags <- xl_tags trigger ;;
  description <- py_get trigger "description" (VStr "") ;;
  expression <- py_get trigger "expression" (VStr "") ;;
  comments <- py_get trigger "comments" (VStr "") ;;
  Ok {| xt_status := status; xt_priority := fst info;
        xt_description := description; xt_expression := expression;
        xt_comments := py_or comments (VStr "-"); xt_tags := tags;
        xt_fill := xl_trigger_fill priority |}.

Definition xl_problem_fill (severity : pyval) : option string :=
  if py_eq_str severity "5" then Some "FFCDD2"
  else if py_eq_str severity "4" then Some "FFCCBC"
  else if py_eq_str severity "3" then Some "FFE0B2"
  else None.

Definition xl_problem_row_of (rt : runtime) (ip : nat * pyval) : res xl_problem_row :=
  let (i, problem) := ip in
  severity <- py_get problem "severity" (VStr "0") ;;
  info <- table_get TRIGGER_PRIORITIES severity unknown_info ;;
  clock <- problem_clock rt problem ;;
  inicio <- inicio_cell rt clock ;;
  ack <- ack_label problem ;;
  name <- py_get problem "name" (VStr "") ;;
  Ok {| xp_severity := fst info; xp_name := name; xp_inicio := inicio;
        xp_duracao := duracao_cell (now rt Workbook i) clock; xp_ack := ack;
        xp_fill := xl_problem_fill severity |}.

(** One row of the alert sheet: its values, then its cell writes.  Of the
    five cells only the name is a value of the record. *)
Definition xl_problem_line (rt : runtime) (ip : nat * pyval) : res xl_problem_row :=
  r <- xl_problem_row_of rt ip ;;
  _ <- xl_write [xp_name r] ;;
  Ok r.

(** Body of the "Alertas Ativos" sheet below its header row. *)
Definition xl_alertas (rt : runtime) (problems : pyval) : res (list xl_alert_row) :=
  if py_truthy problems then
    l <- py_iter problems ;;
    rows <- mapM (xl_problem_line rt) (enumerate 0 l) ;;
    Ok (map XAlertRow rows)
  else Ok [XNoAlerts].

Definition xl_top_row_of (total_events : nat) (e : nat * (pyval * nat))
    : res xl_top_row :=
  let '(row_idx, (alert_name, count)) := e in
  p <- percentual count total_events ;;
  Ok {| xf_pos := (row_idx - 1)%nat; xf_name := alert_name; xf_count := count;
        xf_percent := format_1f p ++ "%" |}.

Definition xl_top_line (total_events : nat) (e : nat * (pyval * nat))
    : res xl_top_row :=
  r <- xl_top_row_of total_events e ;;
  _ <- xl_write [xf_name r] ;;
  Ok r.

(** The "Top 20 Alertas" sheet, created only when [events] is true. *)
Definition xl_top (events : pyval) : res (option (list xl_top_row)) :=
  if py_truthy events then
    l <- py_iter events ;;
    top <- top_alerts l ;;
    total_events <- py_len events ;;
    rows <- mapM (xl_top_line total_events) (enumerate 2 top) ;;
    Ok (Some rows)
  else Ok None.

(** The text of the tag cell: the parts joined by a comma and a space, a
    part with a value being the f-string of the tag, a colon and the value;
    the dash for an empty text. *)
Definition part_text (rt : runtime) (p : tag_part) : string :=
  match p with
  | TagOnly t => py_str rt t
  | TagValue t v => py_str rt t ++ ":" ++ py_str rt v
  end.

Definition xl_tags_text (rt : runtime) (c : xl_tags_cell) : string :=
  match c with
  | XDash => "-"
  | XJoined parts => String.concat ", " (map (part_text rt) parts)
  end.

(** The parts with a value are f-strings: their tag and value must convert
    to text (in the source as each part is built, before the join). *)
Definition part_printable (rt : runtime) (p : tag_part) : bool :=
  match p with
  | TagOnly _ => true
  | TagValue t v => printable rt t && printable rt v
  end.

Definition tags_printable (rt : runtime) (c : xl_tags_cell) : bool :=
  match c with
  | XDash => true
  | XJoined parts => forallb (part_printable rt) parts
  end.

(** One row of the item sheet: its values, then its cell writes.  The
    status label and the two type labels are texts of the tables. *)
Definition xl_item_line (rt : runtime) (item : pyval) : res xl_item_row :=
  r <- xl_item_row_of item ;;
  if tags_printable rt (xi_tags r) then
    _ <- xl_write [xi_name r; xi_key r; xi_delay r; xi_history r;
                   VStr (xl_tags_text rt (xi_tags r))] ;;
    Ok r
  else Raise ValueError.

Definition xl_trigger_line (rt : runtime) (trigger : pyval) : res xl_trigger_row :=
  r <- xl_trigger_row_of trigger ;;
  if tags_printable rt (xt_tags r) then
    _ <- xl_write [xt_description r; xt_expression r; xt_comments r;
                   VStr (xl_tags_text rt (xt_tags r))] ;;
    Ok r
  else Raise ValueError.

(** The sheets built by [gerar_excel]: the summary, the items, the triggers,
    the active alerts and the most frequent alerts.  The texts the program
    itself writes (titles, headers, labels) and the counts are accepted by
    [cell_write] and not listed.  Saving the workbook is left out. *)
Definition gerar_excel (rt : runtime) (export_data : pydict) (st : stats)
    : res xl_doc :=
  host <- py_subscript (VDict export_data) "host" ;;
  info <- py_subscript (VDict export_data) "export_info" ;;
  let itens := dict_get export_data "itens" (VList []) in
  let triggers := dict_get export_data "triggers" (VList []) in
  let problems := dict_get export_data "problems" (VList []) in
  let events := dict_get export_data "events" (VList []) in
  name <- py_subscript host "name" ;;
  _ <- cell_write name ;;
  tech <- py_subscript host "host" ;;
  _ <- cell_write tech ;;
  hostid <- py_subscript host "hostid" ;;
  _ <- cell_write hostid ;;
  d <- py_subscript info "data_exportacao" ;;
  data <- fromisoformat rt d ;;
  n_problems <- py_len problems ;;
  n_events <- py_len events ;;
  l_itens <- py_iter itens ;;
  itens_sorted <- sort_itens rt l_itens ;;
  item_rows <- mapM (xl_item_line rt) itens_sorted ;;
  l_triggers <- py_iter triggers ;;
  triggers_sorted <- sort_triggers rt l_triggers ;;
  trigger_rows <- mapM (xl_trigger_line rt) triggers_sorted ;;
  alertas <- xl_alertas rt problems ;;
  top <- xl_top events ;;
  Ok {| x_host := (name, tech, hostid); x_data_exportacao := data;
        x_stats := st; x_alertas_ativos := n_problems; x_historico := n_events;
        x_itens := item_rows; x_triggers := trigger_rows;
        x_alertas := alertas; x_top := top |}.

(** ** Predicates used to state the properties *)

(** [i] is a record whose [status] field equals the code [s]. *)
Definition has_status (s : string) (i : pyval) : bool :=
  match i with
  | VDict d => py_eq_str (dict_get d "status" VNone) s
  | _ => false
  end.

(** [i] carries a status other than the two known codes, or none at all. *)
Definition other_status (i : pyval) : bool :=
  negb (has_status "0" i || has_status "1" i).

Definition field_hashable (d : pydict) (k : string) : bool :=
  py_hashable (dict_get d k VNone).

(** Records the aggregator accepts: dictionaries whose grouping fields can be
    used as dictionary keys. *)
Definition item_countable (i : pyval) : bool :=
  match i with
  | VDict d => field_hashable d "type" && field_hashable d "value_type"
  | _ => false
  end.

Definition trigger_countable (t : pyval) : bool :=
  match t with
  | VDict d => field_hashable d "priority"
  | _ => false
  end.

(** Days, hours and minutes, coarsest unit first, without the leading units
    that are zero. *)
Definition show_units (d h m : Z) : string :=
  if (d =? 0)%Z then
    if (h =? 0)%Z then str_of_Z m ++ "m"
    else str_of_Z h ++ "h " ++ str_of_Z m ++ "m"
  else str_of_Z d ++ "d " ++ str_of_Z h ++ "h " ++ str_of_Z m ++ "m".

(** The key of [x] when it can be computed, [dflt] otherwise. *)
Definition key_or {A K : Type} (key : A -> res K) (dflt : K) (x : A) : K :=
  match key x with Ok k => k | Raise _ => dflt end.

(** The numeric priority code of a trigger. *)
Definition priority_code (rt : runtime) (x : pyval) : Z :=
  key_or (fun x => p <- py_get x "priority" (VStr "0") ;; py_int rt p) 0%Z x.

(** The case-folded text of a field of a record. *)
Definition folded (rt : runtime) (field : string) (x : pyval) : string :=
  key_or (fun x => v <- py_get x field (VStr "") ;; py_lower (lower rt) v) "" x.

(** Ascending by display name, case-insensitive. *)
Definition item_order (rt : runtime) (a b : pyval) : Prop :=
  String.leb (folded rt "name" a) (folded rt "name" b) = true.

(** Descending by priority code; equal codes ascending by description,
    case-insensitive. *)
Definition trigger_order (rt : runtime) (a b : pyval) : Prop :=
  (priority_code rt b < priority_code rt a)%Z \/
  (priority_code rt a = priority_code rt b /\
   String.leb (folded rt "description" a) (folded rt "description" b) = true).

(** The records listed by [for x in data.get(field, [])]. *)
Definition records (data : pydict) (field : string) : res (list pyval) :=
  py_iter (dict_get data field (VList [])).

(** ** A concrete run

    A runtime and a fetched record set on which the model is evaluated in
    the examples: the case mapping of ASCII letters, date formatters that
    accept every string and every timestamp, and a fixed clock. *)

Definition ascii_lower_char (c : ascii) : ascii :=
  let n := nat_of_ascii c in
  if Nat.leb 65 n && Nat.leb n 90 then ascii_of_nat (n + 32) else c.

Fixpoint ascii_lower (s : string) : string :=
  match s with
  | EmptyString => EmptyString
  | String c s' => String (ascii_lower_char c) (ascii_lower s')
  end.

Definition rt_exemplo : runtime := {|
  lower := ascii_lower;
  fromisoformat := fun v => match v with
                            | VStr _ => Ok "01/02/2025 10:00:00"
                            | _ => Raise TypeError
                            end;
  fromtimestamp := fun z => Ok (str_of_Z z);
  now := fun _ _ => 1700090000%Z;
  int_max_str_digits := 4300;
  int_unicode := fun _ => None;
  repr := fun _ => "[...]"
|}.

Definition itens_exemplo : list pyval :=
  [ VDict [("itemid", VStr "1"); ("name", VStr "cpu load"); ("key_", VStr "system.cpu.load");
           ("type", VStr "0"); ("value_type", VStr "0"); ("status", VStr "0");
           ("tags", VList [VDict [("tag", VStr "component"); ("value", VStr "cpu")]])];
    VDict [("itemid", VStr "2"); ("name", VStr "Disk space"); ("key_", VStr "vfs.fs.size");
           ("type", VStr "7"); ("value_type", VStr "3"); ("status", VStr "1");
           ("tags", VList [])];
    VDict [("itemid", VStr "3"); ("name", VStr "Apache status"); ("type", VStr "99")] ].

Definition triggers_exemplo : list pyval :=
  [ VDict [("triggerid", VStr "10"); ("description", VStr "disk full");
           ("priority", VStr "3"); ("status", VStr "0")];
    VDict [("triggerid", VStr "11"); ("description", VStr "Host down");
           ("priority", VStr "5"); ("status", VStr "0")];
    VDict [("triggerid", VStr "12"); ("description", VStr "CPU high");
           ("priority", VStr "3"); ("status", VStr "1")] ].

Definition problems_exemplo : list pyval :=
  [ VDict [("eventid", VStr "7"); ("clock", VStr "1700000000"); ("name", VStr "Host down");
           ("severity", VStr "5"); ("acknowledged", VStr "1")];
    VDict [("eventid", VStr "5"); ("name", VStr "disk full"); ("severity", VStr "3")] ].

Definition events_exemplo : list pyval :=
  map (fun n => VDict [("name", VStr n)]) ["A"; "A"; "B"; "C"; "C"; "C"].

Definition dados_exemplo : pydict :=
  [ ("export_info", VDict [("data_exportacao", VStr "2025-02-01T10:00:00");
                           ("zabbix_url", VStr "http://localhost");
                           ("zabbix_version", VStr "6.0.0")]);
    ("host", VDict [("hostid", VStr "10084"); ("host", VStr "srv01");
                    ("name", VStr "Server 01")]);
    ("itens", VList itens_exemplo);
    ("triggers", VList triggers_exemplo);
    ("problems", VList problems_exemplo);
    ("events", VList events_exemplo) ].

Definition stats_vazio : stats :=
  {| st_itens := {| total := 0; ativos := 0; desabilitados := 0; por_tipo := [];
                    por_valor := []; com_preprocessing := 0; com_tags := 0 |};
     st_triggers := {| t_total := 0; ativas := 0; desabilitadas := 0;
                       por_prioridade := []; com_dependencias := 0;
                       t_com_tags := 0 |} |}.

Definition stats_exemplo : stats :=
  Eval vm_compute in
    match gerar_estatisticas itens_exemplo triggers_exemplo with
    | Ok st => st
    | Raise _ => stats_vazio
    end.

(** ** Grouping and ranking, as the specification words them *)

(** Number of elements of [l] equal to [k]. *)
Definition occurrences {K : Type} (eqb : K -> K -> bool) (k : K) (l : list K) : nat :=
  length (filter (eqb k) l).

(** The distinct elements of [l] in the order they are first encountered. *)
Fixpoint first_seen {K : Type} (eqb : K -> K -> bool) (l : list K) : list K :=
  match l with
  | [] => []
  | x :: l' => x :: filter (fun y => negb (eqb x y)) (first_seen eqb l')
  end.

(** Group [l] by value and count each group, groups in first-encountered
    order. *)
Definition grouped {K : Type} (eqb : K -> K -> bool) (l : list K) : list (K * nat) :=
  map (fun k => (k, occurrences eqb k l)) (first_seen eqb l).

(** The name an event is grouped by: [e.get("name", "")]. *)
Definition event_name (e : pyval) : pyval :=
  match e with
  | VDict d => dict_get d "name" (VStr "")
  | _ => VNone
  end.

Definition event_ok (e : pyval) : bool :=
  match e with
  | VDict d => py_hashable (dict_get d "name" (VStr ""))
  | _ => false
  end.

(** The bar of a group drawn against the denominator [denom]. *)
Definition bar_against (denom : nat) (b : bar) : Prop :=
  bar_width b
  = ((inject_Z (Z.of_nat (bar_count b)) / inject_Z (Z.of_nat denom)) * 100)%Q.

(** [m] is the largest count among the bars of one chart. *)
Definition chart_maximum (m : nat) (bars : list bar) : Prop :=
  Forall (fun b => (bar_count b <= m)%nat) bars /\
  exists b, In b bars /\ bar_count b = m.

Definition item_of_type (t : string) : pyval :=
  VDict [("type", VStr t); ("status", VStr "0")].

(** Three items of two collection types. *)
Definition itens_dois_tipos : list pyval :=
  map item_of_type ["0"; "0"; "21"].

(** Nine items of nine collection types. *)
Definition itens_nove_tipos : list pyval :=
  map item_of_type ["0"; "2"; "3"; "5"; "7"; "9"; "10"; "11"; "12"].

(** ** Well-formed record sets

    Sufficient conditions under which the renderers go through: every field
    that is present has the shape the renderer relies on; any field may be
    absent. *)

Definition absent_or (p : pyval -> bool) (d : pydict) (k : string) : bool :=
  match lookup k d with
  | None => true
  | Some v => p v
  end.

Definition is_str (v : pyval) : bool :=
  match v with VStr _ => true | _ => false end.

(** The value converts to text and the text can be written to the file. *)
Definition renders (rt : runtime) (v : pyval) : bool :=
  printable rt v && encodable rt v.

Definition tag_ok (rt : runtime) (t : pyval) : bool :=
  match t with
  | VDict d =>
      match lookup "tag" d with Some x => renders rt x | None => false end
      && (if py_truthy (dict_get d "value" VNone)
          then renders rt (dict_get d "value" VNone) else true)
  | _ => false
  end.

Definition list_of (p : pyval -> bool) (v : pyval) : bool :=
  match v with
  | VList l => forallb p l
  | _ => false
  end.

Definition item_ok (rt : runtime) (i : pyval) : bool :=
  match i with
  | VDict d =>
      absent_or (fun v => is_str v && renders rt v) d "name"
      && absent_or py_hashable d "status"
      && absent_or py_hashable d "type" && absent_or py_hashable d "value_type"
      && absent_or (list_of (tag_ok rt)) d "tags"
      && absent_or (renders rt) d "key_" && absent_or (renders rt) d "delay"
      && absent_or (renders rt) d "history"
  | _ => false
  end.

Definition trigger_ok (rt : runtime) (t : pyval) : bool :=
  match t with
  | VDict d =>
      absent_or (fun v => is_ok (py_int rt v)) d "priority"
      && absent_or (fun v => is_str v && renders rt v) d "description"
      && absent_or py_hashable d "status"
      && absent_or (list_of (tag_ok rt)) d "tags"
      && absent_or (renders rt) d "expression"
      && absent_or (fun v => if py_truthy v then renders rt v else true) d "comments"
  | _ => false
  end.

Definition clock_ok (rt : runtime) (v : pyval) : bool :=
  match py_int rt v with
  | Ok c => (c =? 0)%Z || is_ok (fromtimestamp rt c)
  | Raise _ => false
  end.

Definition problem_ok (rt : runtime) (p : pyval) : bool :=
  match p with
  | VDict d =>
      absent_or py_hashable d "severity" && absent_or (clock_ok rt) d "clock"
      && absent_or (renders rt) d "name"
  | _ => false
  end.

(** The name of the problem is a value the workbook accepts in a cell. *)
Definition name_cell_ok (p : pyval) : bool :=
  match p with
  | VDict d => is_ok (cell_write (dict_get d "name" (VStr "")))
  | _ => false
  end.

(** An event whose name can be grouped and shown. *)
Definition event_shown (rt : runtime) (e : pyval) : bool :=
  event_ok e && renders rt (event_name e).

Definition has_key (k : string) (v : pyval) : bool :=
  match v with
  | VDict d => match lookup k d with Some _ => true | None => false end
  | _ => false
  end.

(** The field [k] of [v] is present and can be shown. *)
Definition shown_key (rt : runtime) (k : string) (v : pyval) : bool :=
  match v with
  | VDict d => match lookup k d with Some x => renders rt x | None => false end
  | _ => false
  end.

Definition header_ok (rt : runtime) (data : pydict) : bool :=
  match lookup "host" data, lookup "export_info" data with
  | Some h, Some (VDict i) =>
      shown_key rt "name" h && shown_key rt "host" h && shown_key rt "hostid" h
      && match lookup "data_exportacao" i with
         | Some v => is_ok (fromisoformat rt v)
         | None => false
         end
  | _, _ => false
  end.

Definition data_ok (rt : runtime) (data : pydict) : bool :=
  header_ok rt data
  && absent_or (list_of (item_ok rt)) data "itens"
  && absent_or (list_of (trigger_ok rt)) data "triggers"
  && absent_or (list_of (problem_ok rt)) data "problems"
  && absent_or (list_of (event_shown rt)) data "events".

(** The two frequency tables hold no zero count and labels that can be
    written to the file, as the tables of the aggregator do. *)
Definition stats_ok (rt : runtime) (st : stats) : bool :=
  forallb (fun e => Nat.leb 1 (snd e) && encodable rt (VStr (fst e)))
    (por_tipo (st_itens st))
  && forallb (fun e => Nat.leb 1 (snd e) && encodable rt (VStr (fst e)))
       (por_valor (st_itens st)).

(** A record set with the header of the concrete run and one list of
    records. *)
Definition dados_com (field : string) (l : list pyval) : pydict :=
  [ ("export_info", VDict [("data_exportacao", VStr "2025-02-01T10:00:00")]);
    ("host", VDict [("hostid", VStr "10084"); ("host", VStr "srv01");
                    ("name", VStr "Server 01")]);
    (field, VList l) ].

(** ** Structured-data renderer

    [salvar_json] writes [json.dump(dados, f, indent=4, ensure_ascii=False)].
    The text is modelled as the list of the bytes of its UTF-8 encoding, a
    string of a record as the bytes of its own.  [json_dump] follows the
    encoder of the [json] module for the values of [pyval], and [json_loads]
    follows its decoder; a number with a fraction or an exponent, [NaN] and
    [Infinity] denote floats, which [pyval] does not have, and are rejected. *)

Definition c_quote : ascii := ascii_of_nat 34.
Definition c_backslash : ascii := ascii_of_nat 92.
Definition c_newline : ascii := ascii_of_nat 10.

Definition hex_char (d : nat) : ascii :=
  if Nat.ltb d 10 then ascii_of_nat (48 + d) else ascii_of_nat (87 + d).

(** The replacement of one character inside a string literal: the quote, the
    backslash and the control characters are escaped, everything else is
    written as it is. *)
Definition escape_char (c : ascii) : list ascii :=
  let n := nat_of_ascii c in
  if Nat.eqb n 34 then [c_backslash; c_quote]
  else if Nat.eqb n 92 then [c_backslash; c_backslash]
  else if Nat.eqb n 10 then [c_backslash; "n"%char]
  else if Nat.eqb n 13 then [c_backslash; "r"%char]
  else if Nat.eqb n 9 then [c_backslash; "t"%char]
  else if Nat.eqb n 8 then [c_backslash; "b"%char]
  else if Nat.eqb n 12 then [c_backslash; "f"%char]
  else if Nat.ltb n 32 then
    [c_backslash; "u"%char; "0"%char; "0"%char; hex_char (n / 16); hex_char (n mod 16)]
  else [c].

Definition encode_string (s : string) : list ascii :=
  (c_quote :: flat_map escape_char (list_ascii_of_string s) ++ [c_quote])%list.

Definition newline_indent (level : nat) : list ascii :=
  c_newline :: repeat " "%char (4 * level).

Fixpoint json_dump (level : nat) (v : pyval) {struct v} : list ascii :=
  match v with
  | VNone => list_ascii_of_string "null"
  | VBool true => list_ascii_of_string "true"
  | VBool false => list_ascii_of_string "false"
  | VInt z => repr_int z
  | VStr s => encode_string s
  | VList [] => list_ascii_of_string "[]"
  | VList (x :: xs) =>
      ("["%char :: newline_indent (S level) ++ json_dump (S level) x
       ++ flat_map (fun y => ","%char :: newline_indent (S level)
                                  ++ json_dump (S level) y) xs
       ++ newline_indent level ++ ["]"%char])%list
  | VDict [] => list_ascii_of_string "{}"
  | VDict ((k, x) :: kvs) =>
      ("{"%char :: newline_indent (S level) ++ encode_string k
       ++ list_ascii_of_string ": " ++ json_dump (S level) x
       ++ flat_map (fun kv => ","%char :: newline_indent (S level)
                                   ++ encode_string (fst kv)
                                   ++ list_ascii_of_string ": "
                                   ++ json_dump (S level) (snd kv)) kvs
       ++ newline_indent level ++ ["}"%char])%list
  end.

(** [json.dump] writes the text piece by piece, in the order of the text.
    It raises at the first integer that cannot be converted to text
    (ValueError) and at the first key or string that holds a lone surrogate,
    which the UTF-8 codec of the file refuses (UnicodeEncodeError). *)
Fixpoint json_falha (rt : runtime) (v : pyval) {struct v} : option pyexc :=
  match v with
  | VInt z => if int_text_ok rt z then None else Some ValueError
  | VStr s =>
      if has_surrogate (list_ascii_of_string s) then Some UnicodeEncodeError
      else None
  | VList l =>
      (fix go (l : list pyval) : option pyexc :=
         match l with
         | [] => None
         | x :: l' =>
             match json_falha rt x with
             | Some e => Some e
             | None => go l'
             end
         end) l
  | VDict d =>
      (fix go (d : list (string * pyval)) : option pyexc :=
         match d with
         | [] => None
         | (k, x) :: d' =>
             if has_surrogate (list_ascii_of_string k) then Some UnicodeEncodeError
             else match json_falha rt x with
                  | Some e => Some e
                  | None => go d'
                  end
         end) d
  | _ => None
  end.

(** [salvar_json]: the text written to the file when the write goes through,
    the exception otherwise. *)
Definition salvar_json (rt : runtime) (dados : pydict) : res (list ascii) :=
  match json_falha rt (VDict dados) with
  | None => Ok (json_dump 0 (VDict dados))
  | Some e => Raise e
  end.

(** *** The decoder *)

Definition is_ws (c : ascii) : bool :=
  let n := nat_of_ascii c in
  Nat.eqb n 32 || Nat.eqb n 9 || Nat.eqb n 10 || Nat.eqb n 13.

Fixpoint skip_ws (s : list ascii) : list ascii :=
  match s with
  | c :: s' => if is_ws c then skip_ws s' else s
  | [] => []
  end.

Definition hex_val (c : ascii) : option N :=
  let n := N_of_ascii c in
  if (48 <=? n)%N && (n <=? 57)%N then Some (n - 48)%N
  else if (97 <=? n)%N && (n <=? 102)%N then Some (n - 87)%N
  else if (65 <=? n)%N && (n <=? 70)%N then Some (n - 55)%N
  else None.

Definition hex4 (a b c d : ascii) : option N :=
  match hex_val a, hex_val b, hex_val c, hex_val d with
  | Some x, Some y, Some z, Some w => Some (((x * 16 + y) * 16 + z) * 16 + w)%N
  | _, _, _, _ => None
  end.

(** The UTF-8 bytes of a code point. *)
Definition utf8 (cp : N) : list ascii :=
  if (cp <? 128)%N then [ascii_of_N cp]
  else if (cp <? 2048)%N then
    [ascii_of_N (192 + cp / 64); ascii_of_N (128 + cp mod 64)]
  else if (cp <? 65536)%N then
    [ascii_of_N (224 + cp / 4096); ascii_of_N (128 + (cp / 64) mod 64);
     ascii_of_N (128 + cp mod 64)]
  else
    [ascii_of_N (240 + cp / 262144); ascii_of_N (128 + (cp / 4096) mod 64);
     ascii_of_N (128 + (cp / 64) mod 64); ascii_of_N (128 + cp mod 64)].

Definition simple_escape (e : ascii) : option ascii :=
  let n := nat_of_ascii e in
  if Nat.eqb n 34 then Some c_quote
  else if Nat.eqb n 92 then Some c_backslash
  else if Nat.eqb n 47 then Some "/"%char
  else if Nat.eqb n 98 then Some (ascii_of_nat 8)
  else if Nat.eqb n 102 then Some (ascii_of_nat 12)
  else if Nat.eqb n 110 then Some (ascii_of_nat 10)
  else if Nat.eqb n 114 then Some (ascii_of_nat 13)
  else if Nat.eqb n 116 then Some (ascii_of_nat 9)
  else None.

Definition is_high_surrogate (cp : N) : bool := (55296 <=? cp)%N && (cp <=? 56319)%N.
Definition is_low_surrogate (cp : N) : bool := (56320 <=? cp)%N && (cp <=? 57343)%N.

Definition prepend (cs : list ascii) (r : option (list ascii * list ascii))
    : option (list ascii * list ascii) :=
  match r with
  | Some (str, rest) => Some ((cs ++ str)%list, rest)
  | None => None
  end.

(** The characters of a string literal after its opening quote, up to the
    closing quote, and the text that follows. *)
Fixpoint scan_string (s : list ascii) : option (list ascii * list ascii) :=
  match s with
  | [] => None
  | c :: s1 =>
      if Nat.eqb (nat_of_ascii c) 34 then Some ([], s1)
      else if Nat.eqb (nat_of_ascii c) 92 then
        match s1 with
        | [] => None
        | e :: s2 =>
            if Nat.eqb (nat_of_ascii e) 117 then
              match s2 with
              | h1 :: h2 :: h3 :: h4 :: s3 =>
                  match hex4 h1 h2 h3 h4 with
                  | None => None
                  | Some cp =>
                      if is_high_surrogate cp then
                        match s3 with
                        | b :: u :: l1 :: l2 :: l3 :: l4 :: s4 =>
                            if Nat.eqb (nat_of_ascii b) 92
                               && Nat.eqb (nat_of_ascii u) 117 then
                              match hex4 l1 l2 l3 l4 with
                              | None => None
                              | Some cp2 =>
                                  if is_low_surrogate cp2 then
                                    prepend (utf8 (65536 + (cp - 55296) * 1024
                                                   + (cp2 - 56320))%N)
                                      (scan_string s4)
                                  else prepend (utf8 cp) (scan_string s3)
                              end
                            else prepend (utf8 cp) (scan_string s3)
                        | _ => prepend (utf8 cp) (scan_string s3)
                        end
                      else prepend (utf8 cp) (scan_string s3)
                  end
              | _ => None
              end
            else
              match simple_escape e with
              | Some x => prepend [x] (scan_string s2)
              | None => None
              end
        end
      else if Nat.ltb (nat_of_ascii c) 32 then None
      else prepend [c] (scan_string s1)
  end.

Fixpoint take_digits (acc : Z) (s : list ascii) : Z * list ascii :=
  match s with
  | c :: s' =>
      if is_digit c then take_digits (10 * acc + digit_val c)%Z s' else (acc, s)
  | [] => (acc, [])
  end.

(** A fraction [.d] or an exponent [e d], [e+d], [e-d] follows the integer
    part. *)
Definition float_tail (s : list ascii) : bool :=
  match s with
  | c :: d :: s' =>
      let n := nat_of_ascii c in
      if Nat.eqb n 46 then is_digit d
      else if Nat.eqb n 101 || Nat.eqb n 69 then
        is_digit d
        || ((Nat.eqb (nat_of_ascii d) 43 || Nat.eqb (nat_of_ascii d) 45)
            && match s' with d2 :: _ => is_digit d2 | [] => false end)
      else false
  | _ => false
  end.

(** The integer part [0] or [[1-9][0-9]*] of a number. *)
Definition scan_natural (s : list ascii) : option (Z * list ascii) :=
  match s with
  | c :: s1 =>
      if Nat.eqb (nat_of_ascii c) 48 then Some (0%Z, s1)
      else if is_digit c then Some (take_digits (digit_val c) s1)
      else None
  | [] => None
  end.

Definition scan_number (s : list ascii) : option (pyval * list ascii) :=
  let r := match s with
           | c :: s1 =>
               if Nat.eqb (nat_of_ascii c) 45
               then option_map (fun p => (Z.opp (fst p), snd p)) (scan_natural s1)
               else scan_natural s
           | [] => None
           end in
  match r with
  | Some (z, rest) => if float_tail rest then None else Some (VInt z, rest)
  | None => None
  end.

Fixpoint strip_prefix (p s : list ascii) : option (list ascii) :=
  match p, s with
  | [], _ => Some s
  | a :: p', b :: s' => if Ascii.eqb a b then strip_prefix p' s' else None
  | _ :: _, [] => None
  end.

(** [dict(pairs)]: a repeated key keeps its first position and takes the
    last value. *)
Fixpoint dict_set (k : string) (v : pyval) (d : pydict) : pydict :=
  match d with
  | [] => [(k, v)]
  | (k', v') :: d' =>
      if String.eqb k k' then (k, v) :: d' else (k', v') :: dict_set k v d'
  end.

Definition dict_of_pairs (l : list (string * pyval)) : pydict :=
  fold_left (fun d kv => dict_set (fst kv) (snd kv) d) l [].

(** The value at the head of the text and the text after it.  [fuel] bounds
    the number of nested calls. *)
Fixpoint parse_value (fuel : nat) (s : list ascii) : option (pyval * list ascii) :=
  match fuel with
  | O => None
  | S f =>
      match s with
      | [] => None
      | c :: s1 =>
          let n := nat_of_ascii c in
          if Nat.eqb n 34 then
            match scan_string s1 with
            | Some (str, rest) => Some (VStr (string_of_list_ascii str), rest)
            | None => None
            end
          else if Nat.eqb n 123 then
            match skip_ws s1 with
            | c2 :: s2 =>
                if Nat.eqb (nat_of_ascii c2) 125 then Some (VDict [], s2)
                else match parse_members f (c2 :: s2) with
                     | Some (kvs, rest) => Some (VDict (dict_of_pairs kvs), rest)
                     | None => None
                     end
            | [] => None
            end
          else if Nat.eqb n 91 then
            match skip_ws s1 with
            | c2 :: s2 =>
                if Nat.eqb (nat_of_ascii c2) 93 then Some (VList [], s2)
                else match parse_elems f (c2 :: s2) with
                     | Some (vs, rest) => Some (VList vs, rest)
                     | None => None
                     end
            | [] => None
            end
          else if Nat.eqb n 110 then
            option_map (pair VNone) (strip_prefix (list_ascii_of_string "ull") s1)
          else if Nat.eqb n 116 then
            option_map (pair (VBool true)) (strip_prefix (list_ascii_of_string "rue") s1)
          else if Nat.eqb n 102 then
            option_map (pair (VBool false)) (strip_prefix (list_ascii_of_string "alse") s1)
          else scan_number s
      end
  end
with parse_elems (fuel : nat) (s : list ascii) : option (list pyval * list ascii) :=
  match fuel with
  | O => None
  | S f =>
      match parse_value f s with
      | Some (v, s1) =>
          match skip_ws s1 with
          | c :: s2 =>
              if Nat.eqb (nat_of_ascii c) 44 then
                match parse_elems f (skip_ws s2) with
                | Some (vs, rest) => Some (v :: vs, rest)
                | None => None
                end
              else if Nat.eqb (nat_of_ascii c) 93 then Some ([v], s2)
              else None
          | [] => None
          end
      | None => None
      end
  end
with parse_members (fuel : nat) (s : list ascii)
    : option (list (string * pyval) * list ascii) :=
  match fuel with
  | O => None
  | S f =>
      match s with
      | q :: s1 =>
          if Nat.eqb (nat_of_ascii q) 34 then
            match scan_string s1 with
            | Some (k, s2) =>
                match skip_ws s2 with
                | c :: s3 =>
                    if Nat.eqb (nat_of_ascii c) 58 then
                      match parse_value f (skip_ws s3) with
                      | Some (v, s4) =>
                          match skip_ws s4 with
                          | c2 :: s5 =>
                              if Nat.eqb (nat_of_ascii c2) 44 then
                                match parse_members f (skip_ws s5) with
                                | Some (kvs, rest) =>
                                    Some ((string_of_list_ascii k, v) :: kvs, rest)
                                | None => None
                                end
                              else if Nat.eqb (nat_of_ascii c2) 125 then
                                Some ([(string_of_list_ascii k, v)], s5)
                              else None
                          | [] => None
                          end
                      | None => None
                      end
                    else None
                | [] => None
                end
            | None => None
            end
          else None
      | [] => None
      end
  end.

(** [json.load]: one value, surrounded by white space only. *)
Definition json_loads (text : list ascii) : res pyval :=
  let s := skip_ws text in
  match parse_value (length s) s with
  | Some (v, rest) =>
      match skip_ws rest with
      | [] => Ok v
      | _ :: _ => Raise ValueError
      end
  | None => Raise ValueError
  end.

(** What the writer accepts, said of the values: every integer is within
    the digit limit of the text conversion and no string and no key holds a
    lone surrogate. *)
Fixpoint json_ok (rt : runtime) (v : pyval) {struct v} : bool :=
  match v with
  | VInt z => int_text_ok rt z
  | VStr s => negb (has_surrogate (list_ascii_of_string s))
  | VList l => forallb (json_ok rt) l
  | VDict d =>
      forallb (fun kv => negb (has_surrogate (list_ascii_of_string (fst kv)))
                         && json_ok rt (snd kv)) d
  | _ => true
  end.

(** The answer of a server whose record name is the escape of one half of a
    surrogate pair, and the name the decoder delivers for it. *)
Definition texto_surrogate : list ascii :=
  ("{"%char :: c_quote :: list_ascii_of_string "name" ++ c_quote
   :: list_ascii_of_string ": " ++ c_quote :: c_backslash
   :: list_ascii_of_string "ud83d" ++ [c_quote; "}"%char])%list.

Definition nome_surrogate : string := string_of_list_ascii (utf8 55357).

Fixpoint distinct (l : list string) : bool :=
  match l with
  | [] => true
  | k :: l' => negb (existsb (String.eqb k) l') && distinct l'
  end.

(** Every dictionary inside [v] has pairwise distinct keys, as every Python
    dictionary has. *)
Fixpoint unique_keys (v : pyval) {struct v} : bool :=
  match v with
  | VList l => forallb unique_keys l
  | VDict d => distinct (map fst d) && forallb (fun kv => unique_keys (snd kv)) d
  | _ => true
  end.

(** The text that may follow a value: the end, a comma or a line break. *)
Definition delimited (rest : list ascii) : bool :=
  match rest with
  | [] => true
  | c :: _ => Nat.eqb (nat_of_ascii c) 44 || Nat.eqb (nat_of_ascii c) 10
  end.

(** Number of nested calls the decoder makes for the text of [v]. *)
Fixpoint json_size (v : pyval) {struct v} : nat :=
  match v with
  | VList l => S (fold_right (fun x n => S (json_size x + n)) 0%nat l)
  | VDict d => S (fold_right (fun kv n => S (json_size (snd kv) + n)) 0%nat d)
  | _ => 1%nat
  end.

(** The text of [v], followed by [rest], decodes to [v] and leaves [rest]. *)
Definition roundtrips (v : pyval) : Prop :=
  forall (fuel level : nat) (rest : list ascii),
    (json_size v <= fuel)%nat -> delimited rest = true -> unique_keys v = true ->
    parse_value fuel (json_dump level v ++ rest)%list = Some (v, rest).

(** A character that starts a value: no white space, no closing bracket. *)
Definition opens (c : ascii) : bool :=
  negb (is_ws c) && negb (Nat.eqb (nat_of_ascii c) 93)
  && negb (Nat.eqb (nat_of_ascii c) 125).

(** The text of the elements of a list after the first. *)
Definition items_text (level : nat) (xs : list pyval) : list ascii :=
  flat_map (fun y => ","%char :: newline_indent (S level)
                       ++ json_dump (S level) y)%list xs.

(** The text of the members of a dictionary after the first. *)
Definition members_text (level : nat) (kvs : list (string * pyval)) : list ascii :=
  flat_map (fun kv => ","%char :: newline_indent (S level)
                        ++ encode_string (fst kv) ++ list_ascii_of_string ": "
                        ++ json_dump (S level) (snd kv))%list kvs.

(** Nested calls for the elements of a list and the members of a dictionary. *)
Definition size_sum (xs : list pyval) : nat :=
  fold_right (fun x n => S (json_size x + n)) 0%nat xs.

Definition size_members (kvs : list (string * pyval)) : nat :=
  fold_right (fun kv n => S (json_size (snd kv) + n)) 0%nat kvs.

(** ** The orchestrator

    [main] connects, resolves the host, fetches the four record lists,
    aggregates and renders each requested format.  The answers of the
    monitoring server are given by a [zabbix] value, the parsed command line
    by an [args] value and [agora] is the text of
    [datetime.now().isoformat()].  The files written so far are kept when a
    later step raises: a run is a function from the files on disk to the
    files on disk and a result.  The messages printed on the way, with the
    host name, identifier and server version they show, go to the standard
    output of the environment and are left out. *)

Inductive formato : Type := Fhtml | Fjson | Fexcel | Fboth | Fall.

Record args : Type := {
  hostname : string;
  url : string;
  user : string;
  password : string;
  output : option string;
  format : formato
}.

Record zabbix : Type := {
  login : string -> string -> string -> res unit;
  api_version : res pyval;
  host_get : string -> res (list pyval);
  item_get : pyval -> res (list pyval);
  trigger_get : pyval -> res (list pyval);
  problem_get : pyval -> res (list pyval);
  event_get : pyval -> nat -> res (list pyval)
}.

Definition conectar_zabbix (z : zabbix) (url user password : string) : res unit :=
  _ <- login z url user password ;;
  _ <- api_version z ;;
  Ok tt.

Definition obter_host_id (z : zabbix) (hostname : string) : res pyval :=
  hosts <- host_get z hostname ;;
  match hosts with
  | [] => Raise ValueError
  | h :: _ => Ok h
  end.

Definition exportar_itens (z : zabbix) (hostid : pyval) : res (list pyval) :=
  item_get z hostid.

Definition exportar_triggers (z : zabbix) (hostid : pyval) : res (list pyval) :=
  trigger_get z hostid.

Definition exportar_problemas (z : zabbix) (hostid : pyval) : res (list pyval) :=
  problem_get z hostid.

Definition exportar_eventos (z : zabbix) (hostid : pyval) (limit : nat)
    : res (list pyval) :=
  event_get z hostid limit.

(** The content of a file: a complete text, document or workbook, or what a
    write that raised left behind, a file without all of its content. *)
Inductive artifact : Type :=
| JsonFile (text : list ascii)
| HtmlFile (doc : html_doc)
| ExcelFile (doc : xl_doc)
| Incompleto.

(** The files written, oldest first. *)
Definition arquivos : Type := list (string * artifact).

Definition io (A : Type) : Type := arquivos -> arquivos * res A.

Definition io_ret {A : Type} (a : A) : io A := fun fs => (fs, Ok a).

Definition io_bind {A B : Type} (m : io A) (k : A -> io B) : io B :=
  fun fs =>
    match m fs with
    | (fs', Ok a) => k a fs'
    | (fs', Raise e) => (fs', Raise e)
    end.

Notation "x <~ m ;; k" := (io_bind m (fun x => k))
  (at level 61, m at next level, right associativity).

(** A computation that touches no file. *)
Definition lift {A : Type} (r : res A) : io A := fun fs => (fs, r).

(** [open(name, 'w')] and the write of the whole content. *)
Definition escrever (name : string) (content : artifact) : io unit :=
  fun fs => ((fs ++ [(name, content)])%list, Ok tt).

(** [open(name, 'w')] and a write that raises [e]: the file stays. *)
Definition interromper (name : string) (e : pyexc) : io unit :=
  fun fs => ((fs ++ [(name, Incompleto)])%list, Raise e).

(** [args.output or f"{args.hostname}_relatorio"] *)
Definition output_base (a : args) : string :=
  match output a with
  | Some s => if String.eqb s "" then hostname a ++ "_relatorio" else s
  | None => hostname a ++ "_relatorio"
  end.

Definition quer_json (f : formato) : bool :=
  match f with Fjson | Fboth | Fall => true | _ => false end.

Definition quer_html (f : formato) : bool :=
  match f with Fhtml | Fboth | Fall => true | _ => false end.

Definition quer_excel (f : formato) : bool :=
  match f with Fexcel | Fall => true | _ => false end.

(** The dictionary [main] assembles from what it fetched. *)
Definition montar_export_data (agora : string) (a : args) (version : pyval)
    (hostid tech name : pyval) (itens triggers problems events : list pyval)
    : pydict :=
  [ ("export_info", VDict [("data_exportacao", VStr agora);
                           ("zabbix_url", VStr (url a));
                           ("zabbix_version", version)]);
    ("host", VDict [("hostid", hostid); ("host", tech); ("name", name)]);
    ("itens", VList itens);
    ("triggers", VList triggers);
    ("problems", VList problems);
    ("events", VList events) ].

(** The connect, resolve, fetch and aggregate steps of [main]. *)
Definition coletar (agora : string) (a : args) (z : zabbix) : res (pydict * stats) :=
  _ <- conectar_zabbix z (url a) (user a) (password a) ;;
  host <- obter_host_id z (hostname a) ;;
  hostid <- py_subscript host "hostid" ;;
  _ <- py_subscript host "name" ;;
  version <- api_version z ;;
  hid <- py_subscript host "hostid" ;;
  tech <- py_subscript host "host" ;;
  name <- py_subscript host "name" ;;
  itens <- exportar_itens z hostid ;;
  triggers <- exportar_triggers z hostid ;;
  problems <- exportar_problemas z hostid ;;
  events <- exportar_eventos z hostid 1000 ;;
  st <- gerar_estatisticas itens triggers ;;
  Ok (montar_export_data agora a version hid tech name itens triggers problems events,
      st).

(** The calls of the three renderers as [main] makes them, each with the
    name of its file.  The JSON file is opened before [json.dump] runs and
    the document file before its text is written, so a write that raises
    leaves its file behind; the text of the document is built before its
    file is opened. *)
Definition salvar_json_io (rt : runtime) (dados : pydict) (arquivo : string)
    : io unit :=
  match salvar_json rt dados with
  | Ok text => escrever arquivo (JsonFile text)
  | Raise e => interromper arquivo e
  end.

Definition gerar_html_io (rt : runtime) (export_data : pydict) (st : stats)
    (arquivo : string) : io unit :=
  doc <~ lift (montar_html rt export_data st) ;;
  if forallb (printable rt) (html_values doc) then
    if forallb (encodable rt) (html_values doc)
    then escrever arquivo (HtmlFile doc)
    else interromper arquivo UnicodeEncodeError
  else lift (Raise ValueError).

Definition gerar_excel_io (rt : runtime) (export_data : pydict) (st : stats)
    (arquivo : string) : io unit :=
  doc <~ lift (gerar_excel rt export_data st) ;;
  escrever arquivo (ExcelFile doc).

(** The render steps of [main], in the order json, html, excel. *)
Definition salvar (rt : runtime) (a : args) (export_data : pydict) (st : stats)
    : io unit :=
  _ <~ (if quer_json (format a)
        then salvar_json_io rt export_data (output_base a ++ ".json")
        else io_ret tt) ;;
  _ <~ (if quer_html (format a)
        then gerar_html_io rt export_data st (output_base a ++ ".html")
        else io_ret tt) ;;
  _ <~ (if quer_excel (format a)
        then gerar_excel_io rt export_data st (output_base a ++ ".xlsx")
        else io_ret tt) ;;
  io_ret tt.

Definition main (rt : runtime) (agora : string) (a : args) (z : zabbix) : io unit :=
  ds <~ lift (coletar agora a z) ;;
  salvar rt a (fst ds) (snd ds).

(** The file names a run of format [f] writes when it succeeds. *)
Definition nomes_esperados (a : args) : list string :=
  ((if quer_json (format a) then [(output_base a ++ ".json")%string] else [])
   ++ (if quer_html (format a) then [(output_base a ++ ".html")%string] else [])
   ++ (if quer_excel (format a) then [(output_base a ++ ".xlsx")%string] else []))%list.

(** A step only adds files after those already there, with names that are
    a beginning of [names], and all of [names] when it returns. *)
Definition appends (names : list string) (m : io unit) : Prop :=
  forall fs, exists written,
    fst (m fs) = (fs ++ written)%list /\
    (exists rest, names = (map fst written ++ rest)%list) /\
    (is_ok (snd (m fs)) = true -> map fst written = names).

(** ** Further predicates on records *)

Definition is_dict (v : pyval) : bool :=
  match v with VDict _ => true | _ => false end.

(** The value a trigger is grouped by: [t.get("priority", "0")]. *)
Definition trigger_priority (t : pyval) : pyval :=
  match t with
  | VDict d => dict_get d "priority" (VStr "0")
  | _ => VNone
  end.

(** The field [k] of the record [i] is present and true. *)
Definition has_truthy (k : string) (i : pyval) : bool :=
  match i with
  | VDict d => py_truthy (dict_get d k VNone)
  | _ => false
  end.

(** The labels a type bucket and a value-type bucket can carry. *)
Definition type_labels : list string := Desconhecido :: map snd ITEM_TYPES.
Definition value_labels : list string := Desconhecido :: map snd VALUE_TYPES.

(** The six priority codes of the severity card, as it lists them. *)
Definition priority_codes : list string := ["5"; "4"; "3"; "2"; "1"; "0"].

(** The trigger's priority is none of the six codes. *)
Definition other_priority (t : pyval) : bool :=
  negb (existsb (py_eq_str (trigger_priority t)) priority_codes).

(** A row of the document's alert table and a row of the workbook's alert
    sheet show the same alert, or both are the notice. *)
Definition same_alert (a : alert_row) (x : xl_alert_row) : Prop :=
  match a, x with
  | NoAlertsRow, XNoAlerts => True
  | AlertRow r, XAlertRow y =>
      fst (pr_severity r) = xp_severity y /\ pr_name r = xp_name y /\
      pr_inicio r = xp_inicio y /\ pr_duracao r = xp_duracao y /\
      pr_ack r = xp_ack y
  | _, _ => False
  end.

(** The same, the duration cell left aside: it depends on the clock reading
    each renderer takes for itself. *)
Definition same_alert_cells (a : alert_row) (x : xl_alert_row) : Prop :=
  match a, x with
  | NoAlertsRow, XNoAlerts => True
  | AlertRow r, XAlertRow y =>
      fst (pr_severity r) = xp_severity y /\ pr_name r = xp_name y /\
      pr_inicio r = xp_inicio y /\ pr_ack r = xp_ack y
  | _, _ => False
  end.

(** A run in which the minute turns between the clock reading of the
    document and the clock reading of the workbook. *)
Definition rt_virada : runtime := {|
  lower := lower rt_exemplo;
  fromisoformat := fromisoformat rt_exemplo;
  fromtimestamp := fromtimestamp rt_exemplo;
  now := fun r _ => match r with
                    | Document => 1700000059%Z
                    | Workbook => 1700000060%Z
                    end;
  int_max_str_digits := int_max_str_digits rt_exemplo;
  int_unicode := int_unicode rt_exemplo;
  repr := repr rt_exemplo
|}.

Definition same_item (r : item_row) (x : xl_item_row) : Prop :=
  ir_name r = xi_name x /\ ir_key r = xi_key x /\ ir_tipo r = xi_tipo x /\
  ir_valor_tipo r = xi_valor_tipo x /\ ir_delay r = xi_delay x /\
  ir_history r = xi_history x.

Definition same_trigger (r : trigger_row) (x : xl_trigger_row) : Prop :=
  fst (tr_priority r) = xt_priority x /\ tr_description r = xt_description x /\
  tr_expression r = xt_expression x /\ tr_comments r = xt_comments x.

Definition same_freq (r : freq_row) (x : xl_top_row) : Prop :=
  fr_pos r = xf_pos x /\ fr_name r = xf_name x /\ fr_count r = xf_count x /\
  fr_percent r = xf_percent x.

(** The chip a tag entry is rendered as: its tag, and its value when the
    value is present and non-empty. *)
Definition chip_of (t : pyval) (c : chip) : Prop :=
  exists d, t = VDict d /\ lookup "tag" d = Some (fst c) /\
            snd c = if py_truthy (dict_get d "value" VNone)
                    then Some (dict_get d "value" VNone) else None.

(** The record has no status field. *)
Definition status_absent (i : pyval) : Prop :=
  exists d, i = VDict d /\ lookup "status" d = None.

Definition record_with_tags (tags : list pyval) : pyval :=
  VDict [("tags", VList tags)].

Definition tag_entry (tag : pyval) : pyval := VDict [("tag", tag)].

(** The server answers every request of the run with a host that has its
    three fields and with well-formed records, the export date is one the
    date parser accepts, and when the JSON file is asked for everything that
    goes into it can be written. *)
Definition respostas_ok (rt : runtime) (agora : string) (a : args) (z : zabbix)
    : Prop :=
  exists version h hs hid tech name itens triggers problems events,
    is_ok (login z (url a) (user a) (password a)) = true /\
    api_version z = Ok version /\
    host_get z (hostname a) = Ok (h :: hs) /\
    py_subscript h "hostid" = Ok hid /\ py_subscript h "host" = Ok tech /\
    py_subscript h "name" = Ok name /\
    item_get z hid = Ok itens /\ trigger_get z hid = Ok triggers /\
    problem_get z hid = Ok problems /\ event_get z hid 1000 = Ok events /\
    is_ok (fromisoformat rt (VStr agora)) = true /\
    forallb (renders rt) [version; hid; tech; name] = true /\
    forallb (item_ok rt) itens = true /\
    forallb (trigger_ok rt) triggers = true /\
    forallb (problem_ok rt) problems = true /\
    forallb (event_shown rt) events = true /\
    (quer_json (format a) = true ->
     json_ok rt (VDict (montar_export_data agora a version hid tech name
                          itens triggers problems events)) = true).

(** The files a successful run without the spreadsheet writes. *)
Definition arquivos_de (a : args) (d : pydict) (doc : html_doc) : arquivos :=
  ((if quer_json (format a)
    then [((output_base a ++ ".json")%string, JsonFile (json_dump 0 (VDict d)))]
    else [])
   ++ (if quer_html (format a)
       then [((output_base a ++ ".html")%string, HtmlFile doc)] else []))%list.

(** A server that answers with the records of the concrete run. *)
Definition host_exemplo : pyval :=
  VDict [("hostid", VStr "10084"); ("host", VStr "srv01"); ("name", VStr "Server 01")].

Definition zabbix_exemplo : zabbix := {|
  login := fun _ _ _ => Ok tt;
  api_version := Ok (VStr "6.0.0");
  host_get := fun h => if String.eqb h "srv01" then Ok [host_exemplo] else Ok [];
  item_get := fun _ => Ok itens_exemplo;
  trigger_get := fun _ => Ok triggers_exemplo;
  problem_get := fun _ => Ok problems_exemplo;
  event_get := fun _ _ => Ok events_exemplo
|}.

Definition args_exemplo (h : string) (f : formato) : args :=
  {| hostname := h; url := "http://localhost"; user := "Admin";
     password := "zabbix"; output := None; format := f |}.

Definition agora_exemplo : string := "2025-02-01T10:00:00".

(** The records of the concrete run that carry every field the spreadsheet
    reads. *)
Definition dados_planilha : pydict :=
  [ ("export_info", VDict [("data_exportacao", VStr "2025-02-01T10:00:00")]);
    ("host", VDict [("hostid", VStr "10084"); ("host", VStr "srv01");
                    ("name", VStr "Server 01")]);
    ("itens", VList (firstn 2 itens_exemplo));
    ("triggers", VList triggers_exemplo);
    ("problems", VList problems_exemplo);
    ("events", VList events_exemplo) ].

(** A server whose only trigger has a priority that is not a number. *)
Definition zabbix_prioridade_texto : zabbix := {|
  login := fun _ _ _ => Ok tt;
  api_version := Ok (VStr "6.0.0");
  host_get := fun _ => Ok [host_exemplo];
  item_get := fun _ => Ok [];
  trigger_get := fun _ => Ok [VDict [("priority", VStr "high")]];
  problem_get := fun _ => Ok [];
  event_get := fun _ _ => Ok []
|}.

(** A server whose only item has a lone tag that is a number. *)
Definition zabbix_tag_numerica : zabbix := {|
  login := fun _ _ _ => Ok tt;
  api_version := Ok (VStr "6.0.0");
  host_get := fun _ => Ok [host_exemplo];
  item_get := fun _ => Ok [record_with_tags [tag_entry (VInt 1)]];
  trigger_get := fun _ => Ok [];
  problem_get := fun _ => Ok [];
  event_get := fun _ _ => Ok []
|}.

(** A server whose only problem carries the name the decoder delivers for
    the escape of one half of a surrogate pair. *)
Definition zabbix_surrogate : zabbix := {|
  login := fun _ _ _ => Ok tt;
  api_version := Ok (VStr "6.0.0");
  host_get := fun _ => Ok [host_exemplo];
  item_get := fun _ => Ok [];
  trigger_get := fun _ => Ok [];
  problem_get := fun _ => Ok [VDict [("name", VStr nome_surrogate)]];
  event_get := fun _ _ => Ok []
|}.

(** * Properties *)

(** ** The error monad *)

Lemma bind_Ok {A B : Type} (m : res A) (k : A -> res B) (b : B) :
  bind m k = Ok b -> exists a, m = Ok a /\ k a = Ok b.
Proof.
  destruct m as [a|e]; simpl; intros H; [eauto | discriminate].
Qed.

Ltac inv_bind H :=
  let x := fresh "x" in
  let Hx := fresh "Hx" in
  apply bind_Ok in H; destruct H as (x & Hx & H).

Ltac inv_binds :=
  repeat match goal with
         | H : bind _ _ = Ok _ |- _ => inv_bind H
         end.

Lemma mapM_Forall2 {A B : Type} (f : A -> res B) (l : list A) (ys : list B) :
  mapM f l = Ok ys -> Forall2 (fun x y => f x = Ok y) l ys.
Proof.
  revert ys; induction l as [|x l IH]; simpl; intros ys H.
  - injection H as <-. constructor.
  - inv_bind H. inv_bind H. injection H as <-. constructor; auto.
Qed.

Lemma mapM_weaken {A B : Type} (f g : A -> res B) (l : list A) (ys : list B) :
  (forall x y, f x = Ok y -> g x = Ok y) ->
  mapM f l = Ok ys -> mapM g l = Ok ys.
Proof.
  intros Hfg. revert ys; induction l as [|x l IH]; simpl; intros ys H.
  - exact H.
  - inv_bind H. inv_bind H. injection H as <-.
    rewrite (Hfg _ _ Hx), (IH _ Hx0). reflexivity.
Qed.

Lemma mapM_total {A B : Type} (f : A -> res B) (l : list A) :
  Forall (fun x => exists y, f x = Ok y) l -> exists ys, mapM f l = Ok ys.
Proof.
  induction 1 as [|x l [y Hy] _ [ys Hys]]; simpl.
  - eauto.
  - rewrite Hy, Hys. simpl. eauto.
Qed.

Lemma mapM_pure {A B : Type} (f : A -> res B) (g : A -> B) (l : list A) :
  Forall (fun x => f x = Ok (g x)) l -> mapM f l = Ok (map g l).
Proof.
  induction 1 as [|x l Hx _ IH]; simpl; [reflexivity|].
  rewrite Hx, IH. reflexivity.
Qed.

Lemma mapM_length {A B : Type} (f : A -> res B) (l : list A) (ys : list B) :
  mapM f l = Ok ys -> length ys = length l.
Proof.
  intros H. apply mapM_Forall2 in H.
  induction H; simpl; congruence.
Qed.

Lemma countM_pure {A : Type} (p : A -> res bool) (q : A -> bool) (l : list A) :
  Forall (fun x => p x = Ok (q x)) l -> countM p l = Ok (length (filter q l)).
Proof.
  induction 1 as [|x l Hx _ IH]; simpl; [reflexivity|].
  rewrite Hx, IH. simpl. destruct (q x); reflexivity.
Qed.

(** ** Statistics aggregator *)

Lemma count_eq_dicts (k s : string) (l : list pyval) :
  Forall (fun i => exists d, i = VDict d) l ->
  count_eq k s l =
  Ok (length (filter (fun i => match i with
                               | VDict d => py_eq_str (dict_get d k VNone) s
                               | _ => false
                               end) l)).
Proof.
  intros H. apply countM_pure.
  eapply Forall_impl; [|exact H].
  intros i [d ->]. reflexivity.
Qed.

Lemma count_truthy_dicts (k : string) (l : list pyval) :
  Forall (fun i => exists d, i = VDict d) l ->
  exists n, count_truthy k l = Ok n.
Proof.
  intros H. eexists.
  apply (countM_pure _ (fun i => match i with
                                 | VDict d => py_truthy (dict_get d k VNone)
                                 | _ => false
                                 end)).
  eapply Forall_impl; [|exact H].
  intros i [d ->]. reflexivity.
Qed.

Lemma table_get_hashable {V : Type} (t : list (string * V)) (v : pyval) (dflt : V) :
  py_hashable v = true -> exists x, table_get t v dflt = Ok x.
Proof.
  destruct v; simpl; intros H; try discriminate; eauto.
Qed.

Lemma count_labels_total (t : list (string * string)) (k : string) (l : list pyval) :
  Forall (fun i => exists d, i = VDict d /\ field_hashable d k = true) l ->
  exists c, count_labels t k l = Ok c.
Proof.
  intros H. unfold count_labels.
  destruct (mapM_total (fun i => v <- py_get i k VNone ;; table_get t v Desconhecido) l)
    as [labels Hl].
  - eapply Forall_impl; [|exact H].
    intros i (d & -> & Hh). simpl. now apply table_get_hashable.
  - rewrite Hl. simpl. eauto.
Qed.

Lemma count_priorities_total (l : list pyval) :
  Forall (fun t => trigger_countable t = true) l ->
  exists c, count_priorities l = Ok c.
Proof.
  intros H. unfold count_priorities.
  destruct (mapM_total (fun t => v <- py_get t "priority" (VStr "0") ;;
                                 if py_hashable v then Ok v else Raise TypeError) l)
    as [keys Hk].
  - eapply Forall_impl; [|exact H].
    intros t Ht. destruct t; try discriminate. simpl in *.
    unfold field_hashable, dict_get in *.
    destruct (lookup "priority" d) as [v|]; simpl.
    + rewrite Ht. eauto.
    + eauto.
  - rewrite Hk. simpl. eauto.
Qed.

Lemma item_countable_dict (l : list pyval) :
  Forall (fun i => item_countable i = true) l ->
  Forall (fun i => exists d, i = VDict d) l /\
  Forall (fun i => exists d, i = VDict d /\ field_hashable d "type" = true) l /\
  Forall (fun i => exists d, i = VDict d /\ field_hashable d "value_type" = true) l.
Proof.
  intros H. repeat split; (eapply Forall_impl; [|exact H]);
    intros i Hi; destruct i; try discriminate; simpl in Hi;
    apply andb_prop in Hi; destruct Hi; eauto.
Qed.

Lemma trigger_countable_dict (l : list pyval) :
  Forall (fun t => trigger_countable t = true) l ->
  Forall (fun i => exists d, i = VDict d) l.
Proof.
  intros H. eapply Forall_impl; [|exact H].
  intros i Hi; destruct i; try discriminate; eauto.
Qed.

Lemma filter_partition3 {A : Type} (p q : A -> bool) (l : list A) :
  (forall x, p x = true -> q x = false) ->
  (length (filter p l) + length (filter q l)
   + length (filter (fun x => negb (p x || q x)) l) = length l)%nat.
Proof.
  intros Hpq. induction l as [|x l IH]; simpl; [reflexivity|].
  destruct (p x) eqn:Hp; simpl.
  - rewrite (Hpq x Hp). simpl. lia.
  - destruct (q x); simpl; lia.
Qed.

Lemma has_status_exclusive (i : pyval) :
  has_status "0" i = true -> has_status "1" i = false.
Proof.
  destruct i; simpl; try discriminate.
  destruct (dict_get d "status" VNone); simpl; try discriminate.
  intros H. apply String.eqb_eq in H. subst. reflexivity.
Qed.

Lemma filter_none {A : Type} (p : A -> bool) (l : list A) :
  Forall (fun x => p x = false) l -> filter p l = [].
Proof.
  induction 1 as [|x l Hx _ IH]; simpl; [reflexivity|].
  now rewrite Hx.
Qed.

(** C3. On countable records the aggregator returns; its total is the number
    of items, its active and disabled counts are the numbers of items with
    status "0" and "1", so every item with another or no status is counted
    in the total only, and when every status is "0" or "1" the two buckets
    add up to the total. *)
Theorem gerar_estatisticas_status_buckets (itens triggers : list pyval) :
  Forall (fun i => item_countable i = true) itens ->
  Forall (fun t => trigger_countable t = true) triggers ->
  exists st,
    gerar_estatisticas itens triggers = Ok st /\
    total (st_itens st) = length itens /\
    ativos (st_itens st) = length (filter (has_status "0") itens) /\
    desabilitados (st_itens st) = length (filter (has_status "1") itens) /\
    (ativos (st_itens st) + desabilitados (st_itens st)
     + length (filter other_status itens) = total (st_itens st))%nat /\
    (Forall (fun i => has_status "0" i || has_status "1" i = true) itens ->
     (ativos (st_itens st) + desabilitados (st_itens st) = total (st_itens st))%nat).
Proof.
  intros Hi Ht.
  destruct (item_countable_dict _ Hi) as (Hd & Htp & Hvt).
  pose proof (trigger_countable_dict _ Ht) as Hdt.
  unfold gerar_estatisticas.
  rewrite !(count_eq_dicts "status" _ itens Hd).
  rewrite !(count_eq_dicts "status" _ triggers Hdt).
  destruct (count_labels_total ITEM_TYPES "type" itens Htp) as [c1 ->].
  destruct (count_labels_total VALUE_TYPES "value_type" itens Hvt) as [c2 ->].
  destruct (count_truthy_dicts "preprocessing" itens Hd) as [n1 ->].
  destruct (count_truthy_dicts "tags" itens Hd) as [n2 ->].
  destruct (count_priorities_total triggers Ht) as [c3 ->].
  destruct (count_truthy_dicts "dependencies" triggers Hdt) as [n3 ->].
  destruct (count_truthy_dicts "tags" triggers Hdt) as [n4 ->].
  simpl. eexists. split; [reflexivity|]. simpl.
  fold (has_status "0") (has_status "1").
  pose proof (filter_partition3 (has_status "0") (has_status "1") itens
                has_status_exclusive) as Hsum.
  fold other_status in Hsum.
  repeat split; auto.
  intros Hall.
  assert (Hnone : filter other_status itens = []).
  { apply filter_none. eapply Forall_impl; [|exact Hall].
    intros i Hx. unfold other_status. now rewrite Hx. }
  rewrite Hnone in Hsum. simpl in Hsum. lia.
Qed.

(** ** Problem duration *)

Lemma duracao_units (t clock : Z) :
  (clock <= t)%Z ->
  exists d h m : Z,
    (0 <= d /\ 0 <= h < 24 /\ 0 <= m < 60 /\
     0 <= (t - clock) - (d * 86400 + h * 3600 + m * 60) < 60)%Z /\
    duracao t clock = show_units d h m.
Proof.
  intros Hle. unfold duracao.
  set (e := (t - clock)%Z).
  assert (He : (0 <= e)%Z) by (unfold e; lia).
  exists (e / 86400)%Z, ((e mod 86400) / 3600)%Z, ((e mod 3600) / 60)%Z.
  split.
  - clearbody e. clear Hle. Z.to_euclidean_division_equations. lia.
  - unfold show_units.
    assert (Hd : (0 <= e / 86400)%Z) by (apply Z.div_pos; lia).
    assert (Hh : (0 <= (e mod 86400) / 3600)%Z).
    { apply Z.div_pos; [|lia]. apply Z.mod_pos_bound. lia. }
    destruct (Z.ltb_spec 0 (e / 86400)) as [H1|H1];
      destruct (Z.eqb_spec (e / 86400) 0) as [H2|H2]; try lia; try reflexivity.
    destruct (Z.ltb_spec 0 ((e mod 86400) / 3600)) as [H3|H3];
      destruct (Z.eqb_spec ((e mod 86400) / 3600) 0) as [H4|H4];
      try lia; reflexivity.
Qed.

Lemma html_problem_row_duracao (rt : runtime) (i : nat) (p : pyval) (r : problem_row) :
  html_problem_row rt (i, p) = Ok r ->
  exists clock, problem_clock rt p = Ok clock /\
                pr_duracao r = duracao_cell (now rt Document i) clock.
Proof.
  unfold html_problem_row. intros H.
  inv_bind H. inv_bind H. inv_bind H. inv_bind H. inv_bind H.
  injection H as <-. simpl. eauto.
Qed.

Lemma xl_problem_row_duracao (rt : runtime) (i : nat) (p : pyval) (r : xl_problem_row) :
  xl_problem_row_of rt (i, p) = Ok r ->
  exists clock, problem_clock rt p = Ok clock /\
                xp_duracao r = duracao_cell (now rt Workbook i) clock.
Proof.
  unfold xl_problem_row_of. intros H.
  inv_bind H. inv_bind H. inv_bind H. inv_bind H. inv_bind H. inv_bind H.
  injection H as <-. simpl. eauto.
Qed.

(** ** Stable sorting *)

Section StableSortFacts.
Context {A : Type} (leb : A -> A -> bool).

Lemma insert_perm (x : A) (l : list A) : Permutation (x :: l) (insert leb x l).
Proof.
  induction l as [|y l IH]; simpl; [reflexivity|].
  destruct (leb x y); [reflexivity|].
  rewrite perm_swap. now constructor.
Qed.

Lemma stable_sort_perm (l : list A) : Permutation l (stable_sort leb l).
Proof.
  induction l as [|x l IH]; simpl; [constructor|].
  rewrite <- insert_perm. now constructor.
Qed.

Lemma stable_sort_length (l : list A) : length (stable_sort leb l) = length l.
Proof. symmetry. apply Permutation_length, stable_sort_perm. Qed.

(** Elements of one class of pairwise ordered elements keep their relative
    order. *)
Lemma insert_filter (p : A -> bool) (x : A) (l : list A) :
  (forall a b, p a = true -> p b = true -> leb a b = true) ->
  filter p (insert leb x l) = filter p (x :: l).
Proof.
  intros Hp. induction l as [|y l IH]; simpl; [reflexivity|].
  destruct (leb x y) eqn:Hxy; [reflexivity|].
  simpl in *. rewrite IH.
  destruct (p x) eqn:Hx; [|reflexivity].
  destruct (p y) eqn:Hy; [|reflexivity].
  rewrite (Hp x y Hx Hy) in Hxy. discriminate.
Qed.

Lemma stable_sort_stable (p : A -> bool) (l : list A) :
  (forall a b, p a = true -> p b = true -> leb a b = true) ->
  filter p (stable_sort leb l) = filter p l.
Proof.
  intros Hp. induction l as [|x l IH]; simpl; [reflexivity|].
  rewrite insert_filter by assumption. simpl. now rewrite IH.
Qed.

Hypothesis leb_total : forall a b, leb a b = true \/ leb b a = true.
Hypothesis leb_trans : forall a b c, leb a b = true -> leb b c = true -> leb a c = true.

Lemma insert_sorted (x : A) (l : list A) :
  StronglySorted (fun a b => leb a b = true) l ->
  StronglySorted (fun a b => leb a b = true) (insert leb x l).
Proof.
  induction 1 as [|y l Hs IH Hy]; simpl.
  - repeat constructor.
  - destruct (leb x y) eqn:Hxy.
    + constructor; [now constructor|].
      constructor; [assumption|].
      eapply Forall_impl; [|exact Hy]. intros z Hz. eauto.
    + constructor; [assumption|].
      assert (Hyx : leb y x = true) by (destruct (leb_total x y); congruence).
      eapply Permutation_Forall; [apply insert_perm|].
      now constructor.
Qed.

Lemma stable_sort_sorted (l : list A) :
  StronglySorted (fun a b => leb a b = true) (stable_sort leb l).
Proof.
  induction l as [|x l IH]; simpl; [constructor|].
  now apply insert_sorted.
Qed.
End StableSortFacts.

(** Sorting on precomputed keys is sorting with the key comparison. *)
Lemma insert_keyed {A K : Type} (kf : A -> K) (leb : K -> K -> bool) (x : A) (l : list A) :
  map snd (insert (fun a b => leb (fst a) (fst b)) (kf x, x) (map (fun y => (kf y, y)) l))
  = insert (fun a b => leb (kf a) (kf b)) x l.
Proof.
  induction l as [|y l IH]; simpl; [reflexivity|].
  destruct (leb (kf x) (kf y)); simpl.
  - rewrite map_map. simpl. now rewrite map_id.
  - now rewrite IH.
Qed.

Lemma stable_sort_keyed {A K : Type} (kf : A -> K) (leb : K -> K -> bool) (l : list A) :
  stable_sort (fun a b => leb (fst a) (fst b)) (map (fun y => (kf y, y)) l)
  = map (fun y => (kf y, y)) (stable_sort (fun a b => leb (kf a) (kf b)) l).
Proof.
  induction l as [|x l IH]; simpl; [reflexivity|].
  rewrite IH. clear IH.
  induction (stable_sort (fun a b => leb (kf a) (kf b)) l) as [|y s IHs];
    simpl; [reflexivity|].
  destruct (leb (kf x) (kf y)); simpl; [reflexivity|].
  now rewrite IHs.
Qed.

Lemma py_sorted_Ok {A K : Type} (key : A -> res K) (leb : K -> K -> bool)
    (dflt : K) (l l' : list A) :
  py_sorted key leb l = Ok l' ->
  Forall (fun x => key x = Ok (key_or key dflt x)) l /\
  l' = stable_sort (fun a b => leb (key_or key dflt a) (key_or key dflt b)) l.
Proof.
  unfold py_sorted. intros H. inv_bind H. injection H as <-.
  apply mapM_Forall2 in Hx.
  assert (Hk : Forall (fun x => key x = Ok (key_or key dflt x)) l /\
               x = map (fun y => (key_or key dflt y, y)) l).
  { induction Hx as [|a b l ys Hab _ [IH1 IH2]]; [split; constructor|].
    inv_bind Hab. injection Hab as <-.
    assert (Ha : key_or key dflt a = x) by (unfold key_or; now rewrite Hx).
    split; [constructor; [congruence | assumption]|].
    simpl. now rewrite Ha, IH2. }
  destruct Hk as [Hk ->]. split; [assumption|].
  rewrite stable_sort_keyed, map_map. simpl. apply map_id.
Qed.

Lemma py_sorted_total {A K : Type} (key : A -> res K) (leb : K -> K -> bool)
    (l : list A) :
  Forall (fun x => exists k, key x = Ok k) l -> exists l', py_sorted key leb l = Ok l'.
Proof.
  intros H. unfold py_sorted.
  destruct (mapM_total (fun x => k <- key x ;; Ok (k, x)) l) as [ks Hks].
  - eapply Forall_impl; [|exact H]. intros x [k Hk]. rewrite Hk. simpl. eauto.
  - rewrite Hks. simpl. eauto.
Qed.

(** ** Order of strings *)

Lemma ascii_compare_trans (a b c : ascii) (o : comparison) :
  Ascii.compare a b = o -> Ascii.compare b c = o -> Ascii.compare a c = o.
Proof.
  unfold Ascii.compare. intros H1 H2. destruct o.
  - rewrite N.compare_eq_iff in *. congruence.
  - rewrite N.compare_lt_iff in *. lia.
  - rewrite N.compare_gt_iff in *. lia.
Qed.

Lemma string_compare_refl (s : string) : String.compare s s = Eq.
Proof.
  induction s as [|a s IH]; simpl; [reflexivity|].
  unfold Ascii.compare. now rewrite N.compare_refl.
Qed.

Lemma string_compare_lt_trans (s1 s2 s3 : string) :
  String.compare s1 s2 = Lt -> String.compare s2 s3 = Lt -> String.compare s1 s3 = Lt.
Proof.
  revert s2 s3. induction s1 as [|a s1 IH]; intros [|b s2] [|c s3]; simpl;
    try discriminate; try reflexivity.
  destruct (Ascii.compare a b) eqn:Hab; try discriminate;
    destruct (Ascii.compare b c) eqn:Hbc; try discriminate; intros H1 H2.
  - apply Ascii.compare_eq_iff in Hab, Hbc. subst.
    assert (Hcc : Ascii.compare c c = Eq) by (unfold Ascii.compare; apply N.compare_refl).
    rewrite Hcc. eauto.
  - apply Ascii.compare_eq_iff in Hab. subst. now rewrite Hbc.
  - apply Ascii.compare_eq_iff in Hbc. subst. now rewrite Hab.
  - now rewrite (ascii_compare_trans a b c Lt Hab Hbc).
Qed.

Lemma string_leb_trans (s1 s2 s3 : string) :
  String.leb s1 s2 = true -> String.leb s2 s3 = true -> String.leb s1 s3 = true.
Proof.
  unfold String.leb.
  destruct (String.compare s1 s2) eqn:H12; try discriminate;
    destruct (String.compare s2 s3) eqn:H23; try discriminate; intros _ _.
  - apply String.compare_eq_iff in H12, H23. subst.
    now rewrite string_compare_refl.
  - apply String.compare_eq_iff in H12. subst. now rewrite H23.
  - apply String.compare_eq_iff in H23. subst. now rewrite H12.
  - now rewrite (string_compare_lt_trans s1 s2 s3 H12 H23).
Qed.

(** ** Listing order *)

Lemma StronglySorted_impl {A : Type} (R S : A -> A -> Prop) (l : list A) :
  (forall a b, R a b -> S a b) -> StronglySorted R l -> StronglySorted S l.
Proof.
  intros HRS. induction 1 as [|x l _ IH Hx]; constructor; [assumption|].
  eapply Forall_impl; [|exact Hx]. auto.
Qed.

Lemma trigger_key_leb_total (a b : Z * string) :
  trigger_key_leb a b = true \/ trigger_key_leb b a = true.
Proof.
  unfold trigger_key_leb.
  destruct (Z.ltb_spec (fst a) (fst b)); [now left|].
  destruct (Z.ltb_spec (fst b) (fst a)); [now right|].
  assert (E : fst a = fst b) by lia. rewrite E, Z.eqb_refl. simpl.
  apply String.leb_total.
Qed.

Lemma trigger_key_leb_trans (a b c : Z * string) :
  trigger_key_leb a b = true -> trigger_key_leb b c = true ->
  trigger_key_leb a c = true.
Proof.
  unfold trigger_key_leb. intros H1 H2.
  apply orb_true_iff in H1, H2. apply orb_true_iff.
  rewrite !andb_true_iff, !Z.ltb_lt, !Z.eqb_eq in *.
  destruct H1 as [H1|[H1 L1]], H2 as [H2|[H2 L2]].
  - left. lia.
  - left. lia.
  - left. lia.
  - right. split; [lia|]. eapply string_leb_trans; eauto.
Qed.

Lemma sort_itens_order (rt : runtime) (l l' : list pyval) :
  sort_itens rt l = Ok l' ->
  Permutation l l' /\ StronglySorted (item_order rt) l'.
Proof.
  intros H. apply (py_sorted_Ok _ _ "") in H. destruct H as [_ ->].
  split; [apply stable_sort_perm|].
  apply (stable_sort_sorted
           (fun a b => String.leb (key_or (item_key rt) "" a) (key_or (item_key rt) "" b))).
  - intros a b. apply String.leb_total.
  - intros a b c. apply string_leb_trans.
Qed.

Lemma trigger_key_parts (rt : runtime) (x : pyval) (k : Z * string) :
  trigger_key rt x = Ok k ->
  k = ((- priority_code rt x)%Z, folded rt "description" x).
Proof.
  unfold trigger_key, priority_code, folded, key_or. intros H.
  inv_bind H. inv_bind H. inv_bind H. inv_bind H. injection H as <-.
  rewrite Hx, Hx1. simpl. rewrite Hx0, Hx2. reflexivity.
Qed.

Lemma sort_triggers_order (rt : runtime) (l l' : list pyval) :
  sort_triggers rt l = Ok l' ->
  Permutation l l' /\ StronglySorted (trigger_order rt) l'.
Proof.
  intros H. apply (py_sorted_Ok _ _ (0%Z, "")) in H. destruct H as [Hk ->].
  split; [apply stable_sort_perm|].
  set (kf := key_or (trigger_key rt) (0%Z, "")) in *.
  pose proof (stable_sort_sorted (fun a b => trigger_key_leb (kf a) (kf b))
                (fun a b => trigger_key_leb_total (kf a) (kf b))
                (fun a b c => trigger_key_leb_trans (kf a) (kf b) (kf c)) l) as Hs.
  pose proof (stable_sort_perm (fun a b => trigger_key_leb (kf a) (kf b)) l) as Hp.
  assert (Hk' : Forall (fun x => trigger_key rt x = Ok (kf x))
                  (stable_sort (fun a b => trigger_key_leb (kf a) (kf b)) l))
    by (eapply Permutation_Forall; eauto).
  revert Hs Hk'.
  generalize (stable_sort (fun a b => trigger_key_leb (kf a) (kf b)) l) as s.
  clear Hp Hk. induction s as [|x s IH]; intros Hs Hk; [constructor|].
  inversion Hs as [|? ? Hs' Hx]; subst. inversion Hk as [|? ? Kx Ks]; subst.
  constructor; [auto|].
  rewrite Forall_forall in *. intros y Hy.
  specialize (Hx y Hy). specialize (Ks y Hy).
  apply trigger_key_parts in Kx, Ks. rewrite Kx, Ks in Hx.
  unfold trigger_key_leb in Hx. simpl in Hx. unfold trigger_order.
  apply orb_true_iff in Hx. rewrite andb_true_iff, Z.ltb_lt, Z.eqb_eq in Hx.
  destruct Hx as [Hx|[Hx Hl]]; [left; lia | right; split; [lia | assumption]].
Qed.

Lemma gerar_html_montar (rt : runtime) (data : pydict) (st : stats) (doc : html_doc) :
  gerar_html rt data st = Ok doc ->
  montar_html rt data st = Ok doc /\
  forallb (printable rt) (html_values doc) = true /\
  forallb (encodable rt) (html_values doc) = true.
Proof.
  unfold gerar_html. intros H. inv_bind H.
  destruct (forallb (printable rt) (html_values x)) eqn:E1; [|discriminate].
  destruct (forallb (encodable rt) (html_values x)) eqn:E2; [|discriminate].
  injection H as <-. auto.
Qed.

Lemma montar_html_sections (rt : runtime) (data : pydict) (st : stats) (doc : html_doc) :
  montar_html rt data st = Ok doc ->
  html_tipos st = Ok (h_tipos doc) /\ html_valores st = Ok (h_valores doc) /\
  html_alertas rt (dict_get data "problems" (VList [])) = Ok (h_alertas doc) /\
  html_frequentes (dict_get data "events" (VList [])) = Ok (h_frequentes doc).
Proof.
  unfold montar_html. intros H.
  repeat match type of H with bind _ _ = Ok _ => inv_bind H end.
  injection H as <-. simpl. auto.
Qed.

Lemma gerar_html_sections (rt : runtime) (data : pydict) (st : stats) (doc : html_doc) :
  gerar_html rt data st = Ok doc ->
  html_tipos st = Ok (h_tipos doc) /\ html_valores st = Ok (h_valores doc) /\
  html_alertas rt (dict_get data "problems" (VList [])) = Ok (h_alertas doc) /\
  html_frequentes (dict_get data "events" (VList [])) = Ok (h_frequentes doc).
Proof.
  intros H. apply gerar_html_montar in H. destruct H as [H _].
  now apply montar_html_sections.
Qed.

Lemma gerar_excel_sections (rt : runtime) (data : pydict) (st : stats) (doc : xl_doc) :
  gerar_excel rt data st = Ok doc ->
  xl_alertas rt (dict_get data "problems" (VList [])) = Ok (x_alertas doc) /\
  xl_top (dict_get data "events" (VList [])) = Ok (x_top doc).
Proof.
  unfold gerar_excel. intros H.
  repeat match type of H with bind _ _ = Ok _ => inv_bind H end.
  injection H as <-. simpl. auto.
Qed.

Lemma xl_item_line_row (rt : runtime) (x : pyval) (r : xl_item_row) :
  xl_item_line rt x = Ok r -> xl_item_row_of x = Ok r.
Proof.
  unfold xl_item_line. intros H. inv_bind H.
  destruct (tags_printable rt (xi_tags x0)); [|discriminate].
  inv_bind H. now injection H as <-.
Qed.

Lemma xl_trigger_line_row (rt : runtime) (x : pyval) (r : xl_trigger_row) :
  xl_trigger_line rt x = Ok r -> xl_trigger_row_of x = Ok r.
Proof.
  unfold xl_trigger_line. intros H. inv_bind H.
  destruct (tags_printable rt (xt_tags x0)); [|discriminate].
  inv_bind H. now injection H as <-.
Qed.

Lemma xl_problem_line_row (rt : runtime) (ip : nat * pyval) (r : xl_problem_row) :
  xl_problem_line rt ip = Ok r -> xl_problem_row_of rt ip = Ok r.
Proof.
  unfold xl_problem_line. intros H. inv_bind H. inv_bind H. now injection H as <-.
Qed.

Lemma xl_top_line_row (n : nat) (e : nat * (pyval * nat)) (r : xl_top_row) :
  xl_top_line n e = Ok r -> xl_top_row_of n e = Ok r.
Proof.
  unfold xl_top_line. intros H. inv_bind H. inv_bind H. now injection H as <-.
Qed.

Lemma Forall2_weaken {A B : Type} (R1 R2 : A -> B -> Prop) (l : list A) (l' : list B) :
  (forall a b, R1 a b -> R2 a b) -> Forall2 R1 l l' -> Forall2 R2 l l'.
Proof. intros HR H. induction H; constructor; auto. Qed.

Lemma gerar_html_listing (rt : runtime) (data : pydict) (st : stats) (doc : html_doc) :
  gerar_html rt data st = Ok doc ->
  exists itens li triggers lt,
    records data "itens" = Ok itens /\ sort_itens rt itens = Ok li /\
    Forall2 (fun x r => html_item_row x = Ok r) li (h_itens doc) /\
    records data "triggers" = Ok triggers /\ sort_triggers rt triggers = Ok lt /\
    Forall2 (fun x r => html_trigger_row x = Ok r) lt (h_triggers doc).
Proof.
  intros H. apply gerar_html_montar in H. destruct H as [H _].
  unfold montar_html, records in *.
  repeat match type of H with bind _ _ = Ok _ => inv_bind H end.
  injection H as <-. simpl.
  repeat match goal with
         | M : mapM _ _ = Ok _ |- _ => apply mapM_Forall2 in M
         end.
  eauto 12.
Qed.

Lemma gerar_excel_listing (rt : runtime) (data : pydict) (st : stats) (doc : xl_doc) :
  gerar_excel rt data st = Ok doc ->
  exists itens li triggers lt,
    records data "itens" = Ok itens /\ sort_itens rt itens = Ok li /\
    Forall2 (fun x r => xl_item_row_of x = Ok r) li (x_itens doc) /\
    records data "triggers" = Ok triggers /\ sort_triggers rt triggers = Ok lt /\
    Forall2 (fun x r => xl_trigger_row_of x = Ok r) lt (x_triggers doc).
Proof.
  unfold gerar_excel, records. intros H.
  repeat match type of H with bind _ _ = Ok _ => inv_bind H end.
  injection H as <-. simpl.
  repeat match goal with
         | M : mapM _ _ = Ok _ |- _ => apply mapM_Forall2 in M
         end.
  repeat match goal with
         | M : Forall2 (fun a b => xl_item_line _ a = Ok b) _ _ |- _ =>
             apply (Forall2_weaken _ _ _ _ (xl_item_line_row rt)) in M
         | M : Forall2 (fun a b => xl_trigger_line _ a = Ok b) _ _ |- _ =>
             apply (Forall2_weaken _ _ _ _ (xl_trigger_line_row rt)) in M
         end.
  eauto 12.
Qed.

(** C2. Whenever a renderer produces its document, the item rows are the rows
    of the fetched items rearranged in ascending order of the case-folded
    display name, and the trigger rows are those of the fetched triggers
    rearranged by descending numeric priority code, equal codes in ascending
    order of the case-folded description.  Both renderers sort alike, and the
    two sorts succeed on all records whose sort keys can be computed. *)
Theorem listing_sorted (rt : runtime) (data : pydict) (st : stats) :
  (forall doc, gerar_html rt data st = Ok doc ->
     exists itens li triggers lt,
       records data "itens" = Ok itens /\ Permutation itens li /\
       StronglySorted (item_order rt) li /\
       Forall2 (fun x r => html_item_row x = Ok r) li (h_itens doc) /\
       records data "triggers" = Ok triggers /\ Permutation triggers lt /\
       StronglySorted (trigger_order rt) lt /\
       Forall2 (fun x r => html_trigger_row x = Ok r) lt (h_triggers doc)) /\
  (forall doc, gerar_excel rt data st = Ok doc ->
     exists itens li triggers lt,
       records data "itens" = Ok itens /\ Permutation itens li /\
       StronglySorted (item_order rt) li /\
       Forall2 (fun x r => xl_item_row_of x = Ok r) li (x_itens doc) /\
       records data "triggers" = Ok triggers /\ Permutation triggers lt /\
       StronglySorted (trigger_order rt) lt /\
       Forall2 (fun x r => xl_trigger_row_of x = Ok r) lt (x_triggers doc)) /\
  (forall l, Forall (fun x => is_ok (item_key rt x) = true) l ->
     exists l', sort_itens rt l = Ok l') /\
  (forall l, Forall (fun x => is_ok (trigger_key rt x) = true) l ->
     exists l', sort_triggers rt l = Ok l').
Proof.
  split; [|split; [|split]].
  - intros doc H. apply gerar_html_listing in H.
    destruct H as (itens & li & triggers & lt & Hi & Hsi & Hri & Ht & Hst & Hrt).
    apply sort_itens_order in Hsi. apply sort_triggers_order in Hst.
    exists itens, li, triggers, lt. tauto.
  - intros doc H. apply gerar_excel_listing in H.
    destruct H as (itens & li & triggers & lt & Hi & Hsi & Hri & Ht & Hst & Hrt).
    apply sort_itens_order in Hsi. apply sort_triggers_order in Hst.
    exists itens, li, triggers, lt. tauto.
  - intros l H. apply py_sorted_total.
    eapply Forall_impl; [|exact H].
    intros x Hx. cbv beta in Hx. destruct (item_key rt x); [eauto | discriminate].
  - intros l H. apply py_sorted_total.
    eapply Forall_impl; [|exact H].
    intros x Hx. cbv beta in Hx. destruct (trigger_key rt x); [eauto | discriminate].
Qed.

(** ** Counters group by value *)

Section CounterFacts.
Context {K : Type} (eqb : K -> K -> bool) (P : K -> Prop).
Hypothesis eqb_refl : forall x, P x -> eqb x x = true.
Hypothesis eqb_sym : forall x y, eqb x y = eqb y x.
Hypothesis eqb_trans : forall x y z, eqb x y = true -> eqb y z = true -> eqb x z = true.

Lemma Counter_snoc (l : list K) (k : K) :
  Counter eqb (l ++ [k]) = counter_add eqb k (Counter eqb l).
Proof. unfold Counter. now rewrite fold_left_app. Qed.

Lemma first_seen_snoc (l : list K) (k : K) :
  first_seen eqb (l ++ [k]) =
  if existsb (eqb k) l then first_seen eqb l else (first_seen eqb l ++ [k])%list.
Proof.
  induction l as [|x l IH]; simpl; [reflexivity|].
  rewrite IH. destruct (existsb (eqb k) l) eqn:He.
  - now rewrite orb_true_r.
  - rewrite orb_false_r, filter_app. simpl.
    rewrite (eqb_sym x k). destruct (eqb k x); simpl.
    + now rewrite app_nil_r.
    + reflexivity.
Qed.

Lemma first_seen_incl (l : list K) (x : K) : In x (first_seen eqb l) -> In x l.
Proof.
  revert x. induction l as [|y l IH]; simpl; intros x; [tauto|].
  intros [->|H]; [now left|].
  apply filter_In in H. right. apply IH, H.
Qed.

Lemma first_seen_covers (l : list K) (x : K) :
  Forall P l -> In x l -> exists d, In d (first_seen eqb l) /\ eqb d x = true.
Proof.
  induction 1 as [|y l Py _ IH]; simpl; [tauto|].
  intros [->|Hx].
  - exists x. split; [now left | now apply eqb_refl].
  - destruct (IH Hx) as (d & Hd & Hdx).
    destruct (eqb y d) eqn:Hyd.
    + exists y. split; [now left | eauto].
    + exists d. split; [|assumption].
      right. apply filter_In. now rewrite Hyd.
Qed.

Lemma first_seen_distinct (l : list K) :
  ForallOrdPairs (fun a b => eqb a b = false) (first_seen eqb l).
Proof.
  induction l as [|x l IH]; simpl; constructor.
  - apply Forall_forall. intros y Hy. apply filter_In in Hy.
    destruct Hy as [_ Hy]. now apply negb_true_iff in Hy.
  - clear - IH. induction IH as [|a D Ha _ IHD]; simpl; [constructor|].
    destruct (negb (eqb x a)); [|assumption].
    constructor; [|assumption].
    apply Forall_forall. intros y Hy. apply filter_In in Hy.
    rewrite Forall_forall in Ha. apply Ha, Hy.
Qed.

Lemma occurrences_snoc (d k : K) (l : list K) :
  occurrences eqb d (l ++ [k]) =
  (occurrences eqb d l + if eqb k d then 1 else 0)%nat.
Proof.
  unfold occurrences. rewrite filter_app, length_app. simpl.
  rewrite (eqb_sym d k). now destruct (eqb k d).
Qed.

Lemma occurrences_none (k : K) (l : list K) :
  existsb (eqb k) l = false -> occurrences eqb k l = 0%nat.
Proof.
  unfold occurrences. induction l as [|x l IH]; simpl; [reflexivity|].
  intros H. apply orb_false_iff in H. destruct H as [H1 H2].
  rewrite H1. auto.
Qed.

Lemma counter_add_absent (k : K) (D : list K) (g : K -> nat) :
  Forall (fun d => eqb k d = false) D ->
  counter_add eqb k (map (fun d => (d, g d)) D)
  = (map (fun d => (d, g d)) D ++ [(k, 1%nat)])%list.
Proof.
  induction 1 as [|d D Hd _ IH]; simpl; [reflexivity|].
  now rewrite Hd, IH.
Qed.

Lemma counter_add_present (k : K) (D : list K) (g : K -> nat) :
  ForallOrdPairs (fun a b => eqb a b = false) D ->
  (exists d, In d D /\ eqb d k = true) ->
  counter_add eqb k (map (fun d => (d, g d)) D)
  = map (fun d => (d, (g d + if eqb k d then 1 else 0)%nat)) D.
Proof.
  induction 1 as [|d D Hd HD IH]; simpl; intros (x & Hx & Hxk); [tauto|].
  destruct (eqb k d) eqn:Hkd.
  - f_equal; [f_equal; lia|].
    apply map_ext_in. intros y Hy.
    rewrite Forall_forall in Hd. specialize (Hd y Hy).
    destruct (eqb k y) eqn:Hky; [|f_equal; lia].
    rewrite eqb_sym in Hkd. rewrite (eqb_trans d k y Hkd Hky) in Hd. discriminate.
  - f_equal; [f_equal; lia|].
    apply IH. destruct Hx as [->|Hx].
    + rewrite eqb_sym in Hxk. congruence.
    + eauto.
Qed.

(** A counter holds, for each distinct value in first-encountered order, its
    number of occurrences. *)
Lemma Counter_grouped (l : list K) :
  Forall P l -> Counter eqb l = grouped eqb l.
Proof.
  induction l as [|k l IH] using rev_ind; [reflexivity|].
  intros H. apply Forall_app in H. destruct H as [Hl Hk].
  inversion Hk as [|? ? Pk _]; subst.
  rewrite Counter_snoc, (IH Hl). unfold grouped.
  rewrite first_seen_snoc. destruct (existsb (eqb k) l) eqn:He.
  - rewrite counter_add_present.
    + apply map_ext. intros d. now rewrite occurrences_snoc.
    + apply first_seen_distinct.
    + apply existsb_exists in He. destruct He as (x & Hx & Hkx).
      destruct (first_seen_covers l x Hl Hx) as (d & Hd & Hdx).
      exists d. split; [assumption|].
      rewrite eqb_sym in Hkx. eauto.
  - assert (Hno : forall d, In d l -> eqb k d = false).
    { intros d Hd. destruct (eqb k d) eqn:E; [|reflexivity].
      assert (existsb (eqb k) l = true) by (apply existsb_exists; eauto).
      congruence. }
    rewrite counter_add_absent.
    + rewrite map_app. simpl. f_equal.
      * apply map_ext_in. intros d Hd. rewrite occurrences_snoc.
        rewrite (Hno d (first_seen_incl l d Hd)). f_equal. lia.
      * rewrite occurrences_snoc, (occurrences_none k l He), (eqb_refl k Pk).
        reflexivity.
    + apply Forall_forall. intros d Hd. apply Hno. now apply first_seen_incl.
Qed.

Lemma grouped_positive (l : list K) :
  Forall P l -> Forall (fun e => (1 <= snd e)%nat) (grouped eqb l).
Proof.
  intros Hl. unfold grouped. apply Forall_forall. intros e He.
  apply in_map_iff in He. destruct He as (k & <- & Hk). simpl.
  apply first_seen_incl in Hk.
  assert (Pk : P k) by (rewrite Forall_forall in Hl; auto).
  unfold occurrences. clear Hl.
  induction l as [|x l IH]; simpl in *; [tauto|].
  destruct Hk as [->|Hk].
  - rewrite (eqb_refl k Pk). simpl. lia.
  - destruct (eqb k x); simpl; [lia | auto].
Qed.

Lemma grouped_total (l : list K) :
  Forall P l ->
  fold_right Nat.add 0%nat (map snd (grouped eqb l)) = length l.
Proof.
  intros Hl. rewrite <- (Counter_grouped l Hl). clear Hl.
  induction l as [|k l IH] using rev_ind; [reflexivity|].
  rewrite Counter_snoc, length_app. simpl.
  revert IH. generalize (Counter eqb l) as c. intros c <-.
  induction c as [|[k' n] c IHc]; simpl; [reflexivity|].
  destruct (eqb k k'); simpl; [lia|].
  rewrite IHc. lia.
Qed.
End CounterFacts.

(** ** Keys of counters over record fields *)

Lemma py_key_eqb_refl (v : pyval) : py_hashable v = true -> py_key_eqb v v = true.
Proof.
  destruct v; simpl; intros H; try discriminate; try reflexivity.
  - apply Bool.eqb_reflx.
  - apply Z.eqb_refl.
  - apply String.eqb_refl.
Qed.

Lemma py_key_eqb_sym (v w : pyval) : py_key_eqb v w = py_key_eqb w v.
Proof.
  destruct v, w; simpl; try reflexivity.
  - destruct b, b0; reflexivity.
  - apply Z.eqb_sym.
  - apply Z.eqb_sym.
  - apply Z.eqb_sym.
  - apply String.eqb_sym.
Qed.

Lemma py_key_eqb_trans (u v w : pyval) :
  py_key_eqb u v = true -> py_key_eqb v w = true -> py_key_eqb u w = true.
Proof.
  destruct u, v, w; simpl; try discriminate; try reflexivity; intros H1 H2;
    repeat match goal with
           | H : Bool.eqb _ _ = true |- _ => apply Bool.eqb_prop in H
           | H : Z.eqb _ _ = true |- _ => apply Z.eqb_eq in H
           | H : String.eqb _ _ = true |- _ => apply String.eqb_eq in H
           end;
    try (apply Z.eqb_eq); try (apply String.eqb_eq); try congruence;
    repeat match goal with b : bool |- _ => destruct b end;
    simpl in *; try reflexivity; try lia.
Qed.

(** ** Ranking by frequency *)

Lemma most_common_all_perm {K : Type} (c : list (K * nat)) :
  Permutation c (most_common_all c).
Proof. apply stable_sort_perm. Qed.

Lemma most_common_all_sorted {K : Type} (c : list (K * nat)) :
  StronglySorted (fun a b => (snd b <= snd a)%nat) (most_common_all c).
Proof.
  eapply StronglySorted_impl;
    [|apply (stable_sort_sorted (fun a b : K * nat => Nat.leb (snd b) (snd a)))].
  - intros a b H. now apply Nat.leb_le.
  - intros a b. rewrite !Nat.leb_le. lia.
  - intros a b d. rewrite !Nat.leb_le. lia.
Qed.

(** Entries with the same count keep the order they have in the counter. *)
Lemma most_common_all_ties {K : Type} (c : list (K * nat)) (n : nat) :
  filter (fun e => Nat.eqb (snd e) n) (most_common_all c)
  = filter (fun e => Nat.eqb (snd e) n) c.
Proof.
  apply stable_sort_stable. intros a b Ha Hb.
  apply Nat.eqb_eq in Ha, Hb. apply Nat.leb_le. lia.
Qed.

Lemma round_half_even_near (q : Q) :
  (q - (1 # 2) <= inject_Z (round_half_even q) <= q + (1 # 2))%Q.
Proof.
  unfold round_half_even.
  pose proof (Qfloor_le q) as Hlo. pose proof (Qlt_floor q) as Hhi.
  set (f := Qfloor q) in *.
  rewrite inject_Z_plus in Hhi. change (inject_Z 1) with 1%Q in Hhi.
  destruct (Qcompare_spec (q - inject_Z f) (1 # 2)) as [He|Hl|Hg].
  - destruct (Z.even f); [|rewrite inject_Z_plus; change (inject_Z 1) with 1%Q];
      split; lra.
  - split; lra.
  - rewrite inject_Z_plus. change (inject_Z 1) with 1%Q. split; lra.
Qed.

Lemma string_app_assoc (a b c : string) : (a ++ b) ++ c = a ++ b ++ c.
Proof. induction a as [|x a IH]; simpl; [reflexivity | now rewrite IH]. Qed.

Lemma percentual_pos (count total_events : nat) :
  (0 < total_events)%nat ->
  percentual count total_events
  = Ok ((inject_Z (Z.of_nat count) / inject_Z (Z.of_nat total_events)) * 100)%Q.
Proof.
  intros H. unfold percentual, py_percent.
  destruct total_events; [lia|]. reflexivity.
Qed.

Lemma freq_rows (total start : nat) (top : list (pyval * nat)) :
  (0 < total)%nat ->
  exists rows,
    mapM (html_freq_row total) (enumerate start top) = Ok rows /\
    map (fun r => (fr_name r, fr_count r)) rows = top /\
    map fr_pos rows = seq start (length rows) /\
    Forall (fun r =>
              fr_width r = ((inject_Z (Z.of_nat (fr_count r))
                             / inject_Z (Z.of_nat total)) * 100)%Q /\
              fr_percent r = format_1f (fr_width r) ++ "%") rows.
Proof.
  intros Ht. revert start. induction top as [|[n c] top IH]; intros start; simpl.
  - exists []. repeat split; constructor.
  - destruct (IH (S start)) as (rows & Hr & Hn & Hp & Hw).
    rewrite (percentual_pos c total Ht). simpl. rewrite Hr. simpl.
    eexists. split; [reflexivity|]. simpl.
    rewrite Hn, Hp. repeat split; try reflexivity.
    constructor; [|assumption]. simpl. split; reflexivity.
Qed.

Lemma top_alerts_grouped (l : list pyval) :
  Forall (fun e => event_ok e = true) l ->
  Forall (fun v => py_hashable v = true) (map event_name l) /\
  top_alerts l = Ok (most_common 20 (grouped py_key_eqb (map event_name l))).
Proof.
  intros H.
  assert (Hh : Forall (fun v => py_hashable v = true) (map event_name l)).
  { apply Forall_map. eapply Forall_impl; [|exact H].
    intros e He. destruct e; try discriminate. exact He. }
  split; [assumption|].
  unfold top_alerts.
  rewrite (mapM_pure _ event_name).
  - simpl. f_equal. f_equal.
    apply (Counter_grouped py_key_eqb (fun v => py_hashable v = true)
             py_key_eqb_refl py_key_eqb_sym py_key_eqb_trans). assumption.
  - eapply Forall_impl; [|exact H].
    intros e He. destruct e; try discriminate. simpl in *. now rewrite He.
Qed.


(** ** Bar charts *)

Lemma gerar_estatisticas_groups (itens triggers : list pyval) (st : stats) :
  gerar_estatisticas itens triggers = Ok st ->
  exists labels values,
    length labels = length itens /\ length values = length itens /\
    por_tipo (st_itens st) = grouped String.eqb labels /\
    por_valor (st_itens st) = grouped String.eqb values.
Proof.
  unfold gerar_estatisticas. intros H.
  repeat match type of H with bind _ _ = Ok _ => inv_bind H end.
  injection H as <-. simpl.
  unfold count_labels in *.
  repeat match goal with
         | M : bind (mapM _ _) _ = Ok _ |- _ => inv_bind M; injection M as <-
         end.
  repeat match goal with
         | M : mapM _ itens = Ok _ |- _ => apply mapM_length in M
         end.
  assert (Hg : forall l, Counter String.eqb l = grouped String.eqb l).
  { intros l. apply (Counter_grouped String.eqb (fun _ => True)).
    - intros s _. apply String.eqb_refl.
    - apply String.eqb_sym.
    - intros a b c Hab Hbc. apply String.eqb_eq in Hab, Hbc.
      apply String.eqb_eq. congruence.
    - now apply Forall_forall. }
  do 2 eexists. repeat split; cycle 2.
  - apply Hg.
  - apply Hg.
  - assumption.
  - assumption.
Qed.

Lemma grouped_labels_positive (l : list string) :
  Forall (fun e => (1 <= snd e)%nat) (grouped String.eqb l).
Proof.
  apply (grouped_positive String.eqb (fun _ => True)).
  - intros x _. apply String.eqb_refl.
  - now apply Forall_forall.
Qed.

Lemma grouped_labels_NoDup (l : list string) :
  NoDup (map fst (grouped String.eqb l)).
Proof.
  unfold grouped. rewrite map_map. simpl. rewrite map_id.
  pose proof (first_seen_distinct String.eqb l) as H.
  induction H as [|x D Hx _ IH]; constructor; [|assumption].
  intros Hin. rewrite Forall_forall in Hx. specialize (Hx x Hin).
  now rewrite String.eqb_refl in Hx.
Qed.

Lemma max_count_upper {K : Type} (c : list (K * nat)) :
  Forall (fun e => (snd e <= max_count c)%nat) c.
Proof.
  unfold max_count. induction c as [|e c IH]; simpl; constructor; [lia|].
  eapply Forall_impl; [|exact IH]. intros a Ha. simpl in Ha. lia.
Qed.

Lemma max_count_attained {K : Type} (c : list (K * nat)) :
  c <> [] -> exists e, In e c /\ snd e = max_count c.
Proof.
  unfold max_count. induction c as [|e c IH]; [congruence|]. intros _. simpl.
  destruct c as [|e' c'].
  - exists e. simpl. split; [now left | lia].
  - destruct IH as (x & Hx & Hm); [congruence|].
    destruct (Nat.le_ge_cases (snd e) (fold_right Nat.max 0%nat (map snd (e' :: c')))).
    + exists x. split; [now right|]. rewrite Hm. lia.
    + exists e. split; [now left | lia].
Qed.

Lemma html_bars (denom : nat) (c : list (string * nat)) :
  (0 < denom)%nat ->
  exists bars,
    mapM (html_bar denom) c = Ok bars /\
    map (fun b => (bar_label b, bar_count b)) bars = c /\
    Forall (bar_against denom) bars.
Proof.
  intros Hd. induction c as [|[k n] c (bars & Hb & Hm & Hw)]; simpl.
  - exists []. repeat split; constructor.
  - unfold html_bar at 1. unfold py_percent. simpl.
    destruct denom; [lia|]. simpl. rewrite Hb. simpl.
    eexists. split; [reflexivity|]. simpl. rewrite Hm.
    split; [reflexivity|]. constructor; [reflexivity | assumption].
Qed.

Lemma chart_denominator (c : list (string * nat)) :
  Forall (fun e => (1 <= snd e)%nat) c ->
  (0 < match c with [] => 1 | _ => max_count c end)%nat.
Proof.
  intros H. destruct c as [|e c]; [lia|].
  inversion H; subst. unfold max_count. simpl. lia.
Qed.

Lemma chart_maximum_bars (c : list (string * nat)) (bars : list bar) :
  c <> [] ->
  map (fun b => (bar_label b, bar_count b)) bars = c ->
  chart_maximum (max_count c) bars.
Proof.
  intros Hne Hm. split.
  - pose proof (max_count_upper c) as Hu. rewrite <- Hm in Hu at 1.
    rewrite Forall_map in Hu. exact Hu.
  - destruct (max_count_attained c Hne) as (e & He & Hmax).
    rewrite <- Hm in He. apply in_map_iff in He.
    destruct He as (b & <- & Hb). eauto.
Qed.

Lemma firstn_Forall {A : Type} (P : A -> Prop) (n : nat) (l : list A) :
  Forall P l -> Forall P (firstn n l).
Proof.
  intros H. rewrite <- (firstn_skipn n l) in H.
  now apply Forall_app in H.
Qed.

(** The two charts of a statistics value whose counts are positive. *)
Lemma html_charts (st : stats) :
  Forall (fun e => (1 <= snd e)%nat) (por_tipo (st_itens st)) ->
  Forall (fun e => (1 <= snd e)%nat) (por_valor (st_itens st)) ->
  exists tipos valores,
    html_tipos st = Ok tipos /\ html_valores st = Ok valores /\
    map (fun b => (bar_label b, bar_count b)) tipos
    = most_common 8 (por_tipo (st_itens st)) /\
    map (fun b => (bar_label b, bar_count b)) valores
    = most_common_all (por_valor (st_itens st)) /\
    Forall (bar_against (max_count (most_common 8 (por_tipo (st_itens st))))) tipos /\
    Forall (bar_against (max_count (por_valor (st_itens st)))) valores.
Proof.
  intros Ht Hv. unfold html_tipos, html_valores.
  set (top := most_common 8 (por_tipo (st_itens st))).
  assert (Htop : Forall (fun e => (1 <= snd e)%nat) top).
  { apply firstn_Forall. eapply Permutation_Forall; [apply most_common_all_perm|].
    exact Ht. }
  destruct (html_bars _ top (chart_denominator top Htop)) as (bt & Hbt & Hmt & Hwt).
  destruct (html_bars _ (most_common_all (por_valor (st_itens st)))
              (chart_denominator _ Hv)) as (bv & Hbv & Hmv & Hwv).
  exists bt, bv. rewrite Hbt, Hbv. repeat split; try assumption.
  - destruct top; [|exact Hwt].
    destruct bt; [constructor | discriminate].
  - destruct (por_valor (st_itens st)) eqn:E; [|exact Hwv].
    destruct bv; [constructor | discriminate].
Qed.

Lemma gerar_estatisticas_positive (itens triggers : list pyval) (st : stats) :
  gerar_estatisticas itens triggers = Ok st ->
  Forall (fun e => (1 <= snd e)%nat) (por_tipo (st_itens st)) /\
  Forall (fun e => (1 <= snd e)%nat) (por_valor (st_itens st)) /\
  NoDup (map fst (por_tipo (st_itens st))) /\
  NoDup (map fst (por_valor (st_itens st))).
Proof.
  intros H. apply gerar_estatisticas_groups in H.
  destruct H as (labels & values & _ & _ & -> & ->).
  auto using grouped_labels_positive, grouped_labels_NoDup.
Qed.

Lemma bars_nonempty (c : list (string * nat)) (bars : list bar) :
  map (fun b => (bar_label b, bar_count b)) bars = c -> bars <> [] -> c <> [].
Proof. intros <- H. destruct bars; [congruence | discriminate]. Qed.

(** C6. In the document of a statistics value, the chart of items by
    collection type has one bar for each of the eight most frequent type
    groups of the statistics and the chart of items by value type one bar for
    each value-type group, with the label and the count of the group; every
    bar has the width count / m * 100, where m is the largest count among the
    bars of that chart, while the most-frequent-events table has one row for
    each of the twenty most frequent event names and every row has the
    percentage count / n * 100, where n is the number of events.  These are
    the charts and the table of every document the renderer returns.  The two
    denominators differ: for three items of two types (counts 2 and 1) the
    bars are 100 and 50 wide, whereas among the events A,A,B,C,C,C the count 2
    is 100/3 per cent. *)
Theorem bar_denominators (rt : runtime) (data : pydict)
    (itens triggers events : list pyval) (st : stats) :
  gerar_estatisticas itens triggers = Ok st ->
  events <> [] -> Forall (fun e => event_ok e = true) events ->
  (exists tipos valores rows,
     html_tipos st = Ok tipos /\ html_valores st = Ok valores /\
     html_frequentes (VList events) = Ok (Some rows) /\
     map (fun b => (bar_label b, bar_count b)) tipos
     = most_common 8 (por_tipo (st_itens st)) /\
     map (fun b => (bar_label b, bar_count b)) valores
     = most_common_all (por_valor (st_itens st)) /\
     map (fun r => (fr_name r, fr_count r)) rows
     = most_common 20 (grouped py_key_eqb (map event_name events)) /\
     (Forall (bar_against (max_count (most_common 8 (por_tipo (st_itens st))))) tipos /\
      (tipos <> [] ->
       chart_maximum (max_count (most_common 8 (por_tipo (st_itens st)))) tipos)) /\
     (Forall (bar_against (max_count (por_valor (st_itens st)))) valores /\
      (valores <> [] ->
       chart_maximum (max_count (por_valor (st_itens st))) valores)) /\
     Forall (fun r => fr_width r
                      = ((inject_Z (Z.of_nat (fr_count r))
                          / inject_Z (Z.of_nat (length events))) * 100)%Q) rows /\
     (forall doc, gerar_html rt data st = Ok doc ->
        h_tipos doc = tipos /\ h_valores doc = valores /\
        (dict_get data "events" (VList []) = VList events ->
         h_frequentes doc = Some rows))) /\
  (exists st2 tipos rows,
     gerar_estatisticas itens_dois_tipos [] = Ok st2 /\
     html_tipos st2 = Ok tipos /\
     html_frequentes (VList events_exemplo) = Ok (Some rows) /\
     map (fun b => (bar_count b, Qred (bar_width b))) tipos
     = [(2%nat, 100%Q); (1%nat, 50%Q)] /\
     map (fun r => (fr_count r, Qred (fr_width r))) rows
     = [(3%nat, 50%Q); (2%nat, (100 # 3)%Q); (1%nat, (50 # 3)%Q)]).
Proof.
  intros Hst Hne Hev. split.
  - destruct (gerar_estatisticas_positive _ _ _ Hst) as (Pt & Pv & _ & _).
    destruct (html_charts st Pt Pv) as (bt & bv & Ht & Hv & Mt & Mv & Wt & Wv).
    destruct (top_alerts_grouped events Hev) as [_ Htop].
    assert (Hlen : (0 < length events)%nat)
      by (destruct events; [congruence | simpl; lia]).
    destruct (freq_rows (length events) 1
                (most_common 20 (grouped py_key_eqb (map event_name events))) Hlen)
      as (rows & Hrows & Hnames & _ & Hw).
    assert (Hfreq : html_frequentes (VList events) = Ok (Some rows)).
    { unfold html_frequentes. destruct events as [|e l']; [congruence|].
      cbn [py_truthy py_iter bind py_len]. rewrite Htop. cbn [bind].
      rewrite Hrows. reflexivity. }
    exists bt, bv, rows. split; [assumption|]. split; [assumption|].
    split; [exact Hfreq|]. split; [exact Mt|]. split; [exact Mv|].
    split; [exact Hnames|].
    split; [|split; [|split]].
    + split; [exact Wt|]. intros Hb.
      apply chart_maximum_bars; [|assumption]. eapply bars_nonempty; eauto.
    + split; [exact Wv|]. intros Hb.
      assert (Hc : most_common_all (por_valor (st_itens st)) <> [])
        by (eapply bars_nonempty; eauto).
      destruct (chart_maximum_bars _ bv Hc Mv) as [Hu (b & Hb1 & Hb2)].
      assert (Hmax : max_count (most_common_all (por_valor (st_itens st)))
                     = max_count (por_valor (st_itens st))).
      { unfold max_count.
        pose proof (most_common_all_perm (por_valor (st_itens st))) as Hp.
        apply (Permutation_map snd) in Hp. symmetry.
        revert Hp. generalize (map snd (por_valor (st_itens st))).
        generalize (map snd (most_common_all (por_valor (st_itens st)))).
        intros l1 l2 Hp. induction Hp; simpl; lia. }
      rewrite Hmax in *. split; [assumption | eauto].
    + eapply Forall_impl; [|exact Hw]. intros r [H1 _]. exact H1.
    + intros doc Hdoc. apply gerar_html_sections in Hdoc.
      destruct Hdoc as (D1 & D2 & _ & D4).
      split; [congruence|]. split; [congruence|].
      intros E. rewrite E in D4. congruence.
  - do 3 eexists. repeat split; vm_compute; reflexivity.
Qed.

Lemma NoDup_firstn_skipn {A : Type} (n : nat) (l : list A) (x : A) :
  NoDup l -> In x (skipn n l) -> ~ In x (firstn n l).
Proof.
  intros Hnd Hs Hf. rewrite <- (firstn_skipn n l) in Hnd.
  revert Hnd Hf Hs. generalize (skipn n l) as t. generalize (firstn n l) as h.
  induction h as [|y h IH]; simpl; intros t Hnd Hf Hs; [tauto|].
  inversion Hnd as [|? ? Hy Hnd']; subst.
  destruct Hf as [->|Hf]; [|eauto].
  apply Hy. apply in_or_app. now right.
Qed.


(** ** Rows of the active-alerts table *)

Lemma absent_or_get (p : pyval -> bool) (d : pydict) (k : string) (dflt : pyval) :
  absent_or p d k = true -> p dflt = true -> p (dict_get d k dflt) = true.
Proof.
  unfold absent_or, dict_get. destruct (lookup k d); auto.
Qed.

Lemma clock_ok_cells (rt : runtime) (v : pyval) :
  clock_ok rt v = true ->
  exists c s, py_int rt v = Ok c /\ inicio_cell rt c = Ok s.
Proof.
  unfold clock_ok, inicio_cell. destruct (py_int rt v) as [c|]; [|discriminate].
  intros H. exists c. destruct (c =? 0)%Z; simpl in H; [eauto|].
  destruct (fromtimestamp rt c); [eauto | discriminate].
Qed.

Lemma html_problem_row_total (rt : runtime) (i : nat) (p : pyval) :
  problem_ok rt p = true -> exists r, html_problem_row rt (i, p) = Ok r.
Proof.
  destruct p; try discriminate. simpl. intros H.
  apply andb_prop in H. destruct H as [H _].
  apply andb_prop in H. destruct H as [Hs Hc].
  unfold priority_info. simpl.
  destruct (table_get_hashable TRIGGER_PRIORITIES
              (dict_get d "severity" (VStr "0")) unknown_info) as [info ->];
    [now apply absent_or_get|]. simpl.
  destruct (clock_ok_cells rt (dict_get d "clock" (VInt 0))) as (c & s & Hi & Hcell);
    [now apply absent_or_get|].
  unfold problem_clock. simpl. rewrite Hi. simpl. rewrite Hcell. simpl. eauto.
Qed.

Lemma xl_problem_row_total (rt : runtime) (i : nat) (p : pyval) :
  problem_ok rt p = true -> exists r, xl_problem_row_of rt (i, p) = Ok r.
Proof.
  destruct p; try discriminate. simpl. intros H.
  apply andb_prop in H. destruct H as [H _].
  apply andb_prop in H. destruct H as [Hs Hc].
  destruct (table_get_hashable TRIGGER_PRIORITIES
              (dict_get d "severity" (VStr "0")) unknown_info) as [info ->];
    [now apply absent_or_get|]. simpl.
  destruct (clock_ok_cells rt (dict_get d "clock" (VInt 0))) as (c & s & Hi & Hcell);
    [now apply absent_or_get|].
  unfold problem_clock. simpl. rewrite Hi. simpl. rewrite Hcell. simpl. eauto.
Qed.

Lemma xl_problem_row_name (rt : runtime) (i : nat) (d : pydict) (r : xl_problem_row) :
  xl_problem_row_of rt (i, VDict d) = Ok r ->
  xp_name r = dict_get d "name" (VStr "").
Proof.
  unfold xl_problem_row_of. intros H. inv_binds. injection H as <-. simpl.
  match goal with G : py_get _ "name" _ = Ok _ |- _ => now injection G as <- end.
Qed.

Lemma xl_problem_line_total (rt : runtime) (i : nat) (p : pyval) :
  problem_ok rt p = true -> name_cell_ok p = true ->
  exists r, xl_problem_line rt (i, p) = Ok r.
Proof.
  intros Hp Hn. destruct (xl_problem_row_total rt i p Hp) as [r Hr].
  exists r. unfold xl_problem_line. rewrite Hr. cbn [bind].
  destruct p; try discriminate.
  rewrite (xl_problem_row_name rt i d r Hr). unfold xl_write. cbn [mapM].
  unfold name_cell_ok in Hn.
  destruct (cell_write (dict_get d "name" (VStr ""))) as [[]|]; [reflexivity | discriminate].
Qed.

Lemma enumerate_Forall {A : Type} (P : A -> Prop) (l : list A) (start : nat) :
  Forall P l -> Forall (fun e => P (snd e)) (enumerate start l).
Proof.
  intros H. revert start. induction H; intros start; simpl; constructor; auto.
Qed.

Lemma enumerate_length {A : Type} (l : list A) (start : nat) :
  length (enumerate start l) = length l.
Proof. revert start. induction l; simpl; auto. Qed.

(** The rows of a rendered alert section over a non-empty list. *)
Lemma html_alertas_rows (rt : runtime) (l : list pyval) (out : list alert_row) :
  l <> [] -> html_alertas rt (VList l) = Ok out ->
  exists rows,
    out = map AlertRow rows /\ length rows = length l /\
    Forall2 (fun ip r => html_problem_row rt ip = Ok r) (enumerate 0 l) rows.
Proof.
  intros Hne H. unfold html_alertas in H. destruct l as [|p l']; [congruence|].
  cbn [py_truthy py_iter bind] in H. inv_bind H. injection H as <-.
  exists x. split; [reflexivity|]. split.
  - apply mapM_length in Hx. now rewrite Hx, enumerate_length.
  - now apply mapM_Forall2.
Qed.

Lemma xl_alertas_rows (rt : runtime) (l : list pyval) (out : list xl_alert_row) :
  l <> [] -> xl_alertas rt (VList l) = Ok out ->
  exists rows,
    out = map XAlertRow rows /\ length rows = length l /\
    Forall2 (fun ip r => xl_problem_row_of rt ip = Ok r) (enumerate 0 l) rows.
Proof.
  intros Hne H. unfold xl_alertas in H. destruct l as [|p l']; [congruence|].
  cbn [py_truthy py_iter bind] in H. inv_bind H. injection H as <-.
  exists x. split; [reflexivity|]. split.
  - apply mapM_length in Hx. now rewrite Hx, enumerate_length.
  - apply mapM_Forall2 in Hx.
    exact (Forall2_weaken _ _ _ _ (xl_problem_line_row rt) Hx).
Qed.

(** C7. With an empty list of active problems the alert table of the document
    and the alert sheet of the workbook consist of the single notice row
    "no active alerts", in the section renderers, which do not raise, and in
    every document a renderer returns.  With a non-empty list of problems,
    every document a renderer returns has exactly one row per problem, the
    row at position i being the row of the i-th problem received; and the
    section renderers return such rows for all well-formed problems, the
    sheet provided the workbook accepts each name in a cell. *)
Theorem alert_table_rows (rt : runtime) (data : pydict) (st : stats) (l : list pyval) :
  html_alertas rt (VList []) = Ok [NoAlertsRow] /\
  xl_alertas rt (VList []) = Ok [XNoAlerts] /\
  (forall doc, gerar_html rt data st = Ok doc ->
     dict_get data "problems" (VList []) = VList [] ->
     h_alertas doc = [NoAlertsRow]) /\
  (forall doc, gerar_excel rt data st = Ok doc ->
     dict_get data "problems" (VList []) = VList [] ->
     x_alertas doc = [XNoAlerts]) /\
  (l <> [] ->
   (forall doc, gerar_html rt data st = Ok doc ->
      dict_get data "problems" (VList []) = VList l ->
      exists rows,
        h_alertas doc = map AlertRow rows /\ length rows = length l /\
        Forall2 (fun ip r => html_problem_row rt ip = Ok r) (enumerate 0 l) rows) /\
   (forall doc, gerar_excel rt data st = Ok doc ->
      dict_get data "problems" (VList []) = VList l ->
      exists xrows,
        x_alertas doc = map XAlertRow xrows /\ length xrows = length l /\
        Forall2 (fun ip r => xl_problem_row_of rt ip = Ok r) (enumerate 0 l) xrows) /\
   (Forall (fun p => problem_ok rt p = true) l ->
    exists rows,
      html_alertas rt (VList l) = Ok (map AlertRow rows) /\
      length rows = length l /\
      Forall2 (fun ip r => html_problem_row rt ip = Ok r) (enumerate 0 l) rows) /\
   (Forall (fun p => problem_ok rt p = true) l ->
    Forall (fun p => name_cell_ok p = true) l ->
    exists xrows,
      xl_alertas rt (VList l) = Ok (map XAlertRow xrows) /\
      length xrows = length l /\
      Forall2 (fun ip r => xl_problem_row_of rt ip = Ok r) (enumerate 0 l) xrows)).
Proof.
  split; [reflexivity|]. split; [reflexivity|]. split; [|split].
  - intros doc H E. apply gerar_html_sections in H.
    destruct H as (_ & _ & H & _). rewrite E in H.
    unfold html_alertas in H. simpl in H. now injection H as <-.
  - intros doc H E. apply gerar_excel_sections in H.
    destruct H as (H & _). rewrite E in H.
    unfold xl_alertas in H. simpl in H. now injection H as <-.
  - intros Hne. split; [|split; [|split]].
    + intros doc H E. apply gerar_html_sections in H.
      destruct H as (_ & _ & H & _). rewrite E in H.
      now apply html_alertas_rows.
    + intros doc H E. apply gerar_excel_sections in H.
      destruct H as (H & _). rewrite E in H.
      now apply xl_alertas_rows.
    + intros Hok.
      destruct (mapM_total (html_problem_row rt) (enumerate 0 l)) as [rows Hr].
      { eapply Forall_impl; [|apply (enumerate_Forall _ l 0 Hok)].
        intros [i p] Hp. now apply html_problem_row_total. }
      assert (Ha : html_alertas rt (VList l) = Ok (map AlertRow rows)).
      { unfold html_alertas. destruct l as [|p l']; [congruence|].
        cbn [py_truthy py_iter bind]. now rewrite Hr. }
      exists rows. split; [exact Ha|]. split.
      * apply mapM_length in Hr. now rewrite Hr, enumerate_length.
      * now apply mapM_Forall2.
    + intros Hok Hcells.
      destruct (mapM_total (xl_problem_line rt) (enumerate 0 l)) as [xrows Hx].
      { assert (Hboth : Forall (fun p => problem_ok rt p = true /\ name_cell_ok p = true) l).
        { rewrite Forall_forall in *. auto. }
        eapply Forall_impl; [|apply (enumerate_Forall _ l 0 Hboth)].
        intros [i p] [Hp Hn]. now apply xl_problem_line_total. }
      assert (Ha : xl_alertas rt (VList l) = Ok (map XAlertRow xrows)).
      { unfold xl_alertas. destruct l as [|p l']; [congruence|].
        cbn [py_truthy py_iter bind]. now rewrite Hx. }
      exists xrows. split; [exact Ha|]. split.
      * apply mapM_length in Hx. now rewrite Hx, enumerate_length.
      * apply mapM_Forall2 in Hx.
        exact (Forall2_weaken _ _ _ _ (xl_problem_line_row rt) Hx).
Qed.

(** ** Labels and durations in the two renderers *)

(** C9. The two renderers disagree on the status label of a record whose
    status is not a known code: for the status "2" the document shows
    "Desconhecido" and the spreadsheet "Desabilitado", and for a record
    without status the document shows "Ativo" and the spreadsheet
    "Desabilitado". *)
Theorem status_label_divergence :
  html_status (VDict [("status", VStr "2")]) = Ok "Desconhecido" /\
  xl_status (VDict [("status", VStr "2")]) = Ok "Desabilitado" /\
  html_status (VDict []) = Ok "Ativo" /\
  xl_status (VDict []) = Ok "Desabilitado".
Proof. repeat split; reflexivity. Qed.

(** On the two known status codes the labels agree. *)
Lemma status_label_known (x : pyval) (s : string) :
  has_status "0" x || has_status "1" x = true ->
  html_status x = Ok s -> xl_status x = Ok s.
Proof.
  destruct x; try discriminate. unfold html_status, xl_status. simpl.
  unfold dict_get. destruct (lookup "status" d) as [v|]; [|discriminate].
  destruct v; try discriminate. simpl.
  destruct (String.eqb_spec s0 "0") as [->|H0]; simpl; [intros _ H; exact H|].
  destruct (String.eqb_spec s0 "1") as [->|H1]; simpl; [intros _ H; exact H|].
  discriminate.
Qed.

(** Priority and severity labels always agree, and so do the durations when
    the two renderers read the same clock. *)
Lemma trigger_priority_label_agrees (t : pyval) (r : trigger_row) (x : xl_trigger_row) :
  html_trigger_row t = Ok r -> xl_trigger_row_of t = Ok x ->
  fst (tr_priority r) = xt_priority x.
Proof.
  unfold html_trigger_row, xl_trigger_row_of, priority_info. intros H1 H2.
  inv_binds. injection H1 as <-. injection H2 as <-. simpl. congruence.
Qed.

Lemma problem_cells_agree (rt : runtime) (i : nat) (p : pyval)
    (r : problem_row) (x : xl_problem_row) :
  html_problem_row rt (i, p) = Ok r -> xl_problem_row_of rt (i, p) = Ok x ->
  fst (pr_severity r) = xp_severity x /\ pr_name r = xp_name x /\
  pr_inicio r = xp_inicio x /\ pr_ack r = xp_ack x /\
  (now rt Document i = now rt Workbook i -> pr_duracao r = xp_duracao x).
Proof.
  unfold html_problem_row, xl_problem_row_of, priority_info. intros H1 H2.
  inv_binds. injection H1 as <-. injection H2 as <-. simpl.
  repeat split; congruence.
Qed.

(** ** The document renderer on well-formed record sets *)

Lemma forallb_Forall {A : Type} (p : A -> bool) (l : list A) :
  forallb p l = true -> Forall (fun x => p x = true) l.
Proof. intros H. apply Forall_forall. now apply forallb_forall. Qed.

Lemma html_tag_total (rt : runtime) (t : pyval) :
  tag_ok rt t = true -> exists c, html_tag t = Ok c.
Proof.
  destruct t; try discriminate. unfold html_tag, tag_ok. simpl.
  destruct (lookup "tag" d) as [v|] eqn:Ht; [|discriminate]. intros _.
  unfold dict_get. destruct (lookup "value" d) as [w|] eqn:Hv; simpl.
  - destruct (py_truthy w); simpl; eauto.
  - eauto.
Qed.

Lemma list_field (p : pyval -> bool) (d : pydict) (k : string) :
  absent_or (list_of p) d k = true ->
  exists l, dict_get d k (VList []) = VList l /\ Forall (fun x => p x = true) l.
Proof.
  unfold absent_or, dict_get. destruct (lookup k d) as [v|].
  - destruct v; try discriminate. simpl. intros H.
    eauto using forallb_Forall.
  - intros _. exists []. split; [reflexivity | constructor].
Qed.

Lemma html_tags_total (rt : runtime) (d : pydict) :
  absent_or (list_of (tag_ok rt)) d "tags" = true ->
  exists c, html_tags (VDict d) = Ok c.
Proof.
  intros H. destruct (list_field _ _ _ H) as (l & Hl & Hok).
  unfold html_tags. simpl. rewrite Hl. simpl.
  destruct (mapM_total html_tag l) as [cs Hcs].
  - eapply Forall_impl; [|exact Hok]. intros t. apply html_tag_total.
  - rewrite Hcs. simpl. eauto.
Qed.

Lemma html_status_total (d : pydict) :
  absent_or py_hashable d "status" = true -> exists s, html_status (VDict d) = Ok s.
Proof.
  intros H. unfold html_status. simpl.
  destruct (table_get_hashable STATUS_MAP (dict_get d "status" (VStr "0")) unknown_info)
    as [info ->]; [now apply absent_or_get|].
  simpl. eauto.
Qed.

(** The conjuncts of a well-formed item and of a well-formed trigger. *)
Lemma item_ok_parts (rt : runtime) (d : pydict) :
  item_ok rt (VDict d) = true ->
  absent_or (fun v => is_str v && renders rt v) d "name" = true /\
  absent_or py_hashable d "status" = true /\
  absent_or py_hashable d "type" = true /\
  absent_or py_hashable d "value_type" = true /\
  absent_or (list_of (tag_ok rt)) d "tags" = true /\
  absent_or (renders rt) d "key_" = true /\
  absent_or (renders rt) d "delay" = true /\
  absent_or (renders rt) d "history" = true.
Proof.
  unfold item_ok. intros H.
  repeat (apply andb_prop in H; destruct H as [H ?]). repeat split; assumption.
Qed.

Lemma trigger_ok_parts (rt : runtime) (d : pydict) :
  trigger_ok rt (VDict d) = true ->
  absent_or (fun v => is_ok (py_int rt v)) d "priority" = true /\
  absent_or (fun v => is_str v && renders rt v) d "description" = true /\
  absent_or py_hashable d "status" = true /\
  absent_or (list_of (tag_ok rt)) d "tags" = true /\
  absent_or (renders rt) d "expression" = true /\
  absent_or (fun v => if py_truthy v then renders rt v else true) d "comments" = true.
Proof.
  unfold trigger_ok. intros H.
  repeat (apply andb_prop in H; destruct H as [H ?]). repeat split; assumption.
Qed.

Lemma html_item_row_total (rt : runtime) (i : pyval) :
  item_ok rt i = true -> exists r, html_item_row i = Ok r.
Proof.
  destruct i; try discriminate. intros H.
  apply item_ok_parts in H. destruct H as (Hn & Hs & Ht & Hv & Hg & _).
  unfold html_item_row.
  destruct (html_status_total d) as [s ->]; [assumption|]. simpl.
  destruct (table_get_hashable ITEM_TYPES (dict_get d "type" (VStr "")) Desconhecido)
    as [t ->]; [now apply absent_or_get|]. simpl.
  destruct (table_get_hashable VALUE_TYPES (dict_get d "value_type" (VStr "")) Desconhecido)
    as [v ->]; [now apply absent_or_get|]. simpl.
  destruct (html_tags_total rt d) as [c ->]; [assumption|]. simpl. eauto.
Qed.

Lemma py_int_hashable (rt : runtime) (v : pyval) :
  is_ok (py_int rt v) = true -> py_hashable v = true.
Proof. destruct v; simpl; try discriminate; reflexivity. Qed.

(** Texts of at most 640 digits are under every digit limit. *)
Lemma exceeds_limit_small (rt : runtime) (n : nat) :
  (n <= 640)%nat -> exceeds_limit rt n = false.
Proof.
  intros H. unfold exceeds_limit.
  destruct (Nat.ltb_spec 640 n); [lia|].
  now rewrite andb_false_r.
Qed.

Lemma py_int_zero_text (rt : runtime) : py_int rt (VStr "0") = Ok 0%Z.
Proof.
  unfold py_int. cbn [list_ascii_of_string forallb is_ascii].
  change (forallb is_ascii ["0"%char]) with true. cbn match.
  rewrite exceeds_limit_small; [reflexivity|].
  apply Nat.leb_le. reflexivity.
Qed.

Lemma html_trigger_row_total (rt : runtime) (t : pyval) :
  trigger_ok rt t = true -> exists r, html_trigger_row t = Ok r.
Proof.
  destruct t; try discriminate. intros H.
  apply trigger_ok_parts in H. destruct H as (Hp & Hd & Hs & Hg & _).
  unfold html_trigger_row, priority_info.
  destruct (html_status_total d) as [s ->]; [assumption|]. simpl.
  destruct (table_get_hashable TRIGGER_PRIORITIES
              (dict_get d "priority" (VStr "0")) unknown_info) as [info ->].
  { apply (py_int_hashable rt).
    apply (absent_or_get (fun v => is_ok (py_int rt v))); [assumption|].
    now rewrite py_int_zero_text. }
  simpl.
  destruct (html_tags_total rt d) as [c ->]; [assumption|]. simpl. eauto.
Qed.

Lemma str_field (rt : runtime) (d : pydict) (k : string) :
  absent_or (fun v => is_str v && renders rt v) d k = true ->
  absent_or is_str d k = true.
Proof.
  unfold absent_or. destruct (lookup k d); [|reflexivity].
  intros H. now apply andb_prop in H.
Qed.

Lemma item_key_total (rt : runtime) (i : pyval) :
  item_ok rt i = true -> is_ok (item_key rt i) = true.
Proof.
  destruct i; try discriminate. intros H.
  apply item_ok_parts in H. destruct H as (Hn & _). apply str_field in Hn.
  unfold item_key. simpl.
  pose proof (absent_or_get is_str d "name" (VStr "") Hn eq_refl) as Hs.
  destruct (dict_get d "name" (VStr "")); try discriminate. reflexivity.
Qed.

Lemma trigger_key_total (rt : runtime) (t : pyval) :
  trigger_ok rt t = true -> is_ok (trigger_key rt t) = true.
Proof.
  destruct t; try discriminate. intros H.
  apply trigger_ok_parts in H. destruct H as (Hp & Hd & _). apply str_field in Hd.
  unfold trigger_key. cbn [py_get].
  assert (Hi : is_ok (py_int rt (dict_get d "priority" (VStr "0"))) = true).
  { apply (absent_or_get (fun v => is_ok (py_int rt v))); [assumption|].
    now rewrite py_int_zero_text. }
  cbn [bind]. destruct (py_int rt (dict_get d "priority" (VStr "0"))); [|discriminate].
  cbn [bind].
  pose proof (absent_or_get is_str d "description" (VStr "") Hd eq_refl) as Hs.
  destruct (dict_get d "description" (VStr "")); try discriminate. reflexivity.
Qed.

Lemma html_alertas_total (rt : runtime) (l : list pyval) :
  Forall (fun p => problem_ok rt p = true) l ->
  exists rows, html_alertas rt (VList l) = Ok rows.
Proof.
  intros H. unfold html_alertas. destruct l as [|p l']; [simpl; eauto|].
  cbn [py_truthy py_iter bind].
  destruct (mapM_total (html_problem_row rt) (enumerate 0 (p :: l'))) as [rows ->].
  - eapply Forall_impl; [|apply (enumerate_Forall _ _ 0 H)].
    intros [i q] Hq. now apply html_problem_row_total.
  - simpl. eauto.
Qed.

Lemma html_frequentes_total (l : list pyval) :
  Forall (fun e => event_ok e = true) l ->
  exists f, html_frequentes (VList l) = Ok f.
Proof.
  intros H. unfold html_frequentes. destruct l as [|e l']; [simpl; eauto|].
  cbn [py_truthy py_iter bind py_len].
  destruct (top_alerts_grouped _ H) as [_ ->]. cbn [bind].
  destruct (freq_rows (length (e :: l')) 1
              (most_common 20 (grouped py_key_eqb (map event_name (e :: l')))))
    as (rows & -> & _); [simpl; lia|].
  simpl. eauto.
Qed.

Lemma has_key_subscript (k : string) (v : pyval) :
  has_key k v = true -> exists x, py_subscript v k = Ok x.
Proof.
  destruct v; try discriminate. simpl.
  destruct (lookup k d); [eauto | discriminate].
Qed.

Lemma sorted_ok {A : Type} (p : A -> bool) (l l' : list A) :
  Permutation l l' -> Forall (fun x => p x = true) l -> Forall (fun x => p x = true) l'.
Proof. intros Hp H. eapply Permutation_Forall; eauto. Qed.

Lemma stats_ok_positive (rt : runtime) (st : stats) :
  stats_ok rt st = true ->
  Forall (fun e => (1 <= snd e)%nat) (por_tipo (st_itens st)) /\
  Forall (fun e => (1 <= snd e)%nat) (por_valor (st_itens st)).
Proof.
  unfold stats_ok. intros H. apply andb_prop in H. destruct H as [H1 H2].
  split; (eapply Forall_impl; [|apply forallb_Forall; eassumption]);
    intros e He; apply andb_prop in He; destruct He as [He _];
    now apply Nat.leb_le.
Qed.

Lemma stats_ok_labels (rt : runtime) (st : stats) :
  stats_ok rt st = true ->
  Forall (fun e => renders rt (VStr (fst e)) = true) (por_tipo (st_itens st)) /\
  Forall (fun e => renders rt (VStr (fst e)) = true) (por_valor (st_itens st)).
Proof.
  unfold stats_ok. intros H. apply andb_prop in H. destruct H as [H1 H2].
  split; (eapply Forall_impl; [|apply forallb_Forall; eassumption]);
    intros e He; apply andb_prop in He; destruct He as [_ He]; exact He.
Qed.

(** ** The values placed in the text of the document *)

Lemma renders_parts (rt : runtime) (l : list pyval) :
  forallb (renders rt) l = true ->
  forallb (printable rt) l = true /\ forallb (encodable rt) l = true.
Proof.
  induction l as [|v l IH]; simpl; [auto|]. intros H.
  apply andb_prop in H. destruct H as [Hv Hl].
  apply andb_prop in Hv. destruct Hv as [Hp He].
  destruct (IH Hl) as [IHp IHe]. now rewrite Hp, He, IHp, IHe.
Qed.

Lemma forallb_app_true {A : Type} (p : A -> bool) (l1 l2 : list A) :
  forallb p l1 = true -> forallb p l2 = true -> forallb p (l1 ++ l2) = true.
Proof. intros H1 H2. now rewrite forallb_app, H1, H2. Qed.

Lemma forallb_of_Forall {A : Type} (p : A -> bool) (l : list A) :
  Forall (fun x => p x = true) l -> forallb p l = true.
Proof. intros H. apply forallb_forall. now apply Forall_forall. Qed.

(** Rows computed from records that satisfy [P] hold values that satisfy
    [q]. *)
Lemma mapM_flat_forallb {A B C : Type} (f : A -> res B) (g : B -> list C)
    (q : C -> bool) (P : A -> Prop) (l : list A) (ys : list B) :
  (forall x y, P x -> f x = Ok y -> forallb q (g y) = true) ->
  Forall P l -> mapM f l = Ok ys -> forallb q (flat_map g ys) = true.
Proof.
  intros Hf HP H. apply mapM_Forall2 in H.
  induction H as [|x y l ys Hxy _ IH]; [reflexivity|].
  inversion HP; subst. simpl.
  apply forallb_app_true; [now apply (Hf x y) | now apply IH].
Qed.

Lemma html_tag_renders (rt : runtime) (t : pyval) (c : chip) :
  tag_ok rt t = true -> html_tag t = Ok c ->
  forallb (renders rt) (chip_values c) = true.
Proof.
  destruct t; try discriminate. unfold tag_ok, html_tag. cbn [py_get py_subscript bind].
  intros Hok H. apply andb_prop in Hok. destruct Hok as [Ht Hv].
  destruct (lookup "tag" d) as [x|] eqn:Ex; [|discriminate].
  destruct (py_truthy (dict_get d "value" VNone)) eqn:Etr.
  - destruct (lookup "value" d) as [w|] eqn:Ew; [|discriminate].
    cbn [bind] in H. injection H as <-.
    unfold dict_get in Hv. rewrite Ew in Hv.
    unfold chip_values. cbn [fst snd forallb]. now rewrite Ht, Hv.
  - cbn [bind] in H. injection H as <-.
    unfold chip_values. cbn [fst snd forallb app]. now rewrite Ht.
Qed.

Lemma html_tags_renders (rt : runtime) (d : pydict) (c : tags_cell) :
  absent_or (list_of (tag_ok rt)) d "tags" = true ->
  html_tags (VDict d) = Ok c ->
  forallb (renders rt) (tags_values c) = true.
Proof.
  intros Hok H. destruct (list_field _ _ _ Hok) as (l & Hl & Hall).
  unfold html_tags in H. cbn [py_get bind] in H. rewrite Hl in H.
  cbn [py_iter bind] in H. inv_bind H. injection H as <-.
  assert (Hc : forallb (renders rt) (flat_map chip_values x) = true).
  { apply (mapM_flat_forallb html_tag chip_values (renders rt)
             (fun t => tag_ok rt t = true) l x); [|assumption|assumption].
    intros t c. apply html_tag_renders. }
  destruct x; [reflexivity | exact Hc].
Qed.

Lemma renders_text_default (rt : runtime) (p : pyval -> bool) (d : pydict)
    (k s : string) :
  (forall v, p v = true -> renders rt v = true) ->
  renders rt (VStr s) = true ->
  absent_or p d k = true -> renders rt (dict_get d k (VStr s)) = true.
Proof.
  unfold absent_or, dict_get. intros Hp Hs H.
  destruct (lookup k d); [now apply Hp | exact Hs].
Qed.

Lemma html_item_row_renders (rt : runtime) (i : pyval) (r : item_row) :
  item_ok rt i = true -> html_item_row i = Ok r ->
  forallb (renders rt) (item_values r) = true.
Proof.
  destruct i; try discriminate. intros Hok H.
  apply item_ok_parts in Hok.
  destruct Hok as (Hn & _ & _ & _ & Hg & Hk & Hd & Hh).
  unfold html_item_row in H. inv_binds. injection H as <-.
  repeat match goal with
         | G : py_get (VDict d) _ _ = Ok _ |- _ =>
             cbn [py_get] in G; injection G as <-
         end.
  unfold item_values. cbn [ir_name ir_key ir_delay ir_history ir_tags].
  apply forallb_app_true.
  - cbn [forallb].
    rewrite (renders_text_default rt (fun v => is_str v && renders rt v) d "name" "")
      by (first [reflexivity | assumption
                | intros v Hv; apply andb_prop in Hv; tauto]).
    rewrite (renders_text_default rt (renders rt) d "key_" "")
      by (first [reflexivity | assumption | auto]).
    rewrite (renders_text_default rt (renders rt) d "delay" "-")
      by (first [reflexivity | assumption | auto]).
    rewrite (renders_text_default rt (renders rt) d "history" "-")
      by (first [reflexivity | assumption | auto]).
    reflexivity.
  - eapply html_tags_renders; eassumption.
Qed.

Lemma html_trigger_row_renders (rt : runtime) (t : pyval) (r : trigger_row) :
  trigger_ok rt t = true -> html_trigger_row t = Ok r ->
  forallb (renders rt) (trigger_values r) = true.
Proof.
  destruct t; try discriminate. intros Hok H.
  apply trigger_ok_parts in Hok.
  destruct Hok as (_ & Hd & _ & Hg & He & Hc).
  unfold html_trigger_row in H. inv_binds. injection H as <-.
  repeat match goal with
         | G : py_get (VDict d) _ _ = Ok _ |- _ =>
             cbn [py_get] in G; injection G as <-
         end.
  unfold trigger_values.
  cbn [tr_description tr_expression tr_comments tr_tags].
  apply forallb_app_true.
  - cbn [forallb].
    rewrite (renders_text_default rt (fun v => is_str v && renders rt v)
               d "description" "")
      by (first [reflexivity | assumption
                | intros v Hv; apply andb_prop in Hv; tauto]).
    rewrite (renders_text_default rt (renders rt) d "expression" "")
      by (first [reflexivity | assumption | auto]).
    assert (Hcm : renders rt (py_or (dict_get d "comments" (VStr "")) (VStr "-")) = true).
    { unfold py_or, absent_or, dict_get in *.
      destruct (lookup "comments" d) as [v|].
      - destruct (py_truthy v); [exact Hc | reflexivity].
      - reflexivity. }
    rewrite Hcm. reflexivity.
  - eapply html_tags_renders; eassumption.
Qed.

Lemma html_problem_row_renders (rt : runtime) (ip : nat * pyval) (r : problem_row) :
  problem_ok rt (snd ip) = true -> html_problem_row rt ip = Ok r ->
  renders rt (pr_name r) = true.
Proof.
  destruct ip as [i p]. cbn [snd]. destruct p; try discriminate. intros Hok H.
  unfold problem_ok in Hok. apply andb_prop in Hok. destruct Hok as [_ Hn].
  unfold html_problem_row in H. inv_binds. injection H as <-.
  match goal with
  | G : py_get (VDict d) "name" _ = Ok _ |- _ => cbn [py_get] in G; injection G as <-
  end.
  cbn [pr_name]. apply (renders_text_default rt (renders rt)); auto.
Qed.

Lemma html_alertas_renders (rt : runtime) (l : list pyval) (rows : list alert_row) :
  Forall (fun p => problem_ok rt p = true) l ->
  html_alertas rt (VList l) = Ok rows ->
  forallb (renders rt) (flat_map alert_values rows) = true.
Proof.
  intros Hok H. unfold html_alertas in H.
  destruct l as [|p l']; [cbn in H; injection H as <-; reflexivity|].
  cbn [py_truthy py_iter bind] in H. inv_bind H. injection H as <-.
  rewrite flat_map_concat_map, map_map, <- flat_map_concat_map.
  apply (mapM_flat_forallb (html_problem_row rt) (fun r => [pr_name r]) (renders rt)
           (fun ip => problem_ok rt (snd ip) = true) (enumerate 0 (p :: l')) x);
    [| apply (enumerate_Forall _ _ 0 Hok) | assumption].
  intros ip r Hp Hr. cbn [forallb].
  now rewrite (html_problem_row_renders rt ip r Hp Hr).
Qed.

Lemma firstn_member {A : Type} (n : nat) (l : list A) (x : A) :
  In x (firstn n l) -> In x l.
Proof.
  intros H. rewrite <- (firstn_skipn n l). apply in_or_app. now left.
Qed.

Lemma event_shown_parts (rt : runtime) (l : list pyval) :
  Forall (fun e => event_shown rt e = true) l ->
  Forall (fun e => event_ok e = true) l /\
  Forall (fun v => renders rt v = true) (map event_name l).
Proof.
  intros H. split.
  - eapply Forall_impl; [|exact H]. intros e He.
    unfold event_shown in He. now apply andb_prop in He.
  - apply Forall_map. eapply Forall_impl; [|exact H]. intros e He.
    unfold event_shown in He. now apply andb_prop in He.
Qed.

Lemma html_frequentes_renders (rt : runtime) (l : list pyval)
    (f : option (list freq_row)) :
  Forall (fun e => event_shown rt e = true) l ->
  html_frequentes (VList l) = Ok f ->
  forallb (renders rt) (match f with Some rows => map fr_name rows | None => [] end)
  = true.
Proof.
  intros Hs H. destruct (event_shown_parts rt l Hs) as [Hok Hnames].
  unfold html_frequentes in H.
  destruct l as [|e l']; [cbn in H; injection H as <-; reflexivity|].
  cbn [py_truthy py_iter bind py_len] in H.
  destruct (top_alerts_grouped _ Hok) as [_ Htop]. rewrite Htop in H. cbn [bind] in H.
  destruct (freq_rows (length (e :: l')) 1
              (most_common 20 (grouped py_key_eqb (map event_name (e :: l')))))
    as (rows & Hrows & Hmap & _); [simpl; lia|].
  rewrite Hrows in H. cbn [bind] in H. injection H as <-.
  apply forallb_of_Forall. apply Forall_forall. intros v Hv.
  apply in_map_iff in Hv. destruct Hv as (r & <- & Hr).
  assert (Hin : In (fr_name r, fr_count r)
                  (most_common 20 (grouped py_key_eqb (map event_name (e :: l'))))).
  { rewrite <- Hmap. apply in_map_iff. eauto. }
  unfold most_common in Hin. apply firstn_member in Hin.
  apply (Permutation_in _ (Permutation_sym (most_common_all_perm _))) in Hin.
  unfold grouped in Hin. apply in_map_iff in Hin.
  destruct Hin as (k & Ek & Hk). injection Ek as <- _.
  apply first_seen_incl in Hk.
  rewrite Forall_forall in Hnames. now apply Hnames.
Qed.

Lemma bars_render (rt : runtime) (n : nat) (c : list (string * nat)) (bars : list bar) :
  Forall (fun e => renders rt (VStr (fst e)) = true) c ->
  map (fun b => (bar_label b, bar_count b)) bars = firstn n (most_common_all c) ->
  forallb (renders rt) (map (fun b => VStr (bar_label b)) bars) = true.
Proof.
  intros Hc Hm. apply forallb_of_Forall. apply Forall_forall. intros v Hv.
  apply in_map_iff in Hv. destruct Hv as (b & <- & Hb).
  assert (Hin : In (bar_label b, bar_count b) (firstn n (most_common_all c))).
  { rewrite <- Hm. apply in_map_iff. eauto. }
  apply firstn_member in Hin.
  apply (Permutation_in _ (Permutation_sym (most_common_all_perm _))) in Hin.
  rewrite Forall_forall in Hc. exact (Hc _ Hin).
Qed.

Lemma shown_key_subscript (rt : runtime) (k : string) (v : pyval) :
  shown_key rt k v = true ->
  exists x, py_subscript v k = Ok x /\ renders rt x = true.
Proof.
  destruct v; try discriminate. simpl.
  destruct (lookup k d); [eauto | discriminate].
Qed.

(** On a well-formed record set the values of the document are computed and
    every one of them converts to text that the file accepts. *)
Lemma montar_html_total (rt : runtime) (data : pydict) (st : stats) :
  data_ok rt data = true -> stats_ok rt st = true ->
  exists doc, montar_html rt data st = Ok doc /\
              forallb (renders rt) (html_values doc) = true.
Proof.
  intros Hd Hs.
  unfold data_ok in Hd.
  repeat (apply andb_prop in Hd; destruct Hd as [Hd ?]).
  unfold header_ok in Hd.
  destruct (lookup "host" data) as [h|] eqn:Hh; [|discriminate].
  destruct (lookup "export_info" data) as [info|] eqn:Hi; [|discriminate].
  destruct info as [| | | | |inf]; try discriminate.
  destruct (lookup "data_exportacao" inf) as [dt|] eqn:Hdt;
    [|now rewrite !andb_false_r in Hd].
  repeat (apply andb_prop in Hd; destruct Hd as [Hd ?]).
  destruct (shown_key_subscript rt "name" h) as (name & Hname & Rname); [assumption|].
  destruct (shown_key_subscript rt "host" h) as (tech & Htech & Rtech); [assumption|].
  destruct (shown_key_subscript rt "hostid" h) as (hid & Hhid & Rhid); [assumption|].
  destruct (fromisoformat rt dt) as [date|] eqn:Hdate; [|discriminate].
  match goal with G : absent_or _ data "itens" = true |- _ =>
    destruct (list_field _ _ _ G) as (itens & Eit & Oit) end.
  match goal with G : absent_or _ data "triggers" = true |- _ =>
    destruct (list_field _ _ _ G) as (trigs & Etr & Otr) end.
  match goal with G : absent_or _ data "problems" = true |- _ =>
    destruct (list_field _ _ _ G) as (probs & Epr & Opr) end.
  match goal with G : absent_or _ data "events" = true |- _ =>
    destruct (list_field _ _ _ G) as (evs & Eev & Oev) end.
  destruct (py_sorted_total (item_key rt) String.leb itens) as [li Hli].
  { eapply Forall_impl; [|exact Oit]. intros x Hx.
    apply (item_key_total rt) in Hx. destruct (item_key rt x); [eauto | discriminate]. }
  destruct (py_sorted_total (trigger_key rt) trigger_key_leb trigs) as [lt Hlt].
  { eapply Forall_impl; [|exact Otr]. intros x Hx.
    apply (trigger_key_total rt) in Hx.
    destruct (trigger_key rt x); [eauto | discriminate]. }
  fold (sort_itens rt itens) in Hli. fold (sort_triggers rt trigs) in Hlt.
  destruct (stats_ok_positive rt st Hs) as [Pt Pv].
  destruct (stats_ok_labels rt st Hs) as [Lt Lv].
  destruct (html_charts st Pt Pv) as (bt & bv & Hbt & Hbv & Mt & Mv & _).
  assert (Oli : Forall (fun x => item_ok rt x = true) li).
  { apply (sorted_ok (item_ok rt) itens li);
      [apply (sort_itens_order rt), Hli | exact Oit]. }
  assert (Olt : Forall (fun x => trigger_ok rt x = true) lt).
  { apply (sorted_ok (trigger_ok rt) trigs lt);
      [apply (sort_triggers_order rt), Hlt | exact Otr]. }
  destruct (mapM_total html_item_row li) as [irows Hirows].
  { eapply Forall_impl; [|exact Oli]. intros x. apply html_item_row_total. }
  destruct (mapM_total html_trigger_row lt) as [trows Htrows].
  { eapply Forall_impl; [|exact Olt]. intros x. apply html_trigger_row_total. }
  destruct (html_alertas_total rt probs Opr) as [arows Harows].
  destruct (event_shown_parts rt evs Oev) as [Oev' _].
  destruct (html_frequentes_total evs Oev') as [freq Hfreq].
  eexists. split.
  - unfold montar_html. cbn [py_subscript]. rewrite Hh, Hi. cbn [bind].
    rewrite Eit, Etr, Epr, Eev. cbn [py_iter bind py_len].
    rewrite Hli. cbn [bind]. rewrite Hlt. cbn [bind].
    rewrite Hname, Htech, Hhid. cbn [bind py_subscript]. rewrite Hdt. cbn [bind].
    rewrite Hdate. cbn [bind]. rewrite Hbt, Hbv. cbn [bind].
    rewrite Hirows, Htrows. cbn [bind]. rewrite Harows, Hfreq. cbn [bind].
    reflexivity.
  - unfold html_values.
    cbn [h_host h_tipos h_valores h_itens h_triggers h_alertas h_frequentes fst snd].
    apply forallb_app_true; [cbn [forallb]; now rewrite Rname, Rtech, Rhid|].
    apply forallb_app_true.
    { rewrite map_app. apply forallb_app_true.
      - exact (bars_render rt 8 _ bt Lt Mt).
      - apply (bars_render rt (length (most_common_all (por_valor (st_itens st))))
                 _ bv Lv).
        now rewrite firstn_all. }
    apply forallb_app_true.
    { apply (mapM_flat_forallb html_item_row item_values (renders rt)
               (fun x => item_ok rt x = true) li irows); [|assumption|assumption].
      intros x y. apply html_item_row_renders. }
    apply forallb_app_true.
    { apply (mapM_flat_forallb html_trigger_row trigger_values (renders rt)
               (fun x => trigger_ok rt x = true) lt trows); [|assumption|assumption].
      intros x y. apply html_trigger_row_renders. }
    apply forallb_app_true.
    { now apply (html_alertas_renders rt probs). }
    now apply (html_frequentes_renders rt evs).
Qed.

Lemma gerar_html_total (rt : runtime) (data : pydict) (st : stats) :
  data_ok rt data = true -> stats_ok rt st = true ->
  exists doc, gerar_html rt data st = Ok doc.
Proof.
  intros Hd Hs. destruct (montar_html_total rt data st Hd Hs) as (doc & Hm & Hr).
  exists doc. unfold gerar_html. rewrite Hm. cbn [bind].
  destruct (renders_parts rt _ Hr) as [Hp He]. now rewrite Hp, He.
Qed.

(** Records without any field render with the defaults of every column. *)
Lemma empty_records_render (rt : runtime) (i : nat) :
  html_item_row (VDict []) =
    Ok {| ir_class := "status-disabled"; ir_status := "Ativo"; ir_name := VStr "";
          ir_key := VStr ""; ir_tipo := "Desconhecido";
          ir_valor_tipo := "Desconhecido"; ir_delay := VStr "-";
          ir_history := VStr "-"; ir_tags := Dash |} /\
  html_trigger_row (VDict []) =
    Ok {| tr_class := "status-disabled"; tr_status := "Ativo";
          tr_priority := ("Não classificada", "#97AAB3");
          tr_description := VStr ""; tr_expression := VStr "";
          tr_comments := VStr "-"; tr_tags := Dash |} /\
  html_problem_row rt (i, VDict []) =
    Ok {| pr_severity := ("Não classificada", "#97AAB3"); pr_name := VStr "";
          pr_inicio := "-"; pr_duracao := "-"; pr_ack := "Não" |}.
Proof. repeat split; reflexivity. Qed.


(** ** The concrete run *)



Lemma listing_sorted_witness :
  exists doc itens li triggers lt,
    gerar_html rt_exemplo dados_exemplo stats_exemplo = Ok doc /\
    records dados_exemplo "itens" = Ok itens /\ Permutation itens li /\
    StronglySorted (item_order rt_exemplo) li /\
    Forall2 (fun x r => html_item_row x = Ok r) li (h_itens doc) /\
    records dados_exemplo "triggers" = Ok triggers /\ Permutation triggers lt /\
    StronglySorted (trigger_order rt_exemplo) lt /\
    Forall2 (fun x r => html_trigger_row x = Ok r) lt (h_triggers doc).
Proof.
  assert (E : exists doc, gerar_html rt_exemplo dados_exemplo stats_exemplo = Ok doc)
    by (eexists; vm_compute; reflexivity).
  destruct E as [doc E].
  destruct (proj1 (listing_sorted rt_exemplo dados_exemplo stats_exemplo) doc E)
    as (itens & li & triggers & lt & H).
  exists doc, itens, li, triggers, lt. split; assumption.
Defined.

Lemma gerar_estatisticas_status_buckets_witness :
  Forall (fun i => item_countable i = true) itens_exemplo /\
  Forall (fun t => trigger_countable t = true) triggers_exemplo /\
  exists st,
    gerar_estatisticas itens_exemplo triggers_exemplo = Ok st /\
    total (st_itens st) = 3%nat /\
    (ativos (st_itens st) + desabilitados (st_itens st)
     + length (filter other_status itens_exemplo) = total (st_itens st))%nat.
Proof.
  assert (Hi : Forall (fun i => item_countable i = true) itens_exemplo)
    by (repeat constructor).
  assert (Ht : Forall (fun t => trigger_countable t = true) triggers_exemplo)
    by (repeat constructor).
  split; [exact Hi|]. split; [exact Ht|].
  destruct (gerar_estatisticas_status_buckets itens_exemplo triggers_exemplo Hi Ht)
    as (st & H1 & H2 & _ & _ & H5 & _).
  exists st. split; [exact H1|]. split; [exact H2 | exact H5].
Defined.


Lemma bar_denominators_witness :
  events_exemplo <> [] /\ Forall (fun e => event_ok e = true) events_exemplo /\
  exists st tipos valores rows doc,
    gerar_estatisticas itens_exemplo triggers_exemplo = Ok st /\
    html_tipos st = Ok tipos /\ html_valores st = Ok valores /\
    html_frequentes (VList events_exemplo) = Ok (Some rows) /\
    map (fun b => (bar_label b, bar_count b)) tipos
    = most_common 8 (por_tipo (st_itens st)) /\
    gerar_html rt_exemplo dados_exemplo st = Ok doc /\
    h_tipos doc = tipos /\ h_valores doc = valores /\ h_frequentes doc = Some rows.
Proof.
  assert (Hst : gerar_estatisticas itens_exemplo triggers_exemplo = Ok stats_exemplo)
    by (vm_compute; reflexivity).
  assert (Hne : events_exemplo <> []) by discriminate.
  assert (Hok : Forall (fun e => event_ok e = true) events_exemplo)
    by (repeat constructor).
  assert (Hdoc : exists doc, gerar_html rt_exemplo dados_exemplo stats_exemplo = Ok doc)
    by (eexists; vm_compute; reflexivity).
  destruct Hdoc as [doc Hdoc].
  split; [exact Hne|]. split; [exact Hok|].
  destruct (proj1 (bar_denominators rt_exemplo dados_exemplo itens_exemplo
                     triggers_exemplo events_exemplo stats_exemplo Hst Hne Hok))
    as (tipos & valores & rows & H1 & H2 & H3 & H4 & _ & _ & _ & _ & _ & H10).
  destruct (H10 doc Hdoc) as (D1 & D2 & D3).
  exists stats_exemplo, tipos, valores, rows, doc.
  repeat split; try assumption. apply D3. reflexivity.
Defined.

Lemma alert_table_rows_witness :
  problems_exemplo <> [] /\
  Forall (fun p => problem_ok rt_exemplo p = true) problems_exemplo /\
  Forall (fun p => name_cell_ok p = true) problems_exemplo /\
  (exists rows,
     html_alertas rt_exemplo (VList problems_exemplo) = Ok (map AlertRow rows) /\
     length rows = 2%nat) /\
  (exists xrows,
     xl_alertas rt_exemplo (VList problems_exemplo) = Ok (map XAlertRow xrows) /\
     length xrows = 2%nat).
Proof.
  assert (Hne : problems_exemplo <> []) by discriminate.
  assert (Hok : Forall (fun p => problem_ok rt_exemplo p = true) problems_exemplo)
    by (repeat constructor).
  assert (Hcell : Forall (fun p => name_cell_ok p = true) problems_exemplo)
    by (repeat constructor).
  split; [exact Hne|]. split; [exact Hok|]. split; [exact Hcell|].
  destruct (proj2 (proj2 (proj2 (proj2
              (alert_table_rows rt_exemplo dados_exemplo stats_exemplo
                 problems_exemplo)))) Hne)
    as (_ & _ & Hh & Hx).
  split.
  - destruct (Hh Hok) as (rows & H1 & H2 & _). exists rows. split; [exact H1 | exact H2].
  - destruct (Hx Hok Hcell) as (xrows & H1 & H2 & _).
    exists xrows. split; [exact H1 | exact H2].
Defined.


(** ** Round trip through the structured-data file *)

(** *** Numbers *)

Lemma digit_cases (d : Z) :
  (0 <= d < 10)%Z ->
  d = 0%Z \/ d = 1%Z \/ d = 2%Z \/ d = 3%Z \/ d = 4%Z \/ d = 5%Z \/ d = 6%Z
  \/ d = 7%Z \/ d = 8%Z \/ d = 9%Z.
Proof. lia. Qed.

Ltac each_digit d H :=
  destruct (digit_cases d H) as [?|[?|[?|[?|[?|[?|[?|[?|[?|?]]]]]]]]]; subst d.

Lemma digit_char_digit (d : Z) :
  (0 <= d < 10)%Z -> is_digit (digit_char d) = true /\ digit_val (digit_char d) = d.
Proof. intros H. each_digit d H; split; reflexivity. Qed.

Lemma take_digits_app (f : nat) :
  forall (n acc : Z) (rest : list ascii),
    (0 <= n)%Z -> (Z.log2 n <= Z.of_nat f)%Z ->
    take_digits acc (digits_of f n ++ rest)
    = take_digits (acc * 10 ^ Z.of_nat (length (digits_of f n)) + n)%Z rest.
Proof.
  induction f as [|f IH]; intros n acc rest Hn Hlog.
  - assert (Hlt : (n < 2 ^ 1)%Z).
    { destruct (Z.eq_dec n 0) as [->|Hz]; [reflexivity|].
      apply Z.log2_lt_pow2; [lia|]. change (Z.of_nat 0) with 0%Z in Hlog. lia. }
    change (2 ^ 1)%Z with 2%Z in Hlt.
    cbn [digits_of app length take_digits].
    destruct (digit_char_digit n) as [Hd Hv]; [lia|].
    rewrite Hd, Hv. f_equal. change (Z.of_nat 1) with 1%Z. lia.
  - cbn [digits_of]. destruct (Z.ltb_spec n 10) as [Hlt|Hge].
    + cbn [app length take_digits].
      destruct (digit_char_digit n) as [Hd Hv]; [lia|].
      rewrite Hd, Hv. f_equal. change (Z.of_nat 1) with 1%Z. lia.
    + rewrite <- app_assoc. cbn [app].
      assert (Hq : (0 <= n / 10)%Z) by (apply Z.div_pos; lia).
      assert (Hlq : (Z.log2 (n / 10) <= Z.of_nat f)%Z).
      { assert (Z.log2 (n / 10) <= Z.log2 (n / 2))%Z.
        { apply Z.log2_le_mono. Z.to_euclidean_division_equations. lia. }
        assert (Z.log2 (n / 2) = Z.log2 n - 1)%Z.
        { rewrite <- Z.div2_div, Z.div2_spec, Z.log2_shiftr by lia.
          assert (0 < Z.log2 n)%Z by (apply Z.log2_pos; lia). lia. }
        lia. }
      rewrite (IH (n / 10)%Z acc _ Hq Hlq). cbn [take_digits].
      destruct (digit_char_digit (n mod 10)) as [Hd Hv];
        [apply Z.mod_pos_bound; lia|].
      rewrite Hd, Hv. f_equal.
      rewrite length_app. cbn [length].
      rewrite Nat.add_1_r, Nat2Z.inj_succ, Z.pow_succ_r by lia.
      pose proof (Z.div_mod n 10). lia.
Qed.

Lemma digits_of_head (f : nat) :
  forall n : Z,
    (0 < n)%Z -> (Z.log2 n <= Z.of_nat f)%Z ->
    exists d tl, digits_of f n = digit_char d :: tl /\ (1 <= d < 10)%Z.
Proof.
  induction f as [|f IH]; intros n Hn Hlog.
  - assert (Hlt : (n < 2 ^ 1)%Z).
    { apply Z.log2_lt_pow2; [lia|]. change (Z.of_nat 0) with 0%Z in Hlog. lia. }
    change (2 ^ 1)%Z with 2%Z in Hlt.
    exists n, []. split; [reflexivity | lia].
  - cbn [digits_of]. destruct (Z.ltb_spec n 10) as [Hlt|Hge].
    + exists n, []. split; [reflexivity | lia].
    + destruct (IH (n / 10)%Z) as (d & tl & E & Hd).
      * Z.to_euclidean_division_equations. lia.
      * assert (Z.log2 (n / 10) <= Z.log2 (n / 2))%Z.
        { apply Z.log2_le_mono. Z.to_euclidean_division_equations. lia. }
        assert (Z.log2 (n / 2) = Z.log2 n - 1)%Z.
        { rewrite <- Z.div2_div, Z.div2_spec, Z.log2_shiftr by lia.
          assert (0 < Z.log2 n)%Z by (apply Z.log2_pos; lia). lia. }
        lia.
      * rewrite E. cbn [app]. eauto.
Qed.

Lemma ascii_of_code (c : ascii) (n : nat) :
  Nat.eqb (nat_of_ascii c) n = true -> c = ascii_of_nat n.
Proof.
  intros H. apply Nat.eqb_eq in H. rewrite <- H. symmetry. apply ascii_nat_embedding.
Qed.

Lemma delimited_cases (rest : list ascii) :
  delimited rest = true ->
  rest = [] \/ exists tl, rest = ","%char :: tl \/ rest = c_newline :: tl.
Proof.
  destruct rest as [|c tl]; [now left|]. simpl. intros H. right. exists tl.
  apply orb_true_iff in H. destruct H as [H|H]; apply ascii_of_code in H; subst; auto.
Qed.

Lemma take_digits_stop (n : Z) (rest : list ascii) :
  delimited rest = true -> take_digits n rest = (n, rest).
Proof.
  intros H. destruct (delimited_cases rest H) as [->|(tl & [-> | ->])]; reflexivity.
Qed.

Lemma float_tail_delimited (rest : list ascii) :
  delimited rest = true -> float_tail rest = false.
Proof.
  intros H. destruct (delimited_cases rest H) as [->|(tl & [-> | ->])];
    [reflexivity| |]; destruct tl; reflexivity.
Qed.

Lemma scan_natural_digits (n : Z) (rest : list ascii) :
  (0 <= n)%Z -> delimited rest = true ->
  scan_natural (digits n ++ rest) = Some (n, rest).
Proof.
  intros Hn Hd. destruct (Z.eq_dec n 0) as [->|Hz]; [reflexivity|].
  unfold digits.
  assert (Hlog : (Z.log2 n <= Z.of_nat (Z.to_nat (Z.log2 n)))%Z)
    by (pose proof (Z.log2_nonneg n); lia).
  destruct (digits_of_head _ n ltac:(lia) Hlog) as (d & tl & E & Hd09).
  pose proof (take_digits_app _ n 0 rest Hn Hlog) as Ht.
  rewrite E in *. cbn [app] in *.
  assert (Hs : scan_natural (digit_char d :: (tl ++ rest)%list)
               = Some (take_digits 0 (digit_char d :: (tl ++ rest)%list))).
  { assert (H09 : (0 <= d < 10)%Z) by lia. clear - H09 Hd09.
    each_digit d H09; try lia; reflexivity. }
  rewrite Hs, Ht. rewrite take_digits_stop by assumption.
  now rewrite Z.mul_0_l, Z.add_0_l.
Qed.

Lemma repr_int_head (z : Z) :
  exists c tl, repr_int z = c :: tl /\
               (is_digit c = true \/ Nat.eqb (nat_of_ascii c) 45 = true).
Proof.
  unfold repr_int. destruct (Z.ltb_spec z 0) as [Hneg|Hpos].
  - exists "-"%char, (digits (- z)). split; [reflexivity | now right].
  - destruct (Z.eq_dec z 0) as [->|Hz].
    + exists "0"%char, []. split; [reflexivity | now left].
    + unfold digits.
      assert (Hlog : (Z.log2 z <= Z.of_nat (Z.to_nat (Z.log2 z)))%Z)
        by (pose proof (Z.log2_nonneg z); lia).
      destruct (digits_of_head _ z ltac:(lia) Hlog) as (d & tl & E & Hd).
      exists (digit_char d), tl. split; [assumption|]. left.
      apply digit_char_digit. lia.
Qed.

Lemma scan_number_repr (z : Z) (rest : list ascii) :
  delimited rest = true -> scan_number (repr_int z ++ rest) = Some (VInt z, rest).
Proof.
  intros Hd. unfold repr_int. destruct (Z.ltb_spec z 0) as [Hneg|Hpos].
  - unfold scan_number. cbn [app]. change (Nat.eqb (nat_of_ascii "-") 45) with true.
    cbn iota. rewrite scan_natural_digits by (assumption || lia).
    cbn [option_map fst snd]. rewrite float_tail_delimited by assumption.
    f_equal. f_equal. f_equal. lia.
  - pose proof (scan_natural_digits z rest Hpos Hd) as Hs.
    destruct (repr_int_head z) as (c & tl & E & Hc).
    unfold repr_int in E. destruct (Z.ltb_spec z 0); [lia|].
    rewrite E in *. cbn [app] in *. unfold scan_number.
    assert (Hm : Nat.eqb (nat_of_ascii c) 45 = false).
    { destruct Hc as [Hc|Hc].
      - destruct (Nat.eqb (nat_of_ascii c) 45) eqn:E45; [|reflexivity].
        apply ascii_of_code in E45. subst c. discriminate.
      - unfold scan_natural in Hs. apply ascii_of_code in Hc. subst c.
        discriminate. }
    rewrite Hm, Hs. now rewrite float_tail_delimited.
Qed.

Lemma parse_value_number (f : nat) (c : ascii) (s : list ascii) :
  is_digit c = true \/ Nat.eqb (nat_of_ascii c) 45 = true ->
  parse_value (S f) (c :: s) = scan_number (c :: s).
Proof.
  intros [H|H].
  - destruct c as [[] [] [] [] [] [] [] []]; try discriminate H; reflexivity.
  - apply ascii_of_code in H. subst c. reflexivity.
Qed.

(** *** Strings *)

Lemma scan_escape (c : ascii) (tail : list ascii) :
  scan_string (escape_char c ++ tail) = prepend [c] (scan_string tail).
Proof.
  destruct c as [[] [] [] [] [] [] [] []]; reflexivity.
Qed.

Lemma scan_encoded (cs rest : list ascii) :
  scan_string (flat_map escape_char cs ++ c_quote :: rest) = Some (cs, rest).
Proof.
  induction cs as [|c cs IH]; [reflexivity|].
  cbn [flat_map]. rewrite <- app_assoc, scan_escape, IH. reflexivity.
Qed.

(** *** White space and the first character of a value *)

Lemma skip_ws_indent (level : nat) (s : list ascii) :
  skip_ws (newline_indent level ++ s) = skip_ws s.
Proof.
  unfold newline_indent. cbn [app skip_ws].
  change (is_ws c_newline) with true. cbn iota.
  induction (4 * level)%nat as [|n IH]; [reflexivity|].
  cbn [repeat app skip_ws]. change (is_ws " ") with true. exact IH.
Qed.

Lemma json_dump_head (level : nat) (v : pyval) :
  exists c tl, json_dump level v = c :: tl /\ opens c = true.
Proof.
  destruct v as [|b|z|s|l|d].
  - do 2 eexists. split; reflexivity.
  - destruct b; do 2 eexists; split; reflexivity.
  - destruct (repr_int_head z) as (c & tl & E & Hc).
    exists c, tl. split; [exact E|].
    destruct Hc as [Hc|Hc].
    + destruct c as [[] [] [] [] [] [] [] []]; try discriminate Hc; reflexivity.
    + apply ascii_of_code in Hc. subst c. reflexivity.
  - do 2 eexists. split; reflexivity.
  - destruct l; do 2 eexists; split; reflexivity.
  - destruct d as [|[k x] d]; do 2 eexists; split; reflexivity.
Qed.

Lemma skip_ws_opens (c : ascii) (s : list ascii) :
  opens c = true -> skip_ws (c :: s) = c :: s.
Proof.
  unfold opens. intros H. cbn [skip_ws].
  destruct (is_ws c); [discriminate | reflexivity].
Qed.

Lemma skip_ws_dump (level : nat) (v : pyval) (s : list ascii) :
  skip_ws (json_dump level v ++ s) = (json_dump level v ++ s)%list.
Proof.
  destruct (json_dump_head level v) as (c & tl & -> & Hc).
  now apply skip_ws_opens.
Qed.

(** *** Induction on nested values *)

Lemma pyval_induction (P : pyval -> Prop) :
  P VNone -> (forall b, P (VBool b)) -> (forall z, P (VInt z)) ->
  (forall s, P (VStr s)) ->
  (forall l, Forall P l -> P (VList l)) ->
  (forall d, Forall (fun kv => P (snd kv)) d -> P (VDict d)) ->
  forall v, P v.
Proof.
  intros HN HB HZ HS HL HD.
  refine (fix IH (v : pyval) : P v :=
            match v with
            | VNone => HN
            | VBool b => HB b
            | VInt z => HZ z
            | VStr s => HS s
            | VList l =>
                HL l ((fix go (l : list pyval) : Forall P l :=
                         match l with
                         | [] => Forall_nil P
                         | x :: xs => Forall_cons x (IH x) (go xs)
                         end) l)
            | VDict d =>
                HD d ((fix go (d : list (string * pyval))
                         : Forall (fun kv => P (snd kv)) d :=
                         match d with
                         | [] => Forall_nil _
                         | kv :: kvs => Forall_cons kv (IH (snd kv)) (go kvs)
                         end) d)
            end).
Qed.

(** *** Dictionaries with distinct keys *)

Lemma distinct_NoDup (l : list string) : distinct l = true -> NoDup l.
Proof.
  induction l as [|k l IH]; simpl; intros H; constructor.
  - apply andb_prop in H. destruct H as [H _]. apply negb_true_iff in H.
    intros Hin. assert (existsb (String.eqb k) l = true).
    { apply existsb_exists. exists k. split; [assumption | apply String.eqb_refl]. }
    congruence.
  - apply andb_prop in H. apply IH, H.
Qed.

Lemma dict_set_fresh (k : string) (v : pyval) (d : pydict) :
  ~ In k (map fst d) -> dict_set k v d = (d ++ [(k, v)])%list.
Proof.
  induction d as [|[k' v'] d IH]; simpl; intros H; [reflexivity|].
  destruct (String.eqb_spec k k') as [->|Hne]; [tauto|].
  rewrite IH by tauto. reflexivity.
Qed.

Lemma dict_of_pairs_fold (l acc : list (string * pyval)) :
  NoDup (map fst (acc ++ l)) ->
  fold_left (fun d kv => dict_set (fst kv) (snd kv) d) l acc = (acc ++ l)%list.
Proof.
  revert acc. induction l as [|[k v] l IH]; intros acc H; simpl.
  - now rewrite app_nil_r.
  - rewrite dict_set_fresh.
    + rewrite IH; rewrite <- app_assoc; [reflexivity | exact H].
    + rewrite map_app in H. simpl in H. apply NoDup_remove_2 in H.
      intros Hin. apply H. apply in_or_app. now left.
Qed.

Lemma dict_of_pairs_distinct (l : list (string * pyval)) :
  distinct (map fst l) = true -> dict_of_pairs l = l.
Proof.
  intros H. unfold dict_of_pairs. apply (dict_of_pairs_fold l []).
  now apply distinct_NoDup.
Qed.

(** *** The decoder on the text of a value *)

Lemma encode_string_app (k : string) (s : list ascii) :
  (encode_string k ++ s)%list
  = c_quote :: (flat_map escape_char (list_ascii_of_string k) ++ c_quote :: s)%list.
Proof.
  unfold encode_string. cbn [app]. now rewrite <- app_assoc.
Qed.

Lemma parse_value_string (f : nat) (k : string) (rest : list ascii) :
  parse_value (S f) (encode_string k ++ rest) = Some (VStr k, rest).
Proof.
  rewrite encode_string_app.
  change (parse_value (S f) (c_quote :: ?s))
    with (match scan_string s with
          | Some (str, r) => Some (VStr (string_of_list_ascii str), r)
          | None => None
          end).
  now rewrite scan_encoded, string_of_list_ascii_of_string.
Qed.

Lemma items_text_delimited (level : nat) (xs : list pyval) (close : ascii)
    (rest : list ascii) :
  delimited (items_text level xs ++ newline_indent level ++ close :: rest) = true.
Proof. destruct xs; reflexivity. Qed.

Lemma members_text_delimited (level : nat) (kvs : list (string * pyval))
    (close : ascii) (rest : list ascii) :
  delimited (members_text level kvs ++ newline_indent level ++ close :: rest) = true.
Proof. destruct kvs; reflexivity. Qed.

Lemma parse_elems_dump (level : nat) (xs : list pyval) :
  Forall roundtrips xs ->
  forall (x : pyval) (fuel : nat) (rest : list ascii),
    roundtrips x -> (size_sum (x :: xs) <= fuel)%nat ->
    forallb unique_keys (x :: xs) = true ->
    parse_elems fuel (json_dump (S level) x ++ items_text level xs
                      ++ newline_indent level ++ "]"%char :: rest)
    = Some (x :: xs, rest).
Proof.
  induction 1 as [|y ys Hy _ IH]; intros x fuel rest Hx Hfuel Hu;
    (destruct fuel as [|f]; [cbn [size_sum fold_right] in Hfuel; lia|]);
    cbn [forallb] in Hu; apply andb_prop in Hu; destruct Hu as [Hux Hu];
    cbn [size_sum fold_right] in Hfuel;
    change (parse_elems (S f) ?s)
      with (match parse_value f s with
            | Some (v, s1) =>
                match skip_ws s1 with
                | c :: s2 =>
                    if Nat.eqb (nat_of_ascii c) 44 then
                      match parse_elems f (skip_ws s2) with
                      | Some (vs, r) => Some (v :: vs, r)
                      | None => None
                      end
                    else if Nat.eqb (nat_of_ascii c) 93 then Some ([v], s2)
                    else None
                | [] => None
                end
            | None => None
            end);
    rewrite (Hx f (S level) _ ltac:(lia) (items_text_delimited _ _ _ _) Hux).
  - cbn [items_text flat_map app]. rewrite skip_ws_indent. reflexivity.
  - cbn [items_text flat_map]. rewrite <- !app_assoc. cbn [app skip_ws].
    change (is_ws ",") with false. cbn iota.
    change (Nat.eqb (nat_of_ascii ",") 44) with true. cbn iota.
    rewrite <- !app_assoc, skip_ws_indent, skip_ws_dump.
    fold (items_text level ys).
    rewrite (IH y f rest Hy); [reflexivity | | exact Hu].
    fold (size_sum ys) in Hfuel. cbn [size_sum fold_right]. fold (size_sum ys). lia.
Qed.

Lemma parse_members_dump (level : nat) (kvs : list (string * pyval)) :
  Forall (fun kv => roundtrips (snd kv)) kvs ->
  forall (k : string) (x : pyval) (fuel : nat) (rest : list ascii),
    roundtrips x -> (size_members ((k, x) :: kvs) <= fuel)%nat ->
    forallb (fun kv => unique_keys (snd kv)) ((k, x) :: kvs) = true ->
    parse_members fuel (encode_string k ++ list_ascii_of_string ": "
                        ++ json_dump (S level) x ++ members_text level kvs
                        ++ newline_indent level ++ "}"%char :: rest)
    = Some ((k, x) :: kvs, rest).
Proof.
  induction 1 as [|[k2 y] ys Hy _ IH]; intros k x fuel rest Hx Hfuel Hu;
    (destruct fuel as [|f]; [cbn [size_members fold_right] in Hfuel; lia|]);
    cbn [forallb snd] in Hu; apply andb_prop in Hu; destruct Hu as [Hux Hu];
    cbn [size_members fold_right snd] in Hfuel;
    rewrite encode_string_app;
    change (parse_members (S f) (c_quote :: ?s))
      with (match scan_string s with
            | Some (kk, s2) =>
                match skip_ws s2 with
                | c :: s3 =>
                    if Nat.eqb (nat_of_ascii c) 58 then
                      match parse_value f (skip_ws s3) with
                      | Some (v, s4) =>
                          match skip_ws s4 with
                          | c2 :: s5 =>
                              if Nat.eqb (nat_of_ascii c2) 44 then
                                match parse_members f (skip_ws s5) with
                                | Some (l, r) =>
                                    Some ((string_of_list_ascii kk, v) :: l, r)
                                | None => None
                                end
                              else if Nat.eqb (nat_of_ascii c2) 125 then
                                Some ([(string_of_list_ascii kk, v)], s5)
                              else None
                          | [] => None
                          end
                      | None => None
                      end
                    else None
                | [] => None
                end
            | None => None
            end);
    rewrite scan_encoded, string_of_list_ascii_of_string;
    cbn [list_ascii_of_string app skip_ws];
    change (is_ws ":") with false; cbn iota;
    change (Nat.eqb (nat_of_ascii ":") 58) with true; cbn iota;
    cbn [skip_ws]; change (is_ws " ") with true; cbn iota;
    rewrite skip_ws_dump;
    rewrite (Hx f (S level) _ ltac:(lia) (members_text_delimited _ _ _ _) Hux).
  - cbn [members_text flat_map app]. rewrite skip_ws_indent. reflexivity.
  - cbn [members_text flat_map fst snd]. rewrite <- !app_assoc. cbn [app skip_ws].
    change (is_ws ",") with false. cbn iota.
    change (Nat.eqb (nat_of_ascii ",") 44) with true. cbn iota.
    rewrite <- !app_assoc, skip_ws_indent.
    rewrite encode_string_app at 1.
    rewrite (skip_ws_opens c_quote) by reflexivity.
    rewrite <- encode_string_app.
    fold (members_text level ys).
    rewrite (IH k2 y f rest Hy); [reflexivity | | exact Hu].
    fold (size_members ys) in Hfuel. cbn [size_members fold_right snd].
    fold (size_members ys). lia.
Qed.

Lemma parse_value_array (f : nat) (s1 : list ascii) (c : ascii) (tl : list ascii) :
  skip_ws s1 = c :: tl -> opens c = true ->
  parse_value (S f) ("["%char :: s1)
  = match parse_elems f (c :: tl) with
    | Some (vs, rest) => Some (VList vs, rest)
    | None => None
    end.
Proof.
  intros Hs Hc.
  change (parse_value (S f) ("["%char :: s1))
    with (match skip_ws s1 with
          | c2 :: s2 =>
              if Nat.eqb (nat_of_ascii c2) 93 then Some (VList [], s2)
              else match parse_elems f (c2 :: s2) with
                   | Some (vs, rest) => Some (VList vs, rest)
                   | None => None
                   end
          | [] => None
          end).
  rewrite Hs. unfold opens in Hc.
  destruct (Nat.eqb (nat_of_ascii c) 93); [|reflexivity].
  now rewrite andb_false_r in Hc.
Qed.

Lemma parse_value_object (f : nat) (s1 : list ascii) (c : ascii) (tl : list ascii) :
  skip_ws s1 = c :: tl -> opens c = true ->
  parse_value (S f) ("{"%char :: s1)
  = match parse_members f (c :: tl) with
    | Some (kvs, rest) => Some (VDict (dict_of_pairs kvs), rest)
    | None => None
    end.
Proof.
  intros Hs Hc.
  change (parse_value (S f) ("{"%char :: s1))
    with (match skip_ws s1 with
          | c2 :: s2 =>
              if Nat.eqb (nat_of_ascii c2) 125 then Some (VDict [], s2)
              else match parse_members f (c2 :: s2) with
                   | Some (kvs, rest) => Some (VDict (dict_of_pairs kvs), rest)
                   | None => None
                   end
          | [] => None
          end).
  rewrite Hs. unfold opens in Hc.
  destruct (Nat.eqb (nat_of_ascii c) 125); [|reflexivity].
  now rewrite andb_false_r in Hc.
Qed.

Lemma json_dump_roundtrips (v : pyval) : roundtrips v.
Proof.
  induction v as [|b|z|s|l IH|d IH] using pyval_induction;
    intros fuel level rest Hfuel Hrest Hu;
    (destruct fuel as [|f]; [destruct l || destruct d || idtac; simpl in Hfuel; lia|]).
  - reflexivity.
  - destruct b; reflexivity.
  - cbn [json_dump]. destruct (repr_int_head z) as (c & tl & E & Hc).
    pose proof (scan_number_repr z rest Hrest) as Hs.
    rewrite E in *. cbn [app] in *. now rewrite parse_value_number.
  - cbn [json_dump]. apply parse_value_string.
  - destruct l as [|x xs]; [reflexivity|].
    inversion IH as [|? ? Hx Hxs]; subst.
    change (json_dump level (VList (x :: xs)))
      with ("["%char :: newline_indent (S level) ++ json_dump (S level) x
            ++ items_text level xs ++ newline_indent level ++ ["]"%char])%list.
    cbn [app]. rewrite <- !app_assoc. cbn [app].
    destruct (json_dump_head (S level) x) as (c & tl & E & Hc).
    rewrite (parse_value_array f _ c
               (tl ++ items_text level xs ++ newline_indent level ++ "]"%char :: rest)).
    + change (c :: (tl ++ ?s)%list) with ((c :: tl) ++ s)%list. rewrite <- E.
      rewrite (parse_elems_dump level xs Hxs x f rest Hx); [reflexivity | | exact Hu].
      cbn [json_size] in Hfuel. fold (size_sum (x :: xs)) in Hfuel. lia.
    + rewrite skip_ws_indent, skip_ws_dump, E. reflexivity.
    + exact Hc.
  - destruct d as [|[k x] kvs]; [reflexivity|].
    inversion IH as [|? ? Hx Hxs]; subst. cbn [snd] in Hx.
    cbn [unique_keys] in Hu. apply andb_prop in Hu. destruct Hu as [Hkeys Hu].
    change (json_dump level (VDict ((k, x) :: kvs)))
      with ("{"%char :: newline_indent (S level) ++ encode_string k
            ++ list_ascii_of_string ": " ++ json_dump (S level) x
            ++ members_text level kvs ++ newline_indent level ++ ["}"%char])%list.
    cbn [app]. rewrite <- !app_assoc.
    change (["}"%char] ++ rest)%list with ("}"%char :: rest).
    rewrite (parse_value_object f _ c_quote
               (flat_map escape_char (list_ascii_of_string k) ++ c_quote
                :: list_ascii_of_string ": " ++ json_dump (S level) x
                   ++ members_text level kvs ++ newline_indent level
                   ++ "}"%char :: rest)).
    + rewrite <- encode_string_app.
      rewrite (parse_members_dump level kvs Hxs k x f rest Hx);
        [now rewrite dict_of_pairs_distinct | | exact Hu].
      cbn [json_size] in Hfuel. fold (size_members ((k, x) :: kvs)) in Hfuel. lia.
    + rewrite skip_ws_indent, encode_string_app. reflexivity.
    + reflexivity.
Qed.

Lemma size_sum_length (level : nat) (xs : list pyval) :
  Forall (fun x => forall lv, (json_size x <= length (json_dump lv x))%nat) xs ->
  (size_sum xs <= length (items_text level xs))%nat.
Proof.
  induction 1 as [|x xs Hx _ IH]; [apply Nat.le_refl|].
  cbn [size_sum items_text flat_map fold_right].
  fold (size_sum xs) (items_text level xs).
  rewrite length_app. cbn [length]. rewrite length_app.
  specialize (Hx (S level)). lia.
Qed.

Lemma size_members_length (level : nat) (kvs : list (string * pyval)) :
  Forall (fun kv => forall lv, (json_size (snd kv) <= length (json_dump lv (snd kv)))%nat)
    kvs ->
  (size_members kvs <= length (members_text level kvs))%nat.
Proof.
  induction 1 as [|x xs Hx _ IH]; [apply Nat.le_refl|].
  cbn [size_members members_text flat_map fold_right].
  fold (size_members xs) (members_text level xs).
  rewrite length_app. cbn [length]. rewrite !length_app.
  specialize (Hx (S level)). lia.
Qed.

Lemma json_size_length (v : pyval) :
  forall level, (json_size v <= length (json_dump level v))%nat.
Proof.
  induction v as [|b|z|s|l IH|d IH] using pyval_induction; intros level.
  - simpl. lia.
  - destruct b; simpl; lia.
  - destruct (repr_int_head z) as (c & tl & E & _). cbn [json_dump json_size].
    rewrite E. simpl. lia.
  - cbn [json_dump json_size]. unfold encode_string. simpl. lia.
  - destruct l as [|x xs]; [simpl; lia|].
    inversion IH as [|? ? Hx Hxs]; subst.
    change (json_dump level (VList (x :: xs)))
      with ("["%char :: newline_indent (S level) ++ json_dump (S level) x
            ++ items_text level xs ++ newline_indent level ++ ["]"%char])%list.
    cbn [json_size fold_right]. fold (size_sum xs).
    pose proof (size_sum_length level xs Hxs). specialize (Hx (S level)).
    cbn [length]. rewrite !length_app. unfold newline_indent at 1. cbn [length]. lia.
  - destruct d as [|[k x] kvs]; [simpl; lia|].
    inversion IH as [|? ? Hx Hxs]; subst. cbn [snd] in Hx.
    change (json_dump level (VDict ((k, x) :: kvs)))
      with ("{"%char :: newline_indent (S level) ++ encode_string k
            ++ list_ascii_of_string ": " ++ json_dump (S level) x
            ++ members_text level kvs ++ newline_indent level ++ ["}"%char])%list.
    cbn [json_size fold_right snd]. fold (size_members kvs).
    pose proof (size_members_length level kvs Hxs). specialize (Hx (S level)).
    cbn [length]. rewrite !length_app. unfold newline_indent at 1. cbn [length]. lia.
Qed.

Lemma json_loads_dump (level : nat) (v : pyval) :
  unique_keys v = true -> json_loads (json_dump level v) = Ok v.
Proof.
  intros Hu. unfold json_loads.
  pose proof (skip_ws_dump level v []) as Hs.
  rewrite app_nil_r in Hs. rewrite Hs.
  pose proof (json_dump_roundtrips v (length (json_dump level v))
                level [] (json_size_length _ _) eq_refl Hu) as Hp.
  rewrite app_nil_r in Hp. rewrite Hp. reflexivity.
Qed.

(** The writer fails exactly on the values [json_ok] excludes. *)
Lemma json_falha_ok (rt : runtime) (v : pyval) :
  json_falha rt v = None <-> json_ok rt v = true.
Proof.
  induction v as [|b|z|s|l IH|d IH] using pyval_induction.
  - split; reflexivity.
  - split; reflexivity.
  - cbn [json_falha json_ok]. destruct (int_text_ok rt z); split; congruence.
  - cbn [json_falha json_ok].
    destruct (has_surrogate (list_ascii_of_string s)); split; cbn; congruence.
  - induction IH as [|x l Hx _ IHl]; [split; reflexivity|].
    cbn [json_falha json_ok forallb] in *.
    destruct (json_falha rt x) as [e|].
    + split; [discriminate|]. intros H. apply andb_prop in H.
      destruct H as [H _]. apply Hx in H. discriminate.
    + rewrite (proj1 Hx eq_refl). cbn [andb]. exact IHl.
  - induction IH as [|[k x] d Hx _ IHd]; [split; reflexivity|].
    cbn [json_falha json_ok forallb fst snd] in *.
    destruct (has_surrogate (list_ascii_of_string k)); [split; discriminate|].
    cbn [negb andb].
    destruct (json_falha rt x) as [e|].
    + split; [discriminate|]. intros H. apply andb_prop in H.
      destruct H as [H _]. apply Hx in H. discriminate.
    + rewrite (proj1 Hx eq_refl). cbn [andb]. exact IHd.
Qed.




(** * Further properties *)

(** ** When the aggregator returns *)

Lemma countM_Raise {A : Type} (p : A -> res bool) (e : pyexc) (l : list A) :
  Forall (fun x => (exists b, p x = Ok b) \/ p x = Raise e) l ->
  Exists (fun x => p x = Raise e) l ->
  countM p l = Raise e.
Proof.
  induction 1 as [|x l Hx _ IH]; intros Hex; [inversion Hex|].
  simpl. destruct Hx as [[b Hb]|Hr].
  - rewrite Hb. simpl. rewrite IH; [reflexivity|].
    inversion Hex as [? ? H|]; subst; [congruence | assumption].
  - now rewrite Hr.
Qed.

Lemma mapM_Raise {A B : Type} (f : A -> res B) (e : pyexc) (l : list A) :
  Forall (fun x => (exists b, f x = Ok b) \/ f x = Raise e) l ->
  Exists (fun x => f x = Raise e) l ->
  mapM f l = Raise e.
Proof.
  induction 1 as [|x l Hx _ IH]; intros Hex; [inversion Hex|].
  simpl. destruct Hx as [[b Hb]|Hr].
  - rewrite Hb. simpl. rewrite IH; [reflexivity|].
    inversion Hex as [? ? H|]; subst; [congruence | assumption].
  - now rewrite Hr.
Qed.

Lemma countM_Ok_each {A : Type} (p : A -> res bool) (l : list A) (n : nat) :
  countM p l = Ok n -> Forall (fun x => exists b, p x = Ok b) l /\ (n <= length l)%nat.
Proof.
  revert n. induction l as [|x l IH]; simpl; intros n H.
  - injection H as <-. split; [constructor | lia].
  - inv_binds. injection H as <-. destruct (IH _ Hx0) as [Hall Hle].
    split; [constructor; eauto|]. destruct x0; lia.
Qed.

Lemma table_get_Ok_hashable {V : Type} (t : list (string * V)) (v : pyval)
    (dflt x : V) :
  table_get t v dflt = Ok x -> py_hashable v = true.
Proof. destruct v; simpl; intros H; try discriminate; reflexivity. Qed.

Lemma table_get_unhashable {V : Type} (t : list (string * V)) (v : pyval) (dflt : V) :
  py_hashable v = false -> table_get t v dflt = Raise TypeError.
Proof. destruct v; simpl; intros H; try discriminate; reflexivity. Qed.

Lemma gerar_estatisticas_total (itens triggers : list pyval) :
  Forall (fun i => item_countable i = true) itens ->
  Forall (fun t => trigger_countable t = true) triggers ->
  exists st, gerar_estatisticas itens triggers = Ok st.
Proof.
  intros Hi Ht.
  destruct (item_countable_dict _ Hi) as (Hd & Htp & Hvt).
  pose proof (trigger_countable_dict _ Ht) as Hdt.
  unfold gerar_estatisticas.
  rewrite !(count_eq_dicts "status" _ itens Hd).
  rewrite !(count_eq_dicts "status" _ triggers Hdt).
  destruct (count_labels_total ITEM_TYPES "type" itens Htp) as [c1 ->].
  destruct (count_labels_total VALUE_TYPES "value_type" itens Hvt) as [c2 ->].
  destruct (count_truthy_dicts "preprocessing" itens Hd) as [n1 ->].
  destruct (count_truthy_dicts "tags" itens Hd) as [n2 ->].
  destruct (count_priorities_total triggers Ht) as [c3 ->].
  destruct (count_truthy_dicts "dependencies" triggers Hdt) as [n3 ->].
  destruct (count_truthy_dicts "tags" triggers Hdt) as [n4 ->].
  simpl. eauto.
Qed.

Lemma count_labels_Ok_countable (t : list (string * string)) (k : string)
    (l : list pyval) (c : list (string * nat)) :
  count_labels t k l = Ok c ->
  Forall (fun i => exists d, i = VDict d /\ field_hashable d k = true) l.
Proof.
  unfold count_labels. intros H. inv_binds. apply mapM_Forall2 in Hx.
  clear H. induction Hx as [|i y l ys Hi _ IH]; constructor; [|assumption].
  destruct i; try discriminate. simpl in Hi.
  apply table_get_Ok_hashable in Hi. eauto.
Qed.

Lemma count_priorities_Ok_countable (l : list pyval) (c : list (pyval * nat)) :
  count_priorities l = Ok c -> Forall (fun t => trigger_countable t = true) l.
Proof.
  unfold count_priorities. intros H. inv_binds. apply mapM_Forall2 in Hx.
  clear H. induction Hx as [|i y l ys Hi _ IH]; constructor; [|assumption].
  destruct i; try discriminate. simpl in Hi. simpl.
  unfold field_hashable, dict_get in *.
  destruct (lookup "priority" d) as [v|]; [|reflexivity].
  destruct (py_hashable v); [reflexivity | discriminate].
Qed.

Lemma count_eq_non_dict (k s : string) (l : list pyval) :
  Exists (fun i => is_dict i = false) l -> count_eq k s l = Raise AttributeError.
Proof.
  intros H. apply countM_Raise.
  - apply Forall_forall. intros i _. destruct i; simpl; eauto.
  - eapply Exists_impl; [|exact H]. intros i Hi. destruct i; try reflexivity.
    discriminate.
Qed.

(** X1. The aggregator returns exactly on lists of records that are
    dictionaries whose grouping fields (type and value type of an item,
    priority of a trigger) are hashable.  An item that is not a dictionary
    makes it raise AttributeError, whatever the other records are; when all
    items are dictionaries, an item with an unhashable type makes it raise
    TypeError. *)
Theorem gerar_estatisticas_returns_iff (itens triggers : list pyval) :
  ((exists st, gerar_estatisticas itens triggers = Ok st) <->
   (Forall (fun i => item_countable i = true) itens /\
    Forall (fun t => trigger_countable t = true) triggers)) /\
  (Exists (fun i => is_dict i = false) itens ->
   gerar_estatisticas itens triggers = Raise AttributeError) /\
  (Forall (fun i => is_dict i = true) itens ->
   Exists (fun i => match i with
                    | VDict d => field_hashable d "type" = false
                    | _ => False
                    end) itens ->
   gerar_estatisticas itens triggers = Raise TypeError).
Proof.
  split; [split|split].
  - intros [st H]. unfold gerar_estatisticas in H. inv_binds.
    apply count_labels_Ok_countable in Hx1, Hx2.
    apply count_priorities_Ok_countable in Hx7.
    split; [|assumption].
    rewrite Forall_forall in *. intros i Hi.
    destruct (Hx1 i Hi) as (d & E1 & H1). destruct (Hx2 i Hi) as (d' & E2 & H2).
    subst i. injection E2 as <-. simpl. now rewrite H1, H2.
  - intros [Hi Ht]. now apply gerar_estatisticas_total.
  - intros H. unfold gerar_estatisticas.
    now rewrite (count_eq_non_dict "status" "0" itens H).
  - intros Hd Hex. unfold gerar_estatisticas.
    assert (Hd' : Forall (fun i => exists d, i = VDict d) itens).
    { eapply Forall_impl; [|exact Hd]. intros i Hi. destruct i; try discriminate. eauto. }
    rewrite !(count_eq_dicts "status" _ itens Hd'). cbn [bind].
    unfold count_labels at 1.
    rewrite (mapM_Raise _ TypeError); [reflexivity| |].
    + eapply Forall_impl; [|exact Hd']. intros i [d ->]. simpl.
      destruct (py_hashable (dict_get d "type" VNone)) eqn:E.
      * left. now apply table_get_hashable.
      * right. now apply table_get_unhashable.
    + eapply Exists_impl; [|exact Hex]. intros i Hi. destruct i; try contradiction.
      simpl. now apply table_get_unhashable.
Qed.

Lemma gerar_estatisticas_returns_iff_witness :
  (exists st, gerar_estatisticas itens_exemplo triggers_exemplo = Ok st) /\
  gerar_estatisticas [VInt 1] [] = Raise AttributeError /\
  gerar_estatisticas [VDict [("type", VList [])]] [] = Raise TypeError.
Proof.
  split; [|split].
  - apply (proj1 (gerar_estatisticas_returns_iff itens_exemplo triggers_exemplo)).
    split; repeat constructor.
  - destruct (gerar_estatisticas_returns_iff [VInt 1] []) as (_ & H & _).
    apply H. constructor. reflexivity.
  - destruct (gerar_estatisticas_returns_iff [VDict [("type", VList [])]] [])
      as (_ & _ & H).
    apply H; repeat constructor.
Defined.

(** ** What the statistics count *)

Lemma count_truthy_exact (k : string) (l : list pyval) (n : nat) :
  count_truthy k l = Ok n -> n = length (filter (has_truthy k) l).
Proof.
  intros H. destruct (countM_Ok_each _ _ _ H) as [Hall _].
  assert (Hd : Forall (fun i => exists d, i = VDict d) l).
  { eapply Forall_impl; [|exact Hall]. intros i [b Hb].
    destruct i; try discriminate. eauto. }
  unfold count_truthy in H.
  rewrite (countM_pure _ (has_truthy k)) in H; [congruence|].
  eapply Forall_impl; [|exact Hd]. intros i [d ->]. reflexivity.
Qed.

Lemma count_eq_exact (k s : string) (l : list pyval) (n : nat) :
  count_eq k s l = Ok n ->
  n = length (filter (fun i => match i with
                               | VDict d => py_eq_str (dict_get d k VNone) s
                               | _ => false
                               end) l).
Proof.
  intros H. destruct (countM_Ok_each _ _ _ H) as [Hall _].
  assert (Hd : Forall (fun i => exists d, i = VDict d) l).
  { eapply Forall_impl; [|exact Hall]. intros i [b Hb].
    destruct i; try discriminate. eauto. }
  rewrite (count_eq_dicts k s l Hd) in H. congruence.
Qed.

Lemma count_priorities_grouped (l : list pyval) (c : list (pyval * nat)) :
  count_priorities l = Ok c ->
  Forall (fun v => py_hashable v = true) (map trigger_priority l) /\
  c = grouped py_key_eqb (map trigger_priority l).
Proof.
  unfold count_priorities. intros H. inv_binds. injection H as <-.
  apply mapM_Forall2 in Hx.
  assert (Hk : x = map trigger_priority l /\
               Forall (fun v => py_hashable v = true) x).
  { induction Hx as [|t v l vs Ht _ [IH1 IH2]]; [split; [reflexivity | constructor]|].
    destruct t; try discriminate. simpl in Ht.
    destruct (py_hashable (dict_get d "priority" (VStr "0"))) eqn:Eh; [|discriminate].
    injection Ht as <-. split; [simpl; now rewrite IH1 | now constructor]. }
  destruct Hk as [-> Hh]. split; [assumption|].
  apply (Counter_grouped py_key_eqb (fun v => py_hashable v = true)
           py_key_eqb_refl py_key_eqb_sym py_key_eqb_trans). assumption.
Qed.

Lemma string_eqb_trans (a b c : string) :
  String.eqb a b = true -> String.eqb b c = true -> String.eqb a c = true.
Proof. rewrite !String.eqb_eq. congruence. Qed.

(** X2. The three frequency tables account for every record: the counts of
    the type buckets and those of the value-type buckets each add up to the
    number of items, and the counts of the priority buckets add up to the
    number of triggers. *)
Theorem frequency_tables_add_up (itens triggers : list pyval) (st : stats) :
  gerar_estatisticas itens triggers = Ok st ->
  total (st_itens st) = length itens /\
  t_total (st_triggers st) = length triggers /\
  list_sum (map snd (por_tipo (st_itens st))) = length itens /\
  list_sum (map snd (por_valor (st_itens st))) = length itens /\
  list_sum (map snd (por_prioridade (st_triggers st))) = length triggers.
Proof.
  intros H.
  destruct (gerar_estatisticas_groups _ _ _ H) as (labels & values & L1 & L2 & E1 & E2).
  unfold gerar_estatisticas in H. inv_binds. injection H as <-. simpl in *.
  destruct (count_priorities_grouped _ _ Hx7) as [Hh ->].
  split; [reflexivity|]. split; [reflexivity|].
  rewrite E1, E2. unfold list_sum.
  rewrite !(grouped_total String.eqb (fun _ => True));
    try (intros; apply String.eqb_refl); try apply String.eqb_sym;
    try apply string_eqb_trans; try (now apply Forall_forall).
  rewrite (grouped_total py_key_eqb (fun v => py_hashable v = true)
             py_key_eqb_refl py_key_eqb_sym py_key_eqb_trans _ Hh).
  rewrite length_map. auto.
Qed.

Lemma frequency_tables_add_up_witness :
  gerar_estatisticas itens_exemplo triggers_exemplo = Ok stats_exemplo /\
  total (st_itens stats_exemplo) = length itens_exemplo /\
  t_total (st_triggers stats_exemplo) = length triggers_exemplo /\
  list_sum (map snd (por_tipo (st_itens stats_exemplo))) = length itens_exemplo /\
  list_sum (map snd (por_valor (st_itens stats_exemplo))) = length itens_exemplo /\
  list_sum (map snd (por_prioridade (st_triggers stats_exemplo)))
  = length triggers_exemplo.
Proof.
  split; [reflexivity|].
  apply (frequency_tables_add_up itens_exemplo triggers_exemplo stats_exemplo).
  reflexivity.
Defined.

(** X3. The trigger counts split like the item counts: active, disabled and
    the triggers with another or no status add up to the total.  The tag,
    preprocessing and dependency counts are the numbers of records whose
    field is present and non-empty, so none exceeds its total. *)
Theorem trigger_buckets_and_field_counts (itens triggers : list pyval) (st : stats) :
  gerar_estatisticas itens triggers = Ok st ->
  ativas (st_triggers st) = length (filter (has_status "0") triggers) /\
  desabilitadas (st_triggers st) = length (filter (has_status "1") triggers) /\
  (ativas (st_triggers st) + desabilitadas (st_triggers st)
   + length (filter other_status triggers) = t_total (st_triggers st))%nat /\
  com_preprocessing (st_itens st) = length (filter (has_truthy "preprocessing") itens) /\
  com_tags (st_itens st) = length (filter (has_truthy "tags") itens) /\
  com_dependencias (st_triggers st)
  = length (filter (has_truthy "dependencies") triggers) /\
  t_com_tags (st_triggers st) = length (filter (has_truthy "tags") triggers) /\
  (com_preprocessing (st_itens st) <= total (st_itens st))%nat /\
  (com_tags (st_itens st) <= total (st_itens st))%nat /\
  (com_dependencias (st_triggers st) <= t_total (st_triggers st))%nat /\
  (t_com_tags (st_triggers st) <= t_total (st_triggers st))%nat.
Proof.
  intros H. unfold gerar_estatisticas in H. inv_binds. injection H as <-. simpl.
  apply count_eq_exact in Hx5, Hx6.
  fold (has_status "0") in Hx5. fold (has_status "1") in Hx6.
  apply count_truthy_exact in Hx3, Hx4, Hx8, Hx9. subst.
  pose proof (filter_partition3 (has_status "0") (has_status "1") triggers
                has_status_exclusive) as Hsum.
  fold other_status in Hsum.
  repeat split; try assumption; apply filter_length_le.
Qed.

Lemma trigger_buckets_and_field_counts_witness :
  gerar_estatisticas itens_exemplo triggers_exemplo = Ok stats_exemplo /\
  ativas (st_triggers stats_exemplo) = 2%nat /\
  desabilitadas (st_triggers stats_exemplo) = 1%nat /\
  com_tags (st_itens stats_exemplo) = 1%nat.
Proof.
  split; [reflexivity|].
  destruct (trigger_buckets_and_field_counts itens_exemplo triggers_exemplo
              stats_exemplo eq_refl) as (H1 & H2 & _ & _ & H3 & _).
  rewrite H1, H2, H3. repeat split.
Defined.

(** ** Buckets of the frequency tables *)

Lemma assoc_In {V : Type} (k : string) (t : list (string * V)) (x : V) :
  assoc k t = Some x -> In x (map snd t).
Proof.
  induction t as [|[k' v] t IH]; simpl; [discriminate|].
  destruct (String.eqb k k'); [intros [= ->]; now left | auto].
Qed.

Lemma table_get_label (t : list (string * string)) (v : pyval) (x : string) :
  table_get t v Desconhecido = Ok x -> In x (Desconhecido :: map snd t).
Proof.
  destruct v; simpl; intros H; try discriminate; try (injection H as <-; now left).
  injection H as <-. destruct (assoc s t) eqn:E; [right; eapply assoc_In; eauto | now left].
Qed.

Lemma count_labels_buckets (t : list (string * string)) (k : string)
    (l : list pyval) (c : list (string * nat)) :
  count_labels t k l = Ok c ->
  NoDup (map fst c) /\ incl (map fst c) (Desconhecido :: map snd t).
Proof.
  unfold count_labels. intros H. inv_binds. injection H as <-.
  rewrite (Counter_grouped String.eqb (fun _ => True));
    try (intros; apply String.eqb_refl); try apply String.eqb_sym;
    try apply string_eqb_trans; try (now apply Forall_forall).
  split; [apply grouped_labels_NoDup|].
  unfold grouped. rewrite map_map. simpl. rewrite map_id.
  intros s Hs. apply first_seen_incl in Hs.
  apply mapM_Forall2 in Hx. clear - Hx Hs.
  induction Hx as [|i y l ys Hi _ IH]; [contradiction|].
  destruct Hs as [<-|Hs]; [|auto].
  inv_binds. eapply table_get_label; eauto.
Qed.

(** X4. A type bucket is labelled with a name of the item-type table or with
    "Desconhecido", a value-type bucket with a name of the value-type table
    or with "Desconhecido", and no label occurs twice: there are at most 19
    type buckets and at most 6 value-type buckets, so the chart of items by
    value type never has more than 6 bars. *)
Theorem frequency_buckets_bounded (itens triggers : list pyval) (st : stats) :
  gerar_estatisticas itens triggers = Ok st ->
  NoDup (map fst (por_tipo (st_itens st))) /\
  incl (map fst (por_tipo (st_itens st))) type_labels /\
  (length (por_tipo (st_itens st)) <= 19)%nat /\
  NoDup (map fst (por_valor (st_itens st))) /\
  incl (map fst (por_valor (st_itens st))) value_labels /\
  (length (por_valor (st_itens st)) <= 6)%nat /\
  (forall bars, html_valores st = Ok bars -> (length bars <= 6)%nat).
Proof.
  intros H. unfold gerar_estatisticas in H. inv_binds. injection H as <-. simpl.
  destruct (count_labels_buckets _ _ _ _ Hx1) as [N1 I1].
  destruct (count_labels_buckets _ _ _ _ Hx2) as [N2 I2].
  assert (L1 : (length x1 <= 19)%nat).
  { rewrite <- (length_map fst). apply (NoDup_incl_length N1) in I1. exact I1. }
  assert (L2 : (length x2 <= 6)%nat).
  { rewrite <- (length_map fst). apply (NoDup_incl_length N2) in I2. exact I2. }
  repeat split; try assumption.
  intros bars Hb. unfold html_valores in Hb. simpl in Hb.
  apply mapM_length in Hb. rewrite Hb. unfold most_common_all.
  now rewrite stable_sort_length.
Qed.

Lemma frequency_buckets_bounded_witness :
  gerar_estatisticas itens_exemplo triggers_exemplo = Ok stats_exemplo /\
  incl (map fst (por_tipo (st_itens stats_exemplo))) type_labels /\
  (length (por_tipo (st_itens stats_exemplo)) <= 19)%nat /\
  (length (por_valor (st_itens stats_exemplo)) <= 6)%nat.
Proof.
  split; [reflexivity|].
  destruct (frequency_buckets_bounded itens_exemplo triggers_exemplo
              stats_exemplo eq_refl) as (_ & H1 & H2 & _ & _ & H3 & _).
  auto.
Defined.

(** ** The severity card *)

Lemma counter_get_add {K : Type} (eqb : K -> K -> bool) (k x : K) (c : list (K * nat)) :
  (forall a b, eqb a b = eqb b a) ->
  (forall a b d, eqb a b = true -> eqb b d = true -> eqb a d = true) ->
  counter_get eqb k (counter_add eqb x c)
  = (counter_get eqb k c + if eqb k x then 1 else 0)%nat.
Proof.
  intros Hsym Htrans. induction c as [|[k' n] c IH]; simpl.
  - destruct (eqb k x); reflexivity.
  - destruct (eqb x k') eqn:Exk; simpl.
    + destruct (eqb k k') eqn:Ekk.
      * rewrite Hsym in Exk. rewrite (Htrans k k' x Ekk Exk). lia.
      * destruct (eqb k x) eqn:Ekx; [|lia].
        rewrite (Htrans k x k' Ekx Exk) in Ekk. discriminate.
    + destruct (eqb k k') eqn:Ekk; [|exact IH].
      destruct (eqb k x) eqn:Ekx; [|lia].
      rewrite Hsym in Ekx. rewrite (Htrans x k k' Ekx Ekk) in Exk. discriminate.
Qed.

Lemma counter_get_Counter {K : Type} (eqb : K -> K -> bool) (k : K) (l : list K) :
  (forall a b, eqb a b = eqb b a) ->
  (forall a b d, eqb a b = true -> eqb b d = true -> eqb a d = true) ->
  counter_get eqb k (Counter eqb l) = occurrences eqb k l.
Proof.
  intros Hsym Htrans. induction l as [|x l IH] using rev_ind; [reflexivity|].
  unfold Counter. rewrite fold_left_app. simpl. fold (Counter eqb l).
  rewrite counter_get_add, IH by assumption.
  unfold occurrences. rewrite filter_app, length_app. simpl.
  destruct (eqb k x); reflexivity.
Qed.

Lemma py_key_eqb_str (p : string) (v : pyval) :
  py_key_eqb (VStr p) v = py_eq_str v p.
Proof. destruct v; simpl; try reflexivity. apply String.eqb_sym. Qed.

Lemma priority_partition (l : list pyval) :
  (list_sum (map (fun p => length (filter (fun t => py_eq_str (trigger_priority t) p) l))
               priority_codes)
   + length (filter other_priority l) = length l)%nat.
Proof.
  induction l as [|t l IH]; [reflexivity|].
  unfold other_priority, priority_codes in *.
  cbn [map list_sum fold_right filter existsb length] in *.
  destruct (trigger_priority t) as [| | |s| |]; cbn [py_eq_str orb negb length];
    try lia.
  destruct (String.eqb_spec s "5") as [->|]; [simpl; lia|].
  destruct (String.eqb_spec s "4") as [->|]; [simpl; lia|].
  destruct (String.eqb_spec s "3") as [->|]; [simpl; lia|].
  destruct (String.eqb_spec s "2") as [->|]; [simpl; lia|].
  destruct (String.eqb_spec s "1") as [->|]; [simpl; lia|].
  destruct (String.eqb_spec s "0") as [->|]; simpl; lia.
Qed.



(** ** Sorting again and ties *)

Lemma stable_sort_sorted_id {A : Type} (leb : A -> A -> bool) (l : list A) :
  StronglySorted (fun a b => leb a b = true) l -> stable_sort leb l = l.
Proof.
  induction 1 as [|x l _ IH Hx]; [reflexivity|].
  simpl. rewrite IH. destruct l as [|y l']; [reflexivity|].
  simpl. inversion Hx as [|? ? Hxy _]; subst. now rewrite Hxy.
Qed.

Lemma py_sorted_keys {A K : Type} (key : A -> res K) (kf : A -> K)
    (leb : K -> K -> bool) (l : list A) :
  Forall (fun x => key x = Ok (kf x)) l ->
  py_sorted key leb l = Ok (stable_sort (fun a b => leb (kf a) (kf b)) l).
Proof.
  intros H. unfold py_sorted.
  rewrite (mapM_pure _ (fun x => (kf x, x))).
  - simpl. rewrite stable_sort_keyed, map_map. simpl. now rewrite map_id.
  - eapply Forall_impl; [|exact H]. intros x Hx. now rewrite Hx.
Qed.

Lemma py_sorted_idempotent {A K : Type} (key : A -> res K) (leb : K -> K -> bool)
    (dflt : K) (l l' : list A) :
  (forall a b, leb a b = true \/ leb b a = true) ->
  (forall a b c, leb a b = true -> leb b c = true -> leb a c = true) ->
  py_sorted key leb l = Ok l' -> py_sorted key leb l' = Ok l'.
Proof.
  intros Htot Htr H. apply (py_sorted_Ok _ _ dflt) in H. destruct H as [Hk ->].
  set (kf := key_or key dflt) in *.
  set (cmp := fun a b => leb (kf a) (kf b)).
  rewrite (py_sorted_keys key kf).
  - f_equal. apply stable_sort_sorted_id. apply (stable_sort_sorted cmp).
    + intros a b. apply Htot.
    + intros a b c. apply Htr.
  - eapply Permutation_Forall; [apply stable_sort_perm | exact Hk].
Qed.

(** X6. Sorting is idempotent: the list of items a renderer sorted sorts to
    itself, and so does the list of triggers. *)
Theorem sort_idempotent (rt : runtime) (l l' : list pyval) :
  (sort_itens rt l = Ok l' -> sort_itens rt l' = Ok l') /\
  (sort_triggers rt l = Ok l' -> sort_triggers rt l' = Ok l').
Proof.
  split; intros H.
  - apply (py_sorted_idempotent _ _ "" l); [apply String.leb_total | | exact H].
    intros a b c. apply string_leb_trans.
  - apply (py_sorted_idempotent _ _ (0%Z, "") l);
      [apply trigger_key_leb_total | apply trigger_key_leb_trans | exact H].
Qed.

Lemma sort_idempotent_witness :
  exists l',
    sort_itens rt_exemplo itens_exemplo = Ok l' /\ sort_itens rt_exemplo l' = Ok l'.
Proof.
  eexists. split; [vm_compute; reflexivity|].
  apply (proj1 (sort_idempotent rt_exemplo itens_exemplo _)).
  vm_compute. reflexivity.
Defined.

Lemma insert_filter_in {A : Type} (leb : A -> A -> bool) (p : A -> bool)
    (x : A) (l : list A) :
  (forall b, In b l -> p x = true -> p b = true -> leb x b = true) ->
  filter p (insert leb x l) = filter p (x :: l).
Proof.
  intros Hp. induction l as [|y l IH]; simpl; [reflexivity|].
  destruct (leb x y) eqn:Hxy; [reflexivity|].
  simpl in *. rewrite IH by (intros b Hb; apply Hp; now right).
  destruct (p x) eqn:Hx; [|reflexivity].
  destruct (p y) eqn:Hy; [|reflexivity].
  rewrite (Hp y (or_introl eq_refl) eq_refl Hy) in Hxy. discriminate.
Qed.

Lemma stable_sort_stable_in {A : Type} (leb : A -> A -> bool) (p : A -> bool)
    (l : list A) :
  (forall a b, In a l -> In b l -> p a = true -> p b = true -> leb a b = true) ->
  filter p (stable_sort leb l) = filter p l.
Proof.
  induction l as [|x l IH]; intros Hp; simpl; [reflexivity|].
  rewrite insert_filter_in.
  - simpl. rewrite IH; [reflexivity|].
    intros a b Ha Hb. apply Hp; now right.
  - intros b Hb. apply Hp; [now left|].
    right. eapply Permutation_in; [symmetry; apply stable_sort_perm | exact Hb].
Qed.

Lemma string_leb_refl (s : string) : String.leb s s = true.
Proof. unfold String.leb. now rewrite string_compare_refl. Qed.



(** ** The two renderers side by side *)

Ltac unify_oks :=
  repeat match goal with
         | H1 : ?e = Ok ?a, H2 : ?e = Ok ?b |- _ =>
             assert (b = a) by congruence; subst b; clear H2
         end.

Ltac inject_oks :=
  repeat match goal with
         | H : Ok _ = Ok _ |- _ => injection H as <-
         end.

Lemma Forall2_same_source {A B C : Type} (f : A -> res B) (g : A -> res C)
    (R : B -> C -> Prop) (l : list A) (bs : list B) (cs : list C) :
  (forall a b c, In a l -> f a = Ok b -> g a = Ok c -> R b c) ->
  Forall2 (fun a b => f a = Ok b) l bs ->
  Forall2 (fun a c => g a = Ok c) l cs ->
  Forall2 R bs cs.
Proof.
  intros HR Hb. revert cs. induction Hb as [|a b l bs Hab _ IH]; intros cs Hc.
  - inversion Hc. constructor.
  - inversion Hc as [|? c ? cs' Hac Hcs]; subst. constructor.
    + eapply HR; eauto. now left.
    + apply IH; [|assumption]. intros a' b' c' Ha'. apply HR. now right.
Qed.

Lemma item_rows_agree (i : pyval) (r : item_row) (x : xl_item_row) :
  html_item_row i = Ok r -> xl_item_row_of i = Ok x -> same_item r x.
Proof.
  unfold html_item_row, xl_item_row_of, same_item. intros H1 H2.
  inv_binds. injection H1 as <-. injection H2 as <-. simpl.
  repeat split; congruence.
Qed.

Lemma trigger_rows_agree (t : pyval) (r : trigger_row) (x : xl_trigger_row) :
  html_trigger_row t = Ok r -> xl_trigger_row_of t = Ok x -> same_trigger r x.
Proof.
  unfold html_trigger_row, xl_trigger_row_of, priority_info, same_trigger.
  intros H1 H2. inv_binds. injection H1 as <-. injection H2 as <-. simpl.
  repeat split; congruence.
Qed.

Lemma problem_rows_agree (rt : runtime) (ip : nat * pyval)
    (r : problem_row) (x : xl_problem_row) :
  html_problem_row rt ip = Ok r -> xl_problem_row_of rt ip = Ok x ->
  same_alert_cells (AlertRow r) (XAlertRow x) /\
  (now rt Document (fst ip) = now rt Workbook (fst ip) ->
   same_alert (AlertRow r) (XAlertRow x)).
Proof.
  destruct ip as [i p].
  unfold html_problem_row, xl_problem_row_of, priority_info, same_alert,
    same_alert_cells.
  intros H1 H2. inv_binds. injection H1 as <-. injection H2 as <-. simpl.
  repeat split; congruence.
Qed.

(** X8. The document and the workbook list the same records in the same
    order: row by row the items carry the same name, key, type label,
    value-type label, interval and history, and the triggers the same
    priority label, description, expression and comment.  (The status labels
    need not agree.) *)
Theorem renderers_list_same_rows (rt : runtime) (data : pydict) (st st' : stats)
    (doc : html_doc) (xdoc : xl_doc) :
  gerar_html rt data st = Ok doc -> gerar_excel rt data st' = Ok xdoc ->
  Forall2 same_item (h_itens doc) (x_itens xdoc) /\
  Forall2 same_trigger (h_triggers doc) (x_triggers xdoc).
Proof.
  intros Hh Hx.
  destruct (gerar_html_listing _ _ _ _ Hh)
    as (itens & li & trigs & lt & Ei & Si & Ri & Et & St & Rt).
  destruct (gerar_excel_listing _ _ _ _ Hx)
    as (itens' & li' & trigs' & lt' & Ei' & Si' & Ri' & Et' & St' & Rt').
  assert (itens' = itens) by congruence. subst itens'.
  assert (trigs' = trigs) by congruence. subst trigs'.
  assert (li' = li) by congruence. subst li'.
  assert (lt' = lt) by congruence. subst lt'.
  split.
  - eapply (Forall2_same_source html_item_row xl_item_row_of); eauto.
    intros a b c _. apply item_rows_agree.
  - eapply (Forall2_same_source html_trigger_row xl_trigger_row_of); eauto.
    intros a b c _. apply trigger_rows_agree.
Qed.

Lemma renderers_list_same_rows_witness :
  exists doc xdoc,
    gerar_html rt_exemplo dados_planilha stats_exemplo = Ok doc /\
    gerar_excel rt_exemplo dados_planilha stats_exemplo = Ok xdoc /\
    Forall2 same_item (h_itens doc) (x_itens xdoc) /\
    Forall2 same_trigger (h_triggers doc) (x_triggers xdoc).
Proof.
  eexists. eexists. split; [vm_compute; reflexivity|].
  split; [vm_compute; reflexivity|].
  apply (renderers_list_same_rows rt_exemplo dados_planilha stats_exemplo
           stats_exemplo); vm_compute; reflexivity.
Defined.

Lemma Forall2_map_both {A B C D : Type} (R : C -> D -> Prop) (f : A -> C) (g : B -> D)
    (l : list A) (l' : list B) :
  Forall2 (fun a b => R (f a) (g b)) l l' -> Forall2 R (map f l) (map g l').
Proof. induction 1; simpl; constructor; auto. Qed.

(** X9. The alert table of the document and the alert sheet of the workbook
    agree: both hold the single notice, or they hold one row per problem with
    the same severity label, name, start time and acknowledgement, in the
    same order.  Each renderer reads the clock for itself: the durations
    agree as well when the two readings are equal, and differ (0m against
    1m) when the minute turns between them. *)
Theorem renderers_same_alerts (rt : runtime) (data : pydict) (st st' : stats)
    (doc : html_doc) (xdoc : xl_doc) :
  gerar_html rt data st = Ok doc -> gerar_excel rt data st' = Ok xdoc ->
  Forall2 same_alert_cells (h_alertas doc) (x_alertas xdoc) /\
  ((forall i, now rt Document i = now rt Workbook i) ->
   Forall2 same_alert (h_alertas doc) (x_alertas xdoc)) /\
  (exists r x,
     html_problem_row rt_virada (0%nat, VDict [("clock", VStr "1700000000")]) = Ok r /\
     xl_problem_row_of rt_virada (0%nat, VDict [("clock", VStr "1700000000")]) = Ok x /\
     pr_duracao r = "0m" /\ xp_duracao x = "1m").
Proof.
  intros Hh Hx.
  apply gerar_html_sections in Hh. destruct Hh as (_ & _ & Hh & _).
  apply gerar_excel_sections in Hx. destruct Hx as (Hx & _).
  assert (Hrows :
    forall R : alert_row -> xl_alert_row -> Prop,
      R NoAlertsRow XNoAlerts ->
      (forall ip r x, html_problem_row rt ip = Ok r ->
                      xl_problem_row_of rt ip = Ok x -> R (AlertRow r) (XAlertRow x)) ->
      Forall2 R (h_alertas doc) (x_alertas xdoc)).
  { intros R Hnone Hrow. unfold html_alertas, xl_alertas in *.
    destruct (py_truthy (dict_get data "problems" (VList []))).
    - inv_binds. inject_oks. unify_oks.
      repeat match goal with
             | M : mapM _ _ = Ok _ |- _ => apply mapM_Forall2 in M
             end.
      match goal with
      | M : Forall2 (fun a b => xl_problem_line rt a = Ok b) _ _ |- _ =>
          apply (Forall2_weaken _ _ _ _ (xl_problem_line_row rt)) in M
      end.
      apply Forall2_map_both.
      eapply (Forall2_same_source (html_problem_row rt) (xl_problem_row_of rt)); eauto.
    - injection Hh as <-. injection Hx as <-. repeat constructor. exact Hnone. }
  split; [|split].
  - apply Hrows; [exact I|]. intros ip r x H1 H2.
    exact (proj1 (problem_rows_agree rt ip r x H1 H2)).
  - intros Hnow. apply Hrows; [exact I|]. intros ip r x H1 H2.
    exact (proj2 (problem_rows_agree rt ip r x H1 H2) (Hnow _)).
  - do 2 eexists. repeat split; vm_compute; reflexivity.
Qed.

Lemma renderers_same_alerts_witness :
  exists doc xdoc,
    gerar_html rt_exemplo dados_planilha stats_exemplo = Ok doc /\
    gerar_excel rt_exemplo dados_planilha stats_exemplo = Ok xdoc /\
    Forall2 same_alert_cells (h_alertas doc) (x_alertas xdoc) /\
    Forall2 same_alert (h_alertas doc) (x_alertas xdoc).
Proof.
  eexists. eexists. split; [vm_compute; reflexivity|].
  split; [vm_compute; reflexivity|].
  assert (H := renderers_same_alerts rt_exemplo dados_planilha stats_exemplo
                 stats_exemplo _ _ eq_refl eq_refl).
  split; [exact (proj1 H) | exact (proj1 (proj2 H) (fun _ => eq_refl))].
Defined.

Lemma top_rows_agree (total : nat) (top : list (pyval * nat)) :
  forall (start : nat) (rows : list freq_row) (xrows : list xl_top_row),
    mapM (html_freq_row total) (enumerate start top) = Ok rows ->
    mapM (xl_top_row_of total) (enumerate (S start) top) = Ok xrows ->
    Forall2 same_freq rows xrows.
Proof.
  induction top as [|[n c] top IH]; intros start rows xrows Hr Hx; simpl in *.
  - injection Hr as <-. injection Hx as <-. constructor.
  - inv_binds. inject_oks. unify_oks.
    constructor; [|eapply IH; eauto].
    unfold same_freq. simpl. repeat split. lia.
Qed.

(** X10. The sheet of the most frequent alerts holds what the frequency table
    of the document holds: both are absent, or they have the same rows with
    the same position, alert name, number of occurrences and percentage
    text. *)
Theorem renderers_same_ranking (rt : runtime) (data : pydict) (st st' : stats)
    (doc : html_doc) (xdoc : xl_doc) :
  gerar_html rt data st = Ok doc -> gerar_excel rt data st' = Ok xdoc ->
  match h_frequentes doc, x_top xdoc with
  | None, None => True
  | Some rows, Some xrows => Forall2 same_freq rows xrows
  | _, _ => False
  end.
Proof.
  intros Hh Hx.
  apply gerar_html_sections in Hh. destruct Hh as (_ & _ & _ & Hh).
  apply gerar_excel_sections in Hx. destruct Hx as (_ & Hx).
  unfold html_frequentes, xl_top in *.
  destruct (py_truthy (dict_get data "events" (VList []))).
  - inv_binds. inject_oks. unify_oks.
    match goal with
    | M : mapM (xl_top_line _) _ = Ok _ |- _ =>
        apply (mapM_weaken _ (xl_top_row_of _) _ _ (xl_top_line_row _)) in M
    end.
    eapply top_rows_agree; eauto.
  - injection Hh as <-. injection Hx as <-. exact I.
Qed.

Lemma renderers_same_ranking_witness :
  exists doc xdoc,
    gerar_html rt_exemplo dados_planilha stats_exemplo = Ok doc /\
    gerar_excel rt_exemplo dados_planilha stats_exemplo = Ok xdoc /\
    match h_frequentes doc, x_top xdoc with
    | None, None => True
    | Some rows, Some xrows => Forall2 same_freq rows xrows
    | _, _ => False
    end.
Proof.
  eexists. eexists. split; [vm_compute; reflexivity|].
  split; [vm_compute; reflexivity|].
  apply (renderers_same_ranking rt_exemplo dados_planilha stats_exemplo
           stats_exemplo); vm_compute; reflexivity.
Defined.

(** ** Counts shown beside the tables *)

Lemma py_iter_len (v : pyval) (l : list pyval) (n : nat) :
  py_iter v = Ok l -> py_len v = Ok n -> n = length l.
Proof.
  destruct v; simpl; intros H1 H2; try discriminate;
    injection H1 as <-; injection H2 as <-.
  - clear. induction s; simpl; auto.
  - reflexivity.
  - now rewrite length_map.
Qed.

Lemma py_sorted_length {A K : Type} (key : A -> res K) (leb : K -> K -> bool)
    (dflt : K) (l l' : list A) :
  py_sorted key leb l = Ok l' -> length l' = length l.
Proof.
  intros H. apply (py_sorted_Ok _ _ dflt) in H. destruct H as [_ ->].
  apply stable_sort_length.
Qed.

Lemma gerar_html_counts (rt : runtime) (data : pydict) (st : stats) (doc : html_doc) :
  gerar_html rt data st = Ok doc ->
  py_len (dict_get data "itens" (VList [])) = Ok (h_itens_count doc) /\
  py_len (dict_get data "triggers" (VList [])) = Ok (h_triggers_count doc) /\
  py_len (dict_get data "problems" (VList [])) = Ok (h_problems_count doc).
Proof.
  intros H. apply gerar_html_montar in H. destruct H as [H _].
  unfold montar_html in H. inv_binds. injection H as <-. simpl. auto.
Qed.

(** X11. The counts the document shows beside its tables are the numbers of
    rows below them: the item count is the number of item rows, the trigger
    count the number of trigger rows, and the alert table has as many rows as
    the alert count says, or the single notice row when the count is zero. *)
Theorem section_counts_match_rows (rt : runtime) (data : pydict) (st : stats)
    (doc : html_doc) :
  gerar_html rt data st = Ok doc ->
  h_itens_count doc = length (h_itens doc) /\
  h_triggers_count doc = length (h_triggers doc) /\
  length (h_alertas doc) = Nat.max 1 (h_problems_count doc).
Proof.
  intros H.
  destruct (gerar_html_counts _ _ _ _ H) as (Ci & Ct & Cp).
  destruct (gerar_html_listing _ _ _ _ H)
    as (itens & li & trigs & lt & Ei & Si & Ri & Et & St & Rt).
  destruct (gerar_html_sections _ _ _ _ H) as (_ & _ & Ha & _).
  unfold records in *.
  apply (py_iter_len _ _ _ Ei) in Ci. apply (py_iter_len _ _ _ Et) in Ct.
  apply (py_sorted_length _ _ "") in Si.
  apply (py_sorted_length _ _ (0%Z, "")) in St.
  apply Forall2_length in Ri, Rt.
  split; [congruence|]. split; [congruence|].
  unfold html_alertas in Ha.
  destruct (dict_get data "problems" (VList [])) as [|b|z|s|l|d]; try discriminate.
  - destruct s; simpl in *.
    + injection Ha as <-. injection Cp as <-. reflexivity.
    + discriminate.
  - destruct l as [|p l].
    + simpl in Ha. injection Ha as <-. injection Cp as <-. reflexivity.
    + cbn [py_truthy py_iter bind] in Ha. inv_binds.
      injection Ha as <-. injection Cp as <-.
      match goal with
      | M : mapM _ _ = Ok _ |- _ => apply mapM_length in M; rename M into HM
      end.
      rewrite length_map, HM, enumerate_length. reflexivity.
  - destruct d as [|p l].
    + simpl in Ha. injection Ha as <-. injection Cp as <-. reflexivity.
    + cbn [py_truthy py_iter bind map enumerate mapM] in Ha. inv_binds.
      unfold html_problem_row, priority_info in *. inv_binds. discriminate.
Qed.

Lemma section_counts_match_rows_witness :
  exists doc,
    gerar_html rt_exemplo dados_exemplo stats_exemplo = Ok doc /\
    h_itens_count doc = length (h_itens doc) /\
    h_triggers_count doc = length (h_triggers doc) /\
    length (h_alertas doc) = Nat.max 1 (h_problems_count doc).
Proof.
  eexists. split; [vm_compute; reflexivity|].
  apply (section_counts_match_rows rt_exemplo dados_exemplo stats_exemplo).
  vm_compute. reflexivity.
Defined.

(** ** The frequency table and the events *)

Lemma top_alerts_Ok_events (l : list pyval) (top : list (pyval * nat)) :
  top_alerts l = Ok top -> Forall (fun e => event_ok e = true) l.
Proof.
  unfold top_alerts. intros H. inv_binds. clear H. apply mapM_Forall2 in Hx.
  induction Hx as [|e v l vs He _ IH]; constructor; [|assumption].
  destruct e; try discriminate. simpl in *.
  destruct (py_hashable (dict_get d "name" (VStr ""))); [reflexivity | discriminate].
Qed.

Lemma list_sum_firstn (n : nat) (l : list nat) :
  (list_sum (firstn n l) <= list_sum l)%nat.
Proof.
  revert n. induction l as [|x l IH]; intros [|n]; simpl; try lia.
  specialize (IH n). lia.
Qed.

Lemma list_sum_perm (l l' : list nat) :
  Permutation l l' -> list_sum l = list_sum l'.
Proof. induction 1; simpl; lia. Qed.

(** X12. The frequency table never lists more than 20 rows and never counts
    more occurrences than there are events; when the events have at most 20
    distinct names, the occurrences of its rows add up to the number of
    events. *)
Theorem frequency_rows_cover_events (l : list pyval) (rows : list freq_row) :
  html_frequentes (VList l) = Ok (Some rows) ->
  (length rows <= 20)%nat /\
  (list_sum (map fr_count rows) <= length l)%nat /\
  ((length (first_seen py_key_eqb (map event_name l)) <= 20)%nat ->
   list_sum (map fr_count rows) = length l).
Proof.
  unfold html_frequentes. destruct l as [|e0 l0]; [discriminate|].
  cbn [py_truthy py_iter bind py_len]. set (l := e0 :: l0). intros H.
  inv_binds. injection H as ->.
  match goal with T : top_alerts _ = Ok _ |- _ => rename T into Htop end.
  pose proof (top_alerts_Ok_events _ _ Htop) as Hev.
  destruct (top_alerts_grouped l Hev) as [Hh Hg].
  rewrite Hg in Htop. injection Htop as <-.
  match goal with M : mapM _ _ = Ok _ |- _ => rename M into HM end.
  destruct (freq_rows (length l) 1
              (most_common 20 (grouped py_key_eqb (map event_name l))))
    as (rows' & Hr' & Hn & _); [simpl; lia|].
  assert (E : Ok rows' = Ok rows) by (rewrite <- Hr'; exact HM).
  injection E as ->.
  set (groups := grouped py_key_eqb (map event_name l)) in *.
  assert (Hc : map fr_count rows = map snd (most_common 20 groups)).
  { rewrite <- Hn, map_map. reflexivity. }
  assert (Hsum : list_sum (map snd (most_common_all groups)) = length l).
  { rewrite <- (list_sum_perm _ _ (Permutation_map snd (most_common_all_perm groups))).
    unfold groups, list_sum.
    rewrite (grouped_total py_key_eqb (fun v => py_hashable v = true)
               py_key_eqb_refl py_key_eqb_sym py_key_eqb_trans _ Hh).
    apply length_map. }
  split; [|split].
  - rewrite <- (length_map (fun r => (fr_name r, fr_count r))), Hn.
    unfold most_common. rewrite length_firstn. lia.
  - rewrite Hc. unfold most_common. rewrite <- firstn_map, <- Hsum.
    apply list_sum_firstn.
  - intros Hle. rewrite Hc. unfold most_common.
    rewrite firstn_all2; [exact Hsum|].
    unfold most_common_all. rewrite stable_sort_length.
    unfold groups, grouped. now rewrite length_map.
Qed.

Lemma frequency_rows_cover_events_witness :
  exists rows,
    html_frequentes (VList events_exemplo) = Ok (Some rows) /\
    (length rows <= 20)%nat /\
    (list_sum (map fr_count rows) <= length events_exemplo)%nat /\
    ((length (first_seen py_key_eqb (map event_name events_exemplo)) <= 20)%nat ->
     list_sum (map fr_count rows) = length events_exemplo).
Proof.
  eexists. split; [vm_compute; reflexivity|].
  apply (frequency_rows_cover_events events_exemplo). vm_compute. reflexivity.
Defined.

(** ** Tag cells *)

Lemma html_tag_chip (t : pyval) (c : chip) : html_tag t = Ok c -> chip_of t c.
Proof.
  unfold html_tag. intros H. destruct t; try discriminate. simpl in H.
  exists d. split; [reflexivity|].
  destruct (py_truthy (dict_get d "value" VNone)) eqn:Ev.
  - unfold dict_get in *. destruct (lookup "value" d) eqn:El; [|discriminate].
    simpl in H. destruct (lookup "tag" d); [|discriminate].
    injection H as <-. simpl. auto.
  - simpl in H. destruct (lookup "tag" d); [|discriminate].
    injection H as <-. simpl. auto.
Qed.

(** X13. The tag cell of a document row is the dash exactly when the record
    has no tag entry; otherwise it holds one chip per tag entry, in order,
    each with the entry's tag and with the entry's value when that value is
    present and non-empty. *)
Theorem html_tag_cell (d : pydict) (l : list pyval) (cell : tags_cell) :
  dict_get d "tags" (VList []) = VList l ->
  html_tags (VDict d) = Ok cell ->
  (l = [] /\ cell = Dash) \/
  (l <> [] /\ exists chips, cell = Chips chips /\ Forall2 chip_of l chips).
Proof.
  unfold html_tags. cbn [py_get bind]. intros -> H. cbn [py_iter bind] in H.
  inv_binds. injection H as <-.
  match goal with M : mapM _ _ = Ok _ |- _ => apply mapM_Forall2 in M; rename M into HM end.
  destruct HM as [|t c l cs Ht Hl].
  - now left.
  - right. split; [discriminate|]. eexists. split; [reflexivity|].
    constructor; [now apply html_tag_chip|].
    clear - Hl. induction Hl; constructor; auto using html_tag_chip.
Qed.

Lemma html_tag_cell_witness :
  exists cell,
    html_tags (VDict [("tags", VList [VDict [("tag", VStr "component");
                                             ("value", VStr "cpu")]])]) = Ok cell /\
    exists chips,
      cell = Chips chips /\
      Forall2 chip_of [VDict [("tag", VStr "component"); ("value", VStr "cpu")]] chips.
Proof.
  eexists. split; [reflexivity|].
  destruct (html_tag_cell
              [("tags", VList [VDict [("tag", VStr "component"); ("value", VStr "cpu")]])]
              [VDict [("tag", VStr "component"); ("value", VStr "cpu")]]
              _ eq_refl eq_refl) as [[H _]|[_ H]]; [discriminate H | exact H].
Defined.

Lemma xl_tag_html_tag (t : pyval) (p : tag_part) :
  xl_tag t = Ok p -> exists c, html_tag t = Ok c.
Proof.
  unfold xl_tag, html_tag. destruct t; try discriminate. simpl.
  destruct (py_truthy (dict_get d "value" VNone)) eqn:Ev; simpl.
  - unfold dict_get in Ev. destruct (lookup "value" d) eqn:El; [|discriminate].
    simpl. destruct (lookup "tag" d); simpl; [eauto | discriminate].
  - destruct (lookup "tag" d); simpl; [eauto | discriminate].
Qed.

(** X14. The spreadsheet is stricter about tags than the document: whenever
    the tag cell of a sheet row can be computed, so can the tag cell of the
    document row; but a lone tag that is not a string makes the sheet raise
    TypeError where the document shows a chip, and a single empty tag gives
    a dash on the sheet and an empty chip in the document. *)
Theorem tag_cells_compared (r v : pyval) (c : xl_tags_cell) :
  (xl_tags r = Ok c -> exists c', html_tags r = Ok c') /\
  (is_str v = false ->
   html_tags (record_with_tags [tag_entry v]) = Ok (Chips [(v, None)]) /\
   xl_tags (record_with_tags [tag_entry v]) = Raise TypeError) /\
  html_tags (record_with_tags [tag_entry (VStr "")]) = Ok (Chips [(VStr "", None)]) /\
  xl_tags (record_with_tags [tag_entry (VStr "")]) = Ok XDash.
Proof.
  split; [|split; [|split; reflexivity]].
  - unfold xl_tags, html_tags. intros H. inv_binds.
    match goal with G : py_get _ _ _ = Ok _ |- _ => rewrite G end. cbn [bind].
    match goal with G : py_iter _ = Ok _ |- _ => rewrite G end. cbn [bind].
    match goal with M : mapM _ _ = Ok _ |- _ => apply mapM_Forall2 in M; rename M into HM end.
    destruct (mapM_total html_tag x0) as [cs ->]; [|simpl; eauto].
    clear - HM. induction HM; constructor; eauto using xl_tag_html_tag.
  - intros Hv. destruct v; try discriminate; split; reflexivity.
Qed.

Lemma tag_cells_compared_witness :
  (exists c', html_tags (record_with_tags [tag_entry (VStr "os")]) = Ok c') /\
  html_tags (record_with_tags [tag_entry (VInt 1)]) = Ok (Chips [(VInt 1, None)]) /\
  xl_tags (record_with_tags [tag_entry (VInt 1)]) = Raise TypeError.
Proof.
  destruct (tag_cells_compared (record_with_tags [tag_entry (VStr "os")]) (VInt 1)
              (XJoined [TagOnly (VStr "os")])) as (H1 & H2 & _).
  split; [apply H1; reflexivity | apply H2; reflexivity].
Defined.

(** ** A start time in the future *)

(** X15. When a problem's start lies after the clock reading, the duration
    cell shows no days: it shows the hours and minutes of the elapsed time
    wrapped into one day, so a start 60 seconds ahead reads "23h 59m". *)
Theorem duracao_future_start (t clock : Z) :
  (t < clock)%Z -> clock <> 0%Z ->
  (exists h m : Z,
     (0 <= h < 24 /\ 0 <= m < 60 /\
      0 <= (t - clock) mod 86400 - (h * 3600 + m * 60) < 60)%Z /\
     duracao_cell t clock = show_units 0 h m) /\
  duracao_cell (clock - 60) clock = "23h 59m".
Proof.
  intros Hlt Hne.
  assert (Hz : (clock =? 0)%Z = false) by now apply Z.eqb_neq.
  unfold duracao_cell. rewrite Hz. split.
  - unfold duracao. set (e := (t - clock)%Z).
    assert (He : (e < 0)%Z) by (unfold e; lia).
    exists ((e mod 86400) / 3600)%Z, ((e mod 3600) / 60)%Z. split.
    + clearbody e. clear. Z.to_euclidean_division_equations. lia.
    + assert (Hd : (0 <? e / 86400)%Z = false).
      { apply Z.ltb_ge. clearbody e. Z.to_euclidean_division_equations. lia. }
      rewrite Hd. unfold show_units. cbn [Z.eqb].
      assert (Hh : (0 <= (e mod 86400) / 3600)%Z)
        by (clearbody e; Z.to_euclidean_division_equations; lia).
      destruct (Z.ltb_spec 0 ((e mod 86400) / 3600));
        destruct (Z.eqb_spec ((e mod 86400) / 3600) 0); try lia; reflexivity.
  - unfold duracao. replace (clock - 60 - clock)%Z with (-60)%Z by lia. reflexivity.
Qed.

Lemma duracao_future_start_witness :
  (1700000000 < 1700000060)%Z /\ 1700000060%Z <> 0%Z /\
  duracao_cell (1700000060 - 60) 1700000060 = "23h 59m".
Proof.
  split; [reflexivity|]. split; [discriminate|].
  apply (duracao_future_start 1700000000 1700000060); [reflexivity | discriminate].
Defined.

(** ** Status label and status style of a document row *)

Lemma html_status_label (d : pydict) (s : string) :
  html_status (VDict d) = Ok s ->
  s = match lookup "status" d with
      | None => "Ativo"
      | Some (VStr c) =>
          if String.eqb c "0" then "Ativo"
          else if String.eqb c "1" then "Desabilitado" else Desconhecido
      | Some _ => Desconhecido
      end.
Proof.
  unfold html_status. cbn [py_get bind]. unfold dict_get.
  destruct (lookup "status" d) as [v|]; [|intros [= <-]; reflexivity].
  destruct v; simpl; intros H; try discriminate; try (injection H as <-; reflexivity).
  injection H as <-.
  destruct (String.eqb_spec s0 "0") as [->|]; [reflexivity|].
  destruct (String.eqb_spec s0 "1") as [->|]; reflexivity.
Qed.

Lemma status_class_value (d : pydict) (c : string) :
  status_class (VDict d) = Ok c ->
  c = if has_status "0" (VDict d) then "status-active" else "status-disabled".
Proof. unfold status_class. cbn [py_get bind has_status]. now intros [= <-]. Qed.

Lemma label_style_mismatch (d : pydict) (s c : string) :
  html_status (VDict d) = Ok s -> status_class (VDict d) = Ok c ->
  (s = "Ativo" /\ c = "status-disabled") <-> lookup "status" d = None.
Proof.
  intros Hs Hc. apply html_status_label in Hs. apply status_class_value in Hc.
  subst. cbn [has_status]. unfold dict_get.
  destruct (lookup "status" d) as [v|]; [|simpl; tauto].
  split; [|discriminate]. intros [H1 H2].
  destruct v; try discriminate. simpl in *.
  destruct (String.eqb s "0"); [discriminate|].
  destruct (String.eqb s "1"); discriminate.
Qed.

(** X16. In the document a row is labelled "Ativo" and yet styled as disabled
    exactly when its record has no status field; for every record with a
    status field the label "Ativo" and the active style go together.  This
    holds for item rows and for trigger rows. *)
Theorem status_label_and_style (i : pyval) (r : item_row) (t : pyval) (tr : trigger_row) :
  (html_item_row i = Ok r ->
   ((ir_status r = "Ativo" /\ ir_class r = "status-disabled") <-> status_absent i)) /\
  (html_trigger_row t = Ok tr ->
   ((tr_status tr = "Ativo" /\ tr_class tr = "status-disabled") <-> status_absent t)).
Proof.
  split; intros H.
  - unfold html_item_row in H. inv_binds. injection H as <-. simpl.
    destruct i; try discriminate.
    rewrite (label_style_mismatch d) by eassumption.
    unfold status_absent. split; [eauto | intros (d' & [= <-] & E); exact E].
  - unfold html_trigger_row in H. inv_binds. injection H as <-. simpl.
    destruct t; try discriminate.
    rewrite (label_style_mismatch d) by eassumption.
    unfold status_absent. split; [eauto | intros (d' & [= <-] & E); exact E].
Qed.

Lemma status_label_and_style_witness :
  exists r,
    html_item_row (VDict [("name", VStr "Apache status")]) = Ok r /\
    ir_status r = "Ativo" /\ ir_class r = "status-disabled".
Proof.
  eexists. split; [reflexivity|].
  apply (proj1 (status_label_and_style (VDict [("name", VStr "Apache status")]) _
                  (VDict []) {| tr_class := ""; tr_status := "";
                                tr_priority := ("", ""); tr_description := VNone;
                                tr_expression := VNone; tr_comments := VNone;
                                tr_tags := Dash |}) eq_refl).
  eexists. split; reflexivity.
Defined.

(** ** Numbers sent as text *)

Lemma parse_digits_app (f : nat) :
  forall (n acc : Z) (b : bool) (rest : list ascii),
    (0 <= n)%Z -> (Z.log2 n <= Z.of_nat f)%Z ->
    parse_digits (digits_of f n ++ rest) acc b
    = parse_digits rest (acc * 10 ^ Z.of_nat (length (digits_of f n)) + n)%Z true.
Proof.
  induction f as [|f IH]; intros n acc b rest Hn Hlog.
  - assert (Hlt : (n < 2 ^ 1)%Z).
    { destruct (Z.eq_dec n 0) as [->|Hz]; [reflexivity|].
      apply Z.log2_lt_pow2; [lia|]. change (Z.of_nat 0) with 0%Z in Hlog. lia. }
    change (2 ^ 1)%Z with 2%Z in Hlt.
    cbn [digits_of app length parse_digits].
    destruct (digit_char_digit n) as [Hd Hv]; [lia|].
    rewrite Hd, Hv. f_equal. change (Z.of_nat 1) with 1%Z. lia.
  - cbn [digits_of]. destruct (Z.ltb_spec n 10) as [Hlt|Hge].
    + cbn [app length parse_digits].
      destruct (digit_char_digit n) as [Hd Hv]; [lia|].
      rewrite Hd, Hv. f_equal. change (Z.of_nat 1) with 1%Z. lia.
    + rewrite <- app_assoc. cbn [app].
      assert (Hq : (0 <= n / 10)%Z) by (apply Z.div_pos; lia).
      assert (Hlq : (Z.log2 (n / 10) <= Z.of_nat f)%Z).
      { assert (Z.log2 (n / 10) <= Z.log2 (n / 2))%Z.
        { apply Z.log2_le_mono. Z.to_euclidean_division_equations. lia. }
        assert (Z.log2 (n / 2) = Z.log2 n - 1)%Z.
        { rewrite <- Z.div2_div, Z.div2_spec, Z.log2_shiftr by lia.
          assert (0 < Z.log2 n)%Z by (apply Z.log2_pos; lia). lia. }
        lia. }
      rewrite (IH (n / 10)%Z acc b _ Hq Hlq). cbn [parse_digits].
      destruct (digit_char_digit (n mod 10)) as [Hd Hv];
        [apply Z.mod_pos_bound; lia|].
      rewrite Hd, Hv. f_equal.
      rewrite length_app. cbn [length].
      rewrite Nat.add_1_r, Nat2Z.inj_succ, Z.pow_succ_r by lia.
      pose proof (Z.div_mod n 10). lia.
Qed.

Lemma parse_digits_digits (n : Z) :
  (0 <= n)%Z -> parse_digits (digits n) 0%Z false = Some n.
Proof.
  intros Hn. unfold digits.
  assert (Hlog : (Z.log2 n <= Z.of_nat (Z.to_nat (Z.log2 n)))%Z)
    by (pose proof (Z.log2_nonneg n); lia).
  pose proof (parse_digits_app _ n 0 false [] Hn Hlog) as H.
  rewrite app_nil_r in H. rewrite H. cbn [parse_digits]. f_equal; lia.
Qed.

Lemma digits_of_all_digits (f : nat) :
  forall n : Z,
    (0 <= n)%Z -> (Z.log2 n <= Z.of_nat f)%Z ->
    Forall (fun c => is_digit c = true) (digits_of f n).
Proof.
  induction f as [|f IH]; intros n Hn Hlog.
  - assert (Hlt : (n < 2 ^ 1)%Z).
    { destruct (Z.eq_dec n 0) as [->|Hz]; [reflexivity|].
      apply Z.log2_lt_pow2; [lia|]. change (Z.of_nat 0) with 0%Z in Hlog. lia. }
    change (2 ^ 1)%Z with 2%Z in Hlt.
    cbn [digits_of]. constructor; [|constructor]. apply digit_char_digit. lia.
  - cbn [digits_of]. destruct (Z.ltb_spec n 10) as [Hlt|Hge].
    + constructor; [|constructor]. apply digit_char_digit. lia.
    + apply Forall_app. split.
      * apply IH; [apply Z.div_pos; lia|].
        assert (Z.log2 (n / 10) <= Z.log2 (n / 2))%Z.
        { apply Z.log2_le_mono. Z.to_euclidean_division_equations. lia. }
        assert (Z.log2 (n / 2) = Z.log2 n - 1)%Z.
        { rewrite <- Z.div2_div, Z.div2_spec, Z.log2_shiftr by lia.
          assert (0 < Z.log2 n)%Z by (apply Z.log2_pos; lia). lia. }
        lia.
      * constructor; [|constructor]. apply digit_char_digit.
        apply Z.mod_pos_bound. lia.
Qed.

Lemma digits_all_digits (n : Z) :
  (0 <= n)%Z -> Forall (fun c => is_digit c = true) (digits n).
Proof.
  intros Hn. apply digits_of_all_digits; [assumption|].
  pose proof (Z.log2_nonneg n). lia.
Qed.

Lemma digit_not_space (c : ascii) : is_digit c = true -> is_space c = false.
Proof.
  unfold is_digit, is_space. cbv zeta. intros H.
  apply andb_true_iff in H. destruct H as [H1 H2].
  apply Nat.leb_le in H1.
  apply orb_false_iff. split.
  - apply andb_false_iff. right. apply Nat.leb_gt. lia.
  - apply Nat.eqb_neq. lia.
Qed.

Lemma digit_not_sign (c : ascii) :
  is_digit c = true -> Ascii.eqb c "-"%char = false /\ Ascii.eqb c "+"%char = false.
Proof.
  intros H. split.
  - destruct (Ascii.eqb_spec c "-"%char) as [->|]; [discriminate | reflexivity].
  - destruct (Ascii.eqb_spec c "+"%char) as [->|]; [discriminate | reflexivity].
Qed.

Lemma digit_is_ascii (c : ascii) : is_digit c = true -> is_ascii c = true.
Proof.
  unfold is_digit, is_ascii. cbv zeta. intros H.
  apply andb_true_iff in H. destruct H as [_ H2].
  apply Nat.leb_le in H2. apply Nat.ltb_lt. lia.
Qed.

Lemma strip_no_space (l : list ascii) :
  Forall (fun c => is_space c = false) l -> strip l = l.
Proof.
  intros H. unfold strip.
  assert (D : forall k, Forall (fun c => is_space c = false) k -> drop_spaces k = k).
  { intros k Hk. destruct Hk as [|c k Hc _]; [reflexivity|].
    cbn [drop_spaces]. now rewrite Hc. }
  rewrite (D l H), (D (rev l)) by now apply Forall_rev.
  apply rev_involutive.
Qed.

Lemma filter_all {A : Type} (p : A -> bool) (l : list A) :
  Forall (fun x => p x = true) l -> filter p l = l.
Proof.
  induction 1 as [|x l Hx _ IH]; [reflexivity|].
  cbn [filter]. now rewrite Hx, IH.
Qed.

(** The decimal text of [z] is ASCII, denotes [z] and has the digits of
    its absolute value. *)
Lemma int_of_string_str_of_Z (z : Z) : int_of_string (str_of_Z z) = Some z.
Proof.
  unfold int_of_string, str_of_Z.
  rewrite list_ascii_of_string_of_list_ascii. unfold repr_int.
  destruct (Z.ltb_spec z 0) as [Hneg|Hpos].
  - assert (Hd := digits_all_digits (- z) ltac:(lia)).
    rewrite strip_no_space.
    + change (Ascii.eqb "-"%char "-"%char) with true. cbv iota.
      rewrite parse_digits_digits by lia. cbn [option_map]. f_equal. lia.
    + constructor; [reflexivity|].
      eapply Forall_impl; [|exact Hd]. apply digit_not_space.
  - assert (Hd := digits_all_digits z Hpos).
    rewrite strip_no_space
      by (eapply Forall_impl; [|exact Hd]; apply digit_not_space).
    pose proof (parse_digits_digits z Hpos) as Hp.
    destruct (digits z) as [|c tl] eqn:E; [discriminate|].
    apply Forall_inv in Hd. destruct (digit_not_sign c Hd) as [-> ->].
    exact Hp.
Qed.

Lemma str_of_Z_ascii (z : Z) :
  forallb is_ascii (list_ascii_of_string (str_of_Z z)) = true.
Proof.
  unfold str_of_Z. rewrite list_ascii_of_string_of_list_ascii. unfold repr_int.
  destruct (Z.ltb_spec z 0) as [Hneg|Hpos].
  - cbn [forallb]. change (is_ascii "-"%char) with true. cbn [andb].
    apply forallb_forall. intros c Hc. apply digit_is_ascii.
    pose proof (digits_all_digits (- z) ltac:(lia)) as Hd.
    rewrite Forall_forall in Hd. now apply Hd.
  - apply forallb_forall. intros c Hc. apply digit_is_ascii.
    pose proof (digits_all_digits z Hpos) as Hd.
    rewrite Forall_forall in Hd. now apply Hd.
Qed.

Lemma str_of_Z_digits (z : Z) :
  count_digits (str_of_Z z) = length (digits (Z.abs z)).
Proof.
  unfold count_digits, str_of_Z. rewrite list_ascii_of_string_of_list_ascii.
  unfold repr_int.
  destruct (Z.ltb_spec z 0) as [Hneg|Hpos].
  - cbn [filter]. change (is_digit "-"%char) with false. cbv iota.
    rewrite filter_all by (apply digits_all_digits; lia).
    now rewrite Z.abs_neq by lia.
  - rewrite filter_all by (now apply digits_all_digits).
    now rewrite Z.abs_eq by lia.
Qed.

Lemma py_int_str_of_Z (rt : runtime) (z : Z) :
  int_text_ok rt z = true -> py_int rt (VStr (str_of_Z z)) = Ok z.
Proof.
  intros H. unfold int_text_ok in H. apply negb_true_iff in H.
  unfold py_int.
  now rewrite str_of_Z_ascii, str_of_Z_digits, H, int_of_string_str_of_Z.
Qed.

(** X17. A number sent as its decimal text, of no more digits than the
    integer conversion accepts, is read back as that number: a problem whose
    clock field holds the text of [z] has start time [z], and a trigger whose
    priority field holds the text of [z] is sorted by the key [-z], exactly
    as if the fields held the number itself. *)
Theorem numeric_text_read_back (rt : runtime) (z : Z) (d : pydict) :
  int_text_ok rt z = true ->
  (lookup "clock" d = Some (VStr (str_of_Z z)) ->
   problem_clock rt (VDict d) = Ok z) /\
  (lookup "priority" d = Some (VStr (str_of_Z z)) ->
   priority_code rt (VDict d) = z /\
   forall k, trigger_key rt (VDict d) = Ok k -> fst k = (- z)%Z).
Proof.
  intros Hz. split.
  - intros H. unfold problem_clock. cbn [py_get bind]. unfold dict_get.
    rewrite H. now apply py_int_str_of_Z.
  - intros H. split.
    + unfold priority_code, key_or. cbn [py_get bind]. unfold dict_get.
      rewrite H. now rewrite py_int_str_of_Z.
    + intros k Hk. unfold trigger_key in Hk. cbn [py_get bind] in Hk.
      unfold dict_get in Hk at 1. rewrite H, py_int_str_of_Z in Hk by assumption.
      cbn [bind] in Hk. inv_binds. now injection Hk as <-.
Qed.

Lemma numeric_text_read_back_witness :
  int_text_ok rt_exemplo 1700000000 = true /\
  problem_clock rt_exemplo (VDict [("clock", VStr (str_of_Z 1700000000))])
  = Ok 1700000000%Z /\
  priority_code rt_exemplo (VDict [("priority", VStr (str_of_Z 4))]) = 4%Z.
Proof.
  split; [vm_compute; reflexivity|]. split.
  - apply (proj1 (numeric_text_read_back rt_exemplo 1700000000
                    [("clock", VStr (str_of_Z 1700000000))]
                    ltac:(vm_compute; reflexivity))).
    reflexivity.
  - apply (proj2 (numeric_text_read_back rt_exemplo 4
                    [("priority", VStr (str_of_Z 4))]
                    ltac:(vm_compute; reflexivity))).
    reflexivity.
Defined.

(** ** The duration cell *)



(** ** The aggregator feeds the renderer *)

Lemma item_ok_countable (rt : runtime) (i : pyval) :
  item_ok rt i = true -> item_countable i = true.
Proof.
  destruct i; try discriminate. intros H.
  apply item_ok_parts in H. destruct H as (_ & _ & Ht & Hv & _).
  simpl. unfold field_hashable, dict_get, absent_or in *.
  destruct (lookup "type" d); destruct (lookup "value_type" d);
    simpl; auto using andb_true_intro.
Qed.

Lemma trigger_ok_countable (rt : runtime) (t : pyval) :
  trigger_ok rt t = true -> trigger_countable t = true.
Proof.
  destruct t; try discriminate. intros H.
  apply trigger_ok_parts in H. destruct H as (Hp & _).
  simpl. unfold field_hashable, dict_get, absent_or in *.
  destruct (lookup "priority" d); [now apply (py_int_hashable rt) | reflexivity].
Qed.

Lemma gerar_estatisticas_labels (itens triggers : list pyval) (st : stats) :
  gerar_estatisticas itens triggers = Ok st ->
  incl (map fst (por_tipo (st_itens st))) type_labels /\
  incl (map fst (por_valor (st_itens st))) value_labels.
Proof.
  intros H. unfold gerar_estatisticas in H. inv_binds. injection H as <-. simpl.
  split.
  - match goal with
    | G : count_labels ITEM_TYPES _ _ = Ok _ |- _ =>
        exact (proj2 (count_labels_buckets _ _ _ _ G))
    end.
  - match goal with
    | G : count_labels VALUE_TYPES _ _ = Ok _ |- _ =>
        exact (proj2 (count_labels_buckets _ _ _ _ G))
    end.
Qed.

(** The labels of the two reference tables can be written to the file. *)
Lemma table_labels_encodable (rt : runtime) :
  Forall (fun s => encodable rt (VStr s) = true) (type_labels ++ value_labels).
Proof. repeat constructor. Qed.

Lemma stats_of_ok_records (rt : runtime) (itens triggers : list pyval) :
  Forall (fun i => item_ok rt i = true) itens ->
  Forall (fun t => trigger_ok rt t = true) triggers ->
  exists st, gerar_estatisticas itens triggers = Ok st /\ stats_ok rt st = true.
Proof.
  intros Hi Ht.
  destruct (gerar_estatisticas_total itens triggers) as [st Hst].
  - eapply Forall_impl; [|exact Hi]. apply item_ok_countable.
  - eapply Forall_impl; [|exact Ht]. apply trigger_ok_countable.
  - exists st. split; [assumption|].
    destruct (gerar_estatisticas_positive _ _ _ Hst) as (P1 & P2 & _).
    destruct (gerar_estatisticas_labels _ _ _ Hst) as (L1 & L2).
    pose proof (table_labels_encodable rt) as He.
    apply Forall_app in He. destruct He as [He1 He2].
    rewrite Forall_forall in P1, P2, He1, He2.
    unfold stats_ok. apply andb_true_intro.
    split; apply forallb_forall; intros e Hin; apply andb_true_intro; split.
    + apply Nat.leb_le. auto.
    + apply He1. apply L1. now apply in_map.
    + apply Nat.leb_le. auto.
    + apply He2. apply L2. now apply in_map.
Qed.

(** X18. On a well-formed record set the aggregator and the document
    renderer compose: the statistics computed from the set's own items and
    triggers exist, hold no zero count and only labels the file accepts, and
    the document renders with them. *)
Theorem aggregate_then_render (rt : runtime) (data : pydict) :
  data_ok rt data = true ->
  exists itens triggers st doc,
    records data "itens" = Ok itens /\ records data "triggers" = Ok triggers /\
    gerar_estatisticas itens triggers = Ok st /\ stats_ok rt st = true /\
    gerar_html rt data st = Ok doc.
Proof.
  intros Hd. pose proof Hd as Hd'. unfold data_ok in Hd'.
  repeat (apply andb_prop in Hd'; destruct Hd' as [Hd' ?]).
  match goal with G : absent_or _ data "itens" = true |- _ =>
    destruct (list_field _ _ _ G) as (itens & Eit & Oit) end.
  match goal with G : absent_or _ data "triggers" = true |- _ =>
    destruct (list_field _ _ _ G) as (trigs & Etr & Otr) end.
  destruct (stats_of_ok_records rt itens trigs Oit Otr) as (st & Hst & Hok).
  destruct (gerar_html_total rt data st Hd Hok) as [doc Hdoc].
  exists itens, trigs, st, doc. unfold records. rewrite Eit, Etr.
  repeat split; assumption.
Qed.

Lemma aggregate_then_render_witness :
  data_ok rt_exemplo dados_exemplo = true /\
  exists itens triggers st doc,
    records dados_exemplo "itens" = Ok itens /\
    records dados_exemplo "triggers" = Ok triggers /\
    gerar_estatisticas itens triggers = Ok st /\ stats_ok rt_exemplo st = true /\
    gerar_html rt_exemplo dados_exemplo st = Ok doc.
Proof.
  split; [reflexivity|].
  apply (aggregate_then_render rt_exemplo dados_exemplo). reflexivity.
Defined.

(** ** Runs of [main] *)

Lemma appends_ret : appends [] (io_ret tt).
Proof.
  intros fs. exists []. cbn. rewrite app_nil_r.
  split; [reflexivity|]. split; [now exists [] | reflexivity].
Qed.

Lemma appends_bind (n1 n2 : list string) (m1 m2 : io unit) :
  appends n1 m1 -> appends n2 m2 -> appends (n1 ++ n2) (_ <~ m1 ;; m2).
Proof.
  intros H1 H2 fs. unfold io_bind.
  destruct (H1 fs) as (w1 & E1 & (r1 & P1) & F1).
  destruct (m1 fs) as [fs1 [[]|e]]; cbn [fst snd is_ok] in *; subst fs1.
  - destruct (H2 (fs ++ w1)%list) as (w2 & E2 & (r2 & P2) & F2).
    exists (w1 ++ w2)%list. rewrite E2, app_assoc. split; [reflexivity|].
    rewrite map_app, <- (F1 eq_refl). split.
    + exists r2. now rewrite <- app_assoc, <- P2.
    + intros Hok. now rewrite (F2 Hok).
  - exists w1. split; [reflexivity|]. split; [|discriminate].
    exists (r1 ++ n2)%list. now rewrite app_assoc, <- P1.
Qed.

Lemma appends_if (b : bool) (n : string) (m : io unit) :
  appends [n] m -> appends (if b then [n] else []) (if b then m else io_ret tt).
Proof. destruct b; [auto | intros _; apply appends_ret]. Qed.

Lemma appends_escrever (n : string) (c : artifact) : appends [n] (escrever n c).
Proof.
  intros fs. exists [(n, c)]. cbn.
  split; [reflexivity|]. split; [now exists [] | reflexivity].
Qed.

Lemma appends_interromper (n : string) (e : pyexc) : appends [n] (interromper n e).
Proof.
  intros fs. exists [(n, Incompleto)]. cbn.
  split; [reflexivity|]. split; [now exists [] | reflexivity].
Qed.

Lemma appends_raise (n : string) (e : pyexc) : appends [n] (lift (Raise e)).
Proof.
  intros fs. exists []. cbn. rewrite app_nil_r.
  split; [reflexivity|]. split; [now exists [n] | discriminate].
Qed.

Lemma salvar_json_io_appends (rt : runtime) (d : pydict) (n : string) :
  appends [n] (salvar_json_io rt d n).
Proof.
  unfold salvar_json_io.
  destruct (salvar_json rt d); [apply appends_escrever | apply appends_interromper].
Qed.

Lemma gerar_html_io_appends (rt : runtime) (d : pydict) (st : stats) (n : string) :
  appends [n] (gerar_html_io rt d st n).
Proof.
  unfold gerar_html_io.
  destruct (montar_html rt d st) as [doc|e] eqn:E.
  - intros fs. unfold io_bind, lift. cbn [fst snd].
    destruct (forallb (printable rt) (html_values doc));
      [destruct (forallb (encodable rt) (html_values doc))|].
    + apply appends_escrever.
    + apply appends_interromper.
    + apply (appends_raise n ValueError).
  - intros fs. unfold io_bind, lift. apply (appends_raise n e).
Qed.

Lemma gerar_excel_io_appends (rt : runtime) (d : pydict) (st : stats) (n : string) :
  appends [n] (gerar_excel_io rt d st n).
Proof.
  unfold gerar_excel_io.
  destruct (gerar_excel rt d st) as [doc|e] eqn:E; intros fs; unfold io_bind, lift.
  - apply appends_escrever.
  - apply (appends_raise n e).
Qed.

Lemma salvar_writes (rt : runtime) (a : args) (d : pydict) (st : stats) :
  appends (nomes_esperados a) (salvar rt a d st).
Proof.
  unfold salvar, nomes_esperados.
  apply appends_bind; [apply appends_if, salvar_json_io_appends|].
  apply appends_bind; [apply appends_if, gerar_html_io_appends|].
  rewrite <- (app_nil_r (if quer_excel (format a) then _ else _)).
  apply appends_bind; [apply appends_if, gerar_excel_io_appends | apply appends_ret].
Qed.

(** The call of the document renderer with its file, by the result of the
    renderer. *)
Lemma gerar_html_io_Ok (rt : runtime) (d : pydict) (st : stats) (n : string)
    (doc : html_doc) (fs : arquivos) :
  gerar_html rt d st = Ok doc ->
  gerar_html_io rt d st n fs = ((fs ++ [(n, HtmlFile doc)])%list, Ok tt).
Proof.
  intros H. apply gerar_html_montar in H. destruct H as (Hm & Hp & He).
  unfold gerar_html_io, io_bind, lift. now rewrite Hm, Hp, He.
Qed.

Lemma gerar_html_io_Raise (rt : runtime) (d : pydict) (st : stats) (n : string)
    (e : pyexc) (fs : arquivos) :
  gerar_html rt d st = Raise e -> e <> UnicodeEncodeError ->
  gerar_html_io rt d st n fs = (fs, Raise e).
Proof.
  unfold gerar_html, gerar_html_io, io_bind, lift.
  destruct (montar_html rt d st) as [doc|e']; cbn [bind].
  - destruct (forallb (printable rt) (html_values doc));
      [destruct (forallb (encodable rt) (html_values doc))|].
    + discriminate.
    + intros [= <-] Hne. now contradiction Hne.
    + now intros [= <-] _.
  - now intros [= <-] _.
Qed.

Lemma salvar_json_io_Ok (rt : runtime) (d : pydict) (n : string)
    (text : list ascii) (fs : arquivos) :
  salvar_json rt d = Ok text ->
  salvar_json_io rt d n fs = ((fs ++ [(n, JsonFile text)])%list, Ok tt).
Proof. intros H. unfold salvar_json_io. now rewrite H. Qed.

(** X19. Whatever the server answers and whatever format is asked for, a run
    only adds files after those already there, adds them in the order json,
    html, xlsx with the names of the requested format, never adds a file the
    format did not ask for, and when it returns it has added all of them. *)
Theorem main_files_by_format (rt : runtime) (agora : string) (a : args)
    (z : zabbix) (fs : arquivos) :
  exists written,
    fst (main rt agora a z fs) = (fs ++ written)%list /\
    (exists rest, nomes_esperados a = (map fst written ++ rest)%list) /\
    (is_ok (snd (main rt agora a z fs)) = true ->
     map fst written = nomes_esperados a).
Proof.
  unfold main, io_bind, lift.
  destruct (coletar agora a z) as [[d st]|e].
  - cbn [fst snd]. apply salvar_writes.
  - exists []. cbn [fst snd is_ok map app]. rewrite app_nil_r.
    split; [reflexivity|]. split; [eexists; reflexivity | discriminate].
Qed.

Lemma coletar_steps (agora : string) (a : args) (z : zabbix)
    (h : pyval) (hs : list pyval) (version hid tech name : pyval)
    (itens triggers problems events : list pyval) :
  is_ok (login z (url a) (user a) (password a)) = true ->
  api_version z = Ok version ->
  host_get z (hostname a) = Ok (h :: hs) ->
  py_subscript h "hostid" = Ok hid ->
  py_subscript h "host" = Ok tech ->
  py_subscript h "name" = Ok name ->
  item_get z hid = Ok itens ->
  trigger_get z hid = Ok triggers ->
  problem_get z hid = Ok problems ->
  event_get z hid 1000 = Ok events ->
  coletar agora a z =
    (st <- gerar_estatisticas itens triggers ;;
     Ok (montar_export_data agora a version hid tech name
           itens triggers problems events, st)).
Proof.
  intros HL HV HH Hi Ht Hn Hit Htr Hpr Hev.
  unfold coletar, conectar_zabbix, obter_host_id, exportar_itens,
    exportar_triggers, exportar_problemas, exportar_eventos.
  destruct (login z (url a) (user a) (password a)) as [[]|]; [|discriminate].
  rewrite HV, HH. cbn [bind]. rewrite Hi, Ht, Hn. cbn [bind].
  rewrite Hit, Htr, Hpr, Hev. reflexivity.
Qed.

Lemma coletar_Ok (agora : string) (a : args) (z : zabbix) (d : pydict) (st : stats) :
  coletar agora a z = Ok (d, st) ->
  exists h hs version hid tech name itens triggers problems events,
    host_get z (hostname a) = Ok (h :: hs) /\
    api_version z = Ok version /\
    py_subscript h "hostid" = Ok hid /\
    py_subscript h "host" = Ok tech /\
    py_subscript h "name" = Ok name /\
    item_get z hid = Ok itens /\
    trigger_get z hid = Ok triggers /\
    problem_get z hid = Ok problems /\
    event_get z hid 1000 = Ok events /\
    gerar_estatisticas itens triggers = Ok st /\
    d = montar_export_data agora a version hid tech name
          itens triggers problems events.
Proof.
  unfold coletar, conectar_zabbix, obter_host_id, exportar_itens,
    exportar_triggers, exportar_problemas, exportar_eventos.
  destruct (login z (url a) (user a) (password a)) as [[]|];
    [|intros; discriminate]. cbn [bind].
  destruct (api_version z) as [version|] eqn:EV; [|intros; discriminate].
  cbn [bind].
  destruct (host_get z (hostname a)) as [[|h hs]|] eqn:EH;
    try (intros; discriminate).
  cbn [bind].
  destruct (py_subscript h "hostid") as [hid|] eqn:E1; [|intros; discriminate].
  cbn [bind].
  destruct (py_subscript h "name") as [name|] eqn:E2; [|intros; discriminate].
  cbn [bind].
  destruct (py_subscript h "host") as [tech|] eqn:E3; [|intros; discriminate].
  cbn [bind].
  destruct (item_get z hid) as [itens|] eqn:E4; [|intros; discriminate].
  cbn [bind].
  destruct (trigger_get z hid) as [triggers|] eqn:E5; [|intros; discriminate].
  cbn [bind].
  destruct (problem_get z hid) as [problems|] eqn:E6; [|intros; discriminate].
  cbn [bind].
  destruct (event_get z hid 1000) as [events|] eqn:E7; [|intros; discriminate].
  cbn [bind].
  destruct (gerar_estatisticas itens triggers) as [st'|] eqn:E8;
    [|intros; discriminate].
  cbn [bind]. intros [= <- <-].
  exists h, hs, version, hid, tech, name, itens, triggers, problems, events.
  repeat split; assumption.
Qed.



(** X21. Files are not rolled back.  When the JSON file was written and the
    document is asked for and its renderer raises while the text is built,
    the run raises the same exception with the JSON file already written and
    nothing else; with format all, when the spreadsheet renderer raises after
    the document was rendered, the JSON file and the document stay; and a
    document whose text the file refuses leaves its file behind, without all
    of its content. *)
Theorem main_keeps_earlier_files (rt : runtime) (agora : string) (a : args)
    (z : zabbix) (fs : arquivos) (d : pydict) (st : stats) (e : pyexc) :
  coletar agora a z = Ok (d, st) ->
  (forall text, quer_json (format a) = true -> quer_html (format a) = true ->
   salvar_json rt d = Ok text ->
   gerar_html rt d st = Raise e -> e <> UnicodeEncodeError ->
   main rt agora a z fs =
     ((fs ++ [((output_base a ++ ".json")%string, JsonFile text)])%list,
      Raise e)) /\
  (forall text doc, format a = Fall ->
   salvar_json rt d = Ok text ->
   gerar_html rt d st = Ok doc -> gerar_excel rt d st = Raise e ->
   main rt agora a z fs =
     ((fs ++ [((output_base a ++ ".json")%string, JsonFile text);
              ((output_base a ++ ".html")%string, HtmlFile doc)])%list,
      Raise e)) /\
  (forall doc, format a = Fhtml ->
   montar_html rt d st = Ok doc ->
   forallb (printable rt) (html_values doc) = true ->
   forallb (encodable rt) (html_values doc) = false ->
   main rt agora a z fs =
     ((fs ++ [((output_base a ++ ".html")%string, Incompleto)])%list,
      Raise UnicodeEncodeError)).
Proof.
  intros Hc. unfold main, io_bind, lift. rewrite Hc. cbn [fst snd].
  unfold salvar, io_bind. split; [|split].
  - intros text -> -> Hj Hh Hne.
    rewrite (salvar_json_io_Ok _ _ _ _ _ Hj).
    now rewrite (gerar_html_io_Raise _ _ _ _ _ _ Hh Hne).
  - intros text doc -> Hj Hh Hx. cbn [quer_json quer_html quer_excel].
    rewrite (salvar_json_io_Ok _ _ _ _ _ Hj).
    rewrite (gerar_html_io_Ok _ _ _ _ _ _ Hh).
    unfold gerar_excel_io, io_bind, lift. rewrite Hx.
    now rewrite <- app_assoc.
  - intros doc -> Hm Hp He. cbn [quer_json quer_html quer_excel].
    unfold io_ret, gerar_html_io, io_bind, lift, interromper.
    now rewrite Hm, Hp, He.
Qed.

Lemma main_keeps_earlier_files_witness :
  (exists d st text,
     coletar agora_exemplo (args_exemplo "srv01" Fboth) zabbix_prioridade_texto
     = Ok (d, st) /\
     salvar_json rt_exemplo d = Ok text /\
     gerar_html rt_exemplo d st = Raise ValueError /\
     main rt_exemplo agora_exemplo (args_exemplo "srv01" Fboth)
       zabbix_prioridade_texto []
     = ([("srv01_relatorio.json", JsonFile text)], Raise ValueError)) /\
  (exists d st text doc,
     coletar agora_exemplo (args_exemplo "srv01" Fall) zabbix_tag_numerica
     = Ok (d, st) /\
     salvar_json rt_exemplo d = Ok text /\
     gerar_html rt_exemplo d st = Ok doc /\
     gerar_excel rt_exemplo d st = Raise TypeError /\
     main rt_exemplo agora_exemplo (args_exemplo "srv01" Fall)
       zabbix_tag_numerica []
     = ([("srv01_relatorio.json", JsonFile text);
         ("srv01_relatorio.html", HtmlFile doc)], Raise TypeError)) /\
  (exists d st doc,
     coletar agora_exemplo (args_exemplo "srv01" Fhtml) zabbix_surrogate
     = Ok (d, st) /\
     montar_html rt_exemplo d st = Ok doc /\
     main rt_exemplo agora_exemplo (args_exemplo "srv01" Fhtml) zabbix_surrogate []
     = ([("srv01_relatorio.html", Incompleto)], Raise UnicodeEncodeError)).
Proof.
  split; [|split].
  - do 3 eexists. split; [vm_compute; reflexivity|].
    split; [vm_compute; reflexivity|]. split; [vm_compute; reflexivity|].
    apply (proj1 (main_keeps_earlier_files rt_exemplo agora_exemplo
                    (args_exemplo "srv01" Fboth) zabbix_prioridade_texto []
                    _ _ ValueError ltac:(vm_compute; reflexivity)));
      first [discriminate | vm_compute; reflexivity].
  - do 4 eexists. split; [vm_compute; reflexivity|].
    split; [vm_compute; reflexivity|].
    split; [vm_compute; reflexivity|]. split; [vm_compute; reflexivity|].
    apply (proj1 (proj2 (main_keeps_earlier_files rt_exemplo agora_exemplo
                    (args_exemplo "srv01" Fall) zabbix_tag_numerica []
                    _ _ TypeError ltac:(vm_compute; reflexivity))));
      vm_compute; reflexivity.
  - do 3 eexists. split; [vm_compute; reflexivity|].
    split; [vm_compute; reflexivity|].
    eapply (proj2 (proj2 (main_keeps_earlier_files rt_exemplo agora_exemplo
                    (args_exemplo "srv01" Fhtml) zabbix_surrogate []
                    _ _ ValueError ltac:(vm_compute; reflexivity))));
      vm_compute; reflexivity.
Defined.

(** ** The JSON file *)

(** X22. Two record sets with the same JSON text are the same record set:
    the file determines the data it was written from, also when the text is
    what two runs of the writer returned; and the text of a value does not
    depend on how deeply it is nested apart from its indentation, every
    nesting level reading back to the same value. *)
Theorem salvar_json_injective (rt : runtime) (d1 d2 : pydict) (level : nat)
    (v : pyval) :
  unique_keys (VDict d1) = true -> unique_keys (VDict d2) = true ->
  unique_keys v = true ->
  (json_dump 0 (VDict d1) = json_dump 0 (VDict d2) -> d1 = d2) /\
  (forall text, salvar_json rt d1 = Ok text -> salvar_json rt d2 = Ok text ->
                d1 = d2) /\
  json_loads (json_dump level v) = Ok v.
Proof.
  intros H1 H2 Hv.
  assert (Hinj : json_dump 0 (VDict d1) = json_dump 0 (VDict d2) -> d1 = d2).
  { intros E.
    pose proof (json_loads_dump 0 _ H1) as L1.
    pose proof (json_loads_dump 0 _ H2) as L2.
    rewrite E in L1. rewrite L1 in L2. now injection L2. }
  split; [exact Hinj|]. split; [|now apply json_loads_dump].
  unfold salvar_json. intros text E1 E2.
  destruct (json_falha rt (VDict d1)); [discriminate|].
  destruct (json_falha rt (VDict d2)); [discriminate|].
  apply Hinj. congruence.
Qed.

Lemma salvar_json_injective_witness :
  unique_keys (VDict dados_exemplo) = true /\
  unique_keys (VList itens_exemplo) = true /\
  (json_dump 0 (VDict dados_exemplo) = json_dump 0 (VDict dados_exemplo) ->
   dados_exemplo = dados_exemplo) /\
  json_loads (json_dump 2 (VList itens_exemplo)) = Ok (VList itens_exemplo).
Proof.
  split; [reflexivity|]. split; [reflexivity|].
  destruct (salvar_json_injective rt_exemplo dados_exemplo dados_exemplo 2
              (VList itens_exemplo) eq_refl eq_refl eq_refl) as (H1 & _ & H3).
  split; [exact H1 | exact H3].
Defined.

(** X23. When the JSON file is asked for and the fetch and aggregation steps
    succeed, the first file a run touches is the JSON file.  When every
    string of the record set is free of lone surrogates and every integer
    within the digit limit, the file holds the full text, which reads back
    to a dictionary with the keys export_info, host, itens, triggers,
    problems and events in this order, whose four record lists are exactly
    the lists the server returned for the resolved host.  Otherwise the
    writer raises, and the run ends with that exception and leaves the JSON
    file behind, without all of its content, as its only file. *)
Theorem main_json_file (rt : runtime) (agora : string) (a : args) (z : zabbix)
    (d : pydict) (st : stats) :
  coletar agora a z = Ok (d, st) -> quer_json (format a) = true ->
  unique_keys (VDict d) = true ->
  (json_ok rt (VDict d) = true ->
   (exists rest r,
      main rt agora a z [] =
        (((output_base a ++ ".json")%string, JsonFile (json_dump 0 (VDict d)))
           :: rest, r)) /\
   json_loads (json_dump 0 (VDict d)) = Ok (VDict d)) /\
  (json_ok rt (VDict d) = false ->
   exists e, salvar_json rt d = Raise e /\
             main rt agora a z [] =
               ([((output_base a ++ ".json")%string, Incompleto)], Raise e)) /\
  map fst d = ["export_info"; "host"; "itens"; "triggers"; "problems"; "events"] /\
  exists h hs hid itens triggers problems events,
    host_get z (hostname a) = Ok (h :: hs) /\ py_subscript h "hostid" = Ok hid /\
    item_get z hid = Ok itens /\ lookup "itens" d = Some (VList itens) /\
    trigger_get z hid = Ok triggers /\ lookup "triggers" d = Some (VList triggers) /\
    problem_get z hid = Ok problems /\ lookup "problems" d = Some (VList problems) /\
    event_get z hid 1000 = Ok events /\ lookup "events" d = Some (VList events).
Proof.
  intros Hc Hj Hu. split; [|split].
  - intros Hok. split; [|now apply json_loads_dump].
    apply json_falha_ok in Hok.
    unfold main, io_bind, lift. rewrite Hc. cbn [fst snd].
    unfold salvar. rewrite Hj. unfold io_bind at 1.
    unfold salvar_json_io, salvar_json. rewrite Hok. unfold escrever. cbn [app].
    match goal with
    | |- exists rest r, ?m ?fs0 = _ =>
        destruct (appends_bind _ _ _ _
                    (appends_if (quer_html (format a)) _ _
                       (gerar_html_io_appends rt d st (output_base a ++ ".html")))
                    (appends_bind _ _ _ _
                       (appends_if (quer_excel (format a)) _ _
                          (gerar_excel_io_appends rt d st (output_base a ++ ".xlsx")))
                       appends_ret) fs0) as (w & Hw & _)
    end.
    match type of Hw with
    | fst ?t = _ => destruct t as [fs' r] eqn:E
    end.
    cbn [fst] in Hw. subst fs'. cbn [app]. eauto.
  - intros Hno.
    destruct (json_falha rt (VDict d)) as [e|] eqn:E.
    + exists e. unfold salvar_json. rewrite E. split; [reflexivity|].
      unfold main, io_bind, lift. rewrite Hc. cbn [fst snd].
      unfold salvar. rewrite Hj. unfold io_bind at 1.
      unfold salvar_json_io, salvar_json. rewrite E. reflexivity.
    + apply json_falha_ok in E. congruence.
  - destruct (coletar_Ok _ _ _ _ _ Hc)
      as (h & hs & version & hid & tech & name & itens & triggers & problems
          & events & Hh & _ & Hi & _ & _ & Hit & Htr & Hpr & Hev & _ & ->).
    split; [reflexivity|].
    exists h, hs, hid, itens, triggers, problems, events.
    repeat split; assumption || reflexivity.
Qed.

Lemma main_json_file_witness :
  coletar agora_exemplo (args_exemplo "srv01" Fboth) zabbix_exemplo
  = Ok (dados_exemplo, stats_exemplo) /\
  json_loads (json_dump 0 (VDict dados_exemplo)) = Ok (VDict dados_exemplo) /\
  (exists rest r,
     main rt_exemplo agora_exemplo (args_exemplo "srv01" Fboth) zabbix_exemplo []
     = (("srv01_relatorio.json", JsonFile (json_dump 0 (VDict dados_exemplo)))
          :: rest, r)) /\
  (exists d st e,
     coletar agora_exemplo (args_exemplo "srv01" Fboth) zabbix_surrogate
     = Ok (d, st) /\
     salvar_json rt_exemplo d = Raise e /\
     main rt_exemplo agora_exemplo (args_exemplo "srv01" Fboth) zabbix_surrogate []
     = ([("srv01_relatorio.json", Incompleto)], Raise e)).
Proof.
  split; [reflexivity|].
  destruct (main_json_file rt_exemplo agora_exemplo (args_exemplo "srv01" Fboth)
              zabbix_exemplo dados_exemplo stats_exemplo eq_refl eq_refl eq_refl)
    as (H1 & _).
  destruct (H1 ltac:(vm_compute; reflexivity)) as (H2 & H3).
  split; [exact H3|]. split; [exact H2|].
  assert (Hc : exists d st,
             coletar agora_exemplo (args_exemplo "srv01" Fboth) zabbix_surrogate
             = Ok (d, st)) by (do 2 eexists; vm_compute; reflexivity).
  destruct Hc as (d & st & Hc).
  destruct (main_json_file rt_exemplo agora_exemplo (args_exemplo "srv01" Fboth)
              zabbix_surrogate d st Hc eq_refl
              ltac:(injection Hc as <- _; vm_compute; reflexivity))
    as (_ & H4 & _).
  destruct (H4 ltac:(injection Hc as <- _; vm_compute; reflexivity)) as (e & He & Hm).
  exists d, st, e. repeat split; assumption.
Defined.

(** X24. End to end: when the server answers every request with a host that
    has its three fields and with well-formed records that can be written,
    a run of format html, json or both returns, and the files it leaves are
    exactly the requested ones, rendered from the assembled record set. *)
Theorem main_succeeds (rt : runtime) (agora : string) (a : args) (z : zabbix)
    (fs : arquivos) :
  respostas_ok rt agora a z -> quer_excel (format a) = false ->
  exists d st doc,
    coletar agora a z = Ok (d, st) /\ gerar_html rt d st = Ok doc /\
    main rt agora a z fs = ((fs ++ arquivos_de a d doc)%list, Ok tt) /\
    map fst (arquivos_de a d doc) = nomes_esperados a.
Proof.
  intros (version & h & hs & hid & tech & name & itens & trigs & probs & evs
          & HL & HV & HH & Hi & Ht & Hn & Hit & Htr & Hpr & Hev & HD & HR
          & Oit & Otr & Opr & Oev & HJ) Hx.
  pose proof (forallb_Forall _ _ Oit) as Fit.
  pose proof (forallb_Forall _ _ Otr) as Ftr.
  destruct (stats_of_ok_records rt itens trigs Fit Ftr) as (st & Hst & Hok).
  set (d := montar_export_data agora a version hid tech name itens trigs probs evs)
    in *.
  assert (Hc : coletar agora a z = Ok (d, st)).
  { rewrite (coletar_steps agora a z h hs version hid tech name
               itens trigs probs evs) by assumption.
    now rewrite Hst. }
  assert (Hd : data_ok rt d = true).
  { cbn [forallb] in HR.
    apply andb_prop in HR. destruct HR as [_ HR].
    apply andb_prop in HR. destruct HR as [Rhid HR].
    apply andb_prop in HR. destruct HR as [Rtech HR].
    apply andb_prop in HR. destruct HR as [Rname _].
    unfold data_ok.
    assert (Hh : header_ok rt d = true).
    { unfold header_ok, shown_key, d, montar_export_data. cbn.
      now rewrite Rname, Rtech, Rhid, HD. }
    rewrite Hh. cbn. now rewrite Oit, Otr, Opr, Oev. }
  destruct (gerar_html_total rt d st Hd Hok) as [doc Hdoc].
  exists d, st, doc. split; [assumption|]. split; [assumption|].
  unfold main, io_bind, lift. rewrite Hc. cbn [fst snd].
  unfold salvar, arquivos_de, nomes_esperados, io_bind.
  rewrite Hx.
  destruct (quer_json (format a)) eqn:Qj; destruct (quer_html (format a)) eqn:Qh;
    cbn [app map fst].
  - specialize (HJ eq_refl). apply json_falha_ok in HJ.
    rewrite (salvar_json_io_Ok rt d _ (json_dump 0 (VDict d)))
      by (unfold salvar_json; now rewrite HJ).
    rewrite (gerar_html_io_Ok _ _ _ _ _ _ Hdoc).
    unfold io_ret. now rewrite <- app_assoc.
  - specialize (HJ eq_refl). apply json_falha_ok in HJ.
    rewrite (salvar_json_io_Ok rt d _ (json_dump 0 (VDict d)))
      by (unfold salvar_json; now rewrite HJ).
    unfold io_ret. auto.
  - unfold io_ret at 1. rewrite (gerar_html_io_Ok _ _ _ _ _ _ Hdoc).
    unfold io_ret. auto.
  - unfold io_ret. now rewrite app_nil_r.
Qed.

Lemma main_succeeds_witness :
  respostas_ok rt_exemplo agora_exemplo (args_exemplo "srv01" Fboth) zabbix_exemplo /\
  exists d st doc,
    coletar agora_exemplo (args_exemplo "srv01" Fboth) zabbix_exemplo = Ok (d, st) /\
    gerar_html rt_exemplo d st = Ok doc /\
    main rt_exemplo agora_exemplo (args_exemplo "srv01" Fboth) zabbix_exemplo []
    = (([] ++ arquivos_de (args_exemplo "srv01" Fboth) d doc)%list, Ok tt) /\
    map fst (arquivos_de (args_exemplo "srv01" Fboth) d doc)
    = nomes_esperados (args_exemplo "srv01" Fboth).
Proof.
  assert (R : respostas_ok rt_exemplo agora_exemplo (args_exemplo "srv01" Fboth)
                zabbix_exemplo).
  { exists (VStr "6.0.0"), host_exemplo, [], (VStr "10084"), (VStr "srv01"),
      (VStr "Server 01"), itens_exemplo, triggers_exemplo, problems_exemplo,
      events_exemplo.
    repeat (split; [vm_compute; reflexivity|]).
    intros _. vm_compute. reflexivity. }
  split; [exact R|].
  apply (main_succeeds rt_exemplo agora_exemplo (args_exemplo "srv01" Fboth)
           zabbix_exemplo [] R).
  reflexivity.
Defined.

(** ** Widths *)

Lemma percent_bounds (c m : nat) :
  (1 <= c)%nat -> (c <= m)%nat ->
  (0 < inject_Z (Z.of_nat c) / inject_Z (Z.of_nat m) * 100 /\
   inject_Z (Z.of_nat c) / inject_Z (Z.of_nat m) * 100 <= 100)%Q.
Proof.
  intros Hc Hm.
  assert (Hy : (0 < inject_Z (Z.of_nat m))%Q).
  { change 0%Q with (inject_Z 0). rewrite <- Zlt_Qlt. lia. }
  assert (Hx : (0 < inject_Z (Z.of_nat c))%Q).
  { change 0%Q with (inject_Z 0). rewrite <- Zlt_Qlt. lia. }
  assert (Hxy : (inject_Z (Z.of_nat c) <= inject_Z (Z.of_nat m))%Q).
  { rewrite <- Zle_Qle. lia. }
  assert (H0 : (0 < inject_Z (Z.of_nat c) / inject_Z (Z.of_nat m))%Q).
  { apply Qlt_shift_div_l; [assumption|]. now rewrite Qmult_0_l. }
  assert (H1 : (inject_Z (Z.of_nat c) / inject_Z (Z.of_nat m) <= 1)%Q).
  { apply Qle_shift_div_r; [assumption|]. now rewrite Qmult_1_l. }
  revert H0 H1.
  generalize (inject_Z (Z.of_nat c) / inject_Z (Z.of_nat m))%Q. intros q H0 H1.
  split; lra.
Qed.

Lemma bars_bounded (c : list (string * nat)) (m : nat) (bars : list bar) :
  Forall (fun e => (1 <= snd e <= m)%nat) c ->
  incl (map (fun b => (bar_label b, bar_count b)) bars) c ->
  Forall (bar_against m) bars ->
  Forall (fun b => (0 < bar_width b /\ bar_width b <= 100)%Q) bars.
Proof.
  intros Hc Hi Hb. rewrite Forall_forall in *. intros b Hin.
  specialize (Hb b Hin). unfold bar_against in Hb. rewrite Hb.
  assert (He : In (bar_label b, bar_count b) c).
  { apply Hi. apply in_map_iff. eauto. }
  specialize (Hc _ He). simpl in Hc. apply percent_bounds; lia.
Qed.

Lemma counts_in_range (c : list (string * nat)) :
  Forall (fun e => (1 <= snd e)%nat) c ->
  Forall (fun e => (1 <= snd e <= max_count c)%nat) c.
Proof.
  intros H. pose proof (max_count_upper c) as Hu.
  rewrite Forall_forall in *. intros e He. split; auto.
Qed.

Lemma count_le_sum {K : Type} (c : list (K * nat)) (e : K * nat) :
  In e c -> (snd e <= fold_right Nat.add 0%nat (map snd c))%nat.
Proof.
  induction c as [|x c IH]; simpl; [tauto|].
  intros [->|H]; [lia | specialize (IH H); lia].
Qed.

(** X25. No width leaves the range: in a document rendered from the
    statistics of the aggregator every bar of the chart by collection type
    and of the chart by value type is wider than 0 and at most 100 per cent,
    and so is the percentage of every row of the frequency table. *)
Theorem widths_within_range (itens triggers : list pyval) (st : stats)
    (tipos valores : list bar) :
  gerar_estatisticas itens triggers = Ok st ->
  html_tipos st = Ok tipos -> html_valores st = Ok valores ->
  Forall (fun b => (0 < bar_width b /\ bar_width b <= 100)%Q) tipos /\
  Forall (fun b => (0 < bar_width b /\ bar_width b <= 100)%Q) valores /\
  (forall l rows,
     html_frequentes (VList l) = Ok (Some rows) ->
     Forall (fun r => (0 < fr_width r /\ fr_width r <= 100)%Q) rows).
Proof.
  intros Hst Ht Hv.
  destruct (gerar_estatisticas_positive _ _ _ Hst) as (Pt & Pv & _).
  destruct (html_charts st Pt Pv) as (t' & v' & Ht' & Hv' & Mt & Mv & Bt & Bv).
  assert (t' = tipos) by congruence. assert (v' = valores) by congruence.
  subst t' v'. split; [|split].
  - apply (bars_bounded (most_common 8 (por_tipo (st_itens st))) _ _
             (counts_in_range _ (firstn_Forall _ 8 _
                (Permutation_Forall (most_common_all_perm _) Pt))));
      [rewrite Mt; apply incl_refl | exact Bt].
  - apply (bars_bounded (por_valor (st_itens st)) _ _ (counts_in_range _ Pv));
      [|exact Bv].
    rewrite Mv. intros e He.
    eapply Permutation_in; [symmetry; apply most_common_all_perm | exact He].
  - clear. intros l rows H. unfold html_frequentes in H.
    destruct l as [|e0 l0]; [discriminate|].
    cbn [py_truthy py_iter bind py_len] in H. set (l := e0 :: l0) in *.
    inv_binds. injection H as ->.
    match goal with T : top_alerts _ = Ok _ |- _ => rename T into Htop end.
    pose proof (top_alerts_Ok_events _ _ Htop) as Hev.
    destruct (top_alerts_grouped l Hev) as [Hh Hg].
    rewrite Hg in Htop. injection Htop as <-.
    match goal with M : mapM _ _ = Ok _ |- _ => rename M into HM end.
    destruct (freq_rows (length l) 1
                (most_common 20 (grouped py_key_eqb (map event_name l))))
      as (rows' & Hr' & Hn & _ & Hw); [simpl; lia|].
    assert (E : Ok rows' = Ok rows) by (rewrite <- Hr'; exact HM).
    injection E as ->.
    set (groups := grouped py_key_eqb (map event_name l)) in *.
    assert (Hpos : Forall (fun e => (1 <= snd e)%nat) groups)
      by (apply (grouped_positive py_key_eqb (fun v => py_hashable v = true)
                   py_key_eqb_refl _ Hh)).
    assert (Hsum : fold_right Nat.add 0%nat (map snd groups) = length l).
    { unfold groups.
      rewrite (grouped_total py_key_eqb (fun v => py_hashable v = true)
                 py_key_eqb_refl py_key_eqb_sym py_key_eqb_trans _ Hh).
      apply length_map. }
    rewrite Forall_forall in *. intros r Hr.
    destruct (Hw r Hr) as [-> _].
    assert (Hin : In (fr_name r, fr_count r) groups).
    { assert (In (fr_name r, fr_count r) (most_common 20 groups)).
      { rewrite <- Hn. apply in_map_iff. eauto. }
      unfold most_common in H.
      eapply Permutation_in; [symmetry; apply most_common_all_perm|].
      rewrite <- (firstn_skipn 20 (most_common_all groups)).
      apply in_or_app. now left. }
    pose proof (Hpos _ Hin) as H1. pose proof (count_le_sum _ _ Hin) as H2.
    rewrite Hsum in H2. cbn [snd] in H1, H2. apply percent_bounds; lia.
Qed.

Lemma widths_within_range_witness :
  exists tipos valores,
    gerar_estatisticas itens_exemplo triggers_exemplo = Ok stats_exemplo /\
    html_tipos stats_exemplo = Ok tipos /\ html_valores stats_exemplo = Ok valores /\
    Forall (fun b => (0 < bar_width b /\ bar_width b <= 100)%Q) tipos /\
    Forall (fun b => (0 < bar_width b /\ bar_width b <= 100)%Q) valores.
Proof.
  eexists. eexists. split; [reflexivity|].
  split; [vm_compute; reflexivity|]. split; [vm_compute; reflexivity|].
  destruct (widths_within_range itens_exemplo triggers_exemplo stats_exemplo _ _
              eq_refl ltac:(vm_compute; reflexivity) ltac:(vm_compute; reflexivity))
    as (H1 & H2 & _).
  split; [exact H1 | exact H2].
Defined.

(** ** Cell fills of the workbook *)

Lemma priority_label_cases (p : pyval) (info : string * string) :
  table_get TRIGGER_PRIORITIES p unknown_info = Ok info ->
  (py_eq_str p "5" = true /\ fst info = "Desastre") \/
  (py_eq_str p "4" = true /\ fst info = "Alta") \/
  (py_eq_str p "3" = true /\ fst info = "Média") \/
  (py_eq_str p "2" = true /\ fst info = "Aviso") \/
  (py_eq_str p "1" = true /\ fst info = "Informação") \/
  (py_eq_str p "0" = true /\ fst info = "Não classificada") \/
  (Forall (fun c => py_eq_str p c = false) priority_codes /\
   fst info = "Desconhecido").
Proof.
  destruct p; simpl; try discriminate;
    try (intros [= <-]; do 6 right; split; [repeat constructor | reflexivity]).
  intros [= <-].
  destruct (String.eqb_spec s "0") as [->|N0]; [do 5 right; left; now split|].
  destruct (String.eqb_spec s "1") as [->|N1]; [do 4 right; left; now split|].
  destruct (String.eqb_spec s "2") as [->|N2]; [do 3 right; left; now split|].
  destruct (String.eqb_spec s "3") as [->|N3]; [do 2 right; left; now split|].
  destruct (String.eqb_spec s "4") as [->|N4]; [right; left; now split|].
  destruct (String.eqb_spec s "5") as [->|N5]; [left; now split|].
  do 6 right. split; [|reflexivity].
  repeat constructor; now apply String.eqb_neq.
Qed.

(** X26. The fill of a sheet cell follows the row's label.  The status cell
    of an item row is green exactly when the row reads "Ativo".  The severity
    cell of a trigger row is left without fill exactly when the row reads
    "Não classificada" or "Desconhecido".  The severity cell of an alert row
    is filled only for "Desastre", "Alta" and "Média": an alert of severity
    "Aviso" or "Informação" has no fill although a trigger of that priority
    has one. *)
Theorem sheet_fill_follows_label (rt : runtime) :
  (forall i r, xl_item_row_of i = Ok r ->
     (xi_fill r = "C8E6C9" <-> xi_status r = "Ativo")) /\
  (forall t r, xl_trigger_row_of t = Ok r ->
     (xt_fill r = None <->
      In (xt_priority r) ["Não classificada"; "Desconhecido"])) /\
  (forall ip r, xl_problem_row_of rt ip = Ok r ->
     (xp_fill r = None <->
      In (xp_severity r)
        ["Não classificada"; "Informação"; "Aviso"; "Desconhecido"])).
Proof.
  split; [|split].
  - intros i r H. unfold xl_item_row_of in H. inv_binds. injection H as <-.
    cbn [xi_fill xi_status].
    match goal with |- context [String.eqb ?s "Ativo"] =>
      destruct (String.eqb_spec s "Ativo") as [->|N] end.
    + tauto.
    + split; [discriminate | intros E; now destruct N].
  - intros t r H. unfold xl_trigger_row_of in H. inv_binds. injection H as <-.
    cbn [xt_fill xt_priority]. unfold xl_trigger_fill.
    match goal with T : table_get _ _ _ = Ok _ |- _ =>
      apply priority_label_cases in T;
      destruct T as [[E L]|[[E L]|[[E L]|[[E L]|[[E L]|[[E L]|[E L]]]]]]] end;
      rewrite L.
    7: { unfold priority_codes in E.
         repeat match goal with F : Forall _ (_ :: _) |- _ =>
                  inversion F; subst; clear F end.
         repeat match goal with F : py_eq_str _ _ = false |- _ =>
                  rewrite F; clear F end.
         simpl. split; auto. }
    all: match goal with E : py_eq_str ?v _ = true |- _ =>
           destruct v; try discriminate; simpl in E; apply String.eqb_eq in E;
           subst; simpl end;
      split; intros H'; try discriminate H'; auto;
      repeat (destruct H' as [H'|H']; try discriminate H'); contradiction.
  - intros [i p] r H. unfold xl_problem_row_of in H. inv_binds. injection H as <-.
    cbn [xp_fill xp_severity]. unfold xl_problem_fill.
    match goal with T : table_get _ _ _ = Ok _ |- _ =>
      apply priority_label_cases in T;
      destruct T as [[E L]|[[E L]|[[E L]|[[E L]|[[E L]|[[E L]|[E L]]]]]]] end;
      rewrite L.
    7: { unfold priority_codes in E.
         repeat match goal with F : Forall _ (_ :: _) |- _ =>
                  inversion F; subst; clear F end.
         repeat match goal with F : py_eq_str _ _ = false |- _ =>
                  rewrite F; clear F end.
         simpl. split; auto. }
    all: match goal with E : py_eq_str ?v _ = true |- _ =>
           destruct v; try discriminate; simpl in E; apply String.eqb_eq in E;
           subst; simpl end;
      split; intros H'; try discriminate H'; auto;
      repeat (destruct H' as [H'|H']; try discriminate H'); contradiction.
Qed.

Lemma sheet_fill_follows_label_witness :
  exists r,
    xl_problem_row_of rt_exemplo
      (0%nat, VDict [("name", VStr "disk slow"); ("severity", VStr "2")]) = Ok r /\
    xp_severity r = "Aviso" /\ xp_fill r = None.
Proof.
  eexists. split; [vm_compute; reflexivity|]. split; [reflexivity|].
  destruct (sheet_fill_follows_label rt_exemplo) as (_ & _ & H).
  apply (H (0%nat, VDict [("name", VStr "disk slow"); ("severity", VStr "2")]) _
           ltac:(vm_compute; reflexivity)).
  simpl. tauto.
Defined.
